(** * ehr_ml.clmbr.featurizer: the CLMBR training loop, representation
      extractor and pretrained loader

    A shallow embedding of [src/ehr_ml/clmbr/featurizer.py].  The Python
    methods of [CLMBRFeaturizer] are written in a state-and-exception
    monad over the featurizer object and the outside world (file system,
    open file objects, live batch sources, random generator, and a
    chronological trace of the observable effects).  The collaborators
    that the module imports (the model, the optimizer, the batch source,
    the dataset) are the fields of the class [Collaborators]. *)

From Stdlib Require Import ZArith Floats List Lia Bool Ascii.
From stdpp Require Import gmap strings list.

Open Scope Z_scope.

(** ** Exceptions and results *)

Inductive exn : Type :=
  | ZeroDivisionError
  | OverflowError
  | IndexError
  | ValueError
  | RuntimeError
  | FileNotFoundError
  | FileExistsError
  | IsADirectoryError
  | AttributeError
  | UnpicklingError
  | CollaboratorError (code : Z).

Inductive result (A : Type) : Type :=
  | Ok (a : A)
  | Raise (e : exn).
Arguments Ok {A} a.
Arguments Raise {A} e.


Definition rbind {A B} (r : result A) (k : A → result B) : result B :=
  match r with Ok a => k a | Raise e => Raise e end.

(** ** Python numbers

    A Python [float] is an IEEE 754 binary64 value, Rocq's primitive
    [float]; a Python [int] is unbounded, [Z]. *)

Inductive pynum : Type :=
  | PInt (z : Z)
  | PFloat (f : float).

(** [float(z)]: correctly rounded, [OverflowError] past the finite range. *)
Definition float_of_Z (z : Z) : float :=
  SF2Prim (binary_normalize prec emax z 0 false).

Definition py_float (z : Z) : result float :=
  let f := float_of_Z z in
  if is_infinity f then Raise OverflowError else Ok f.

Definition float_truediv (x y : float) : result float :=
  if PrimFloat.eqb y 0%float then Raise ZeroDivisionError
  else Ok (x / y)%float.

(** [a / b] on two ints: the correctly rounded quotient. *)
Definition int_truediv (a b : Z) : result float :=
  if b =? 0 then Raise ZeroDivisionError
  else if a =? 0 then Ok (if b <? 0 then (-0)%float else 0%float)
  else
    let q := SF2Prim (SFdiv prec emax
                        (S754_finite (a <? 0) (Z.to_pos (Z.abs a)) 0)
                        (S754_finite (b <? 0) (Z.to_pos (Z.abs b)) 0)) in
    if is_infinity q then Raise OverflowError else Ok q.

(** Python's [/]. *)
Definition py_truediv (a b : pynum) : result float :=
  match a, b with
  | PInt x, PInt y => int_truediv x y
  | PFloat x, PInt y => rbind (py_float y) (float_truediv x)
  | PInt x, PFloat y => rbind (py_float x) (fun fx => float_truediv fx y)
  | PFloat x, PFloat y => float_truediv x y
  end.

(** Python's [+], as [total_loss += non_text_loss.item()] uses it: the
    right operand is a float. *)
Definition py_add_float (a : pynum) (x : float) : result pynum :=
  match a with
  | PInt z => rbind (py_float z) (fun fz => Ok (PFloat (fz + x)%float))
  | PFloat f => Ok (PFloat (f + x)%float)
  end.

(** Python's [<] on two floats. *)
Definition py_lt (x y : float) : bool := PrimFloat.ltb x y.

(** [range(n)] *)
Definition range (n : Z) : list Z := map Z.of_nat (seq 0 (Z.to_nat n)).

(** [enumerate(l)] *)
Definition enumerate {A} (l : list A) : list (nat * A) :=
  combine (seq 0 (length l)) l.

(** ** Paths: [os.path.join] of two components (posixpath) *)

Definition starts_with_slash (s : string) : bool :=
  match s with
  | String c _ => if Ascii.eqb c "/"%char then true else false
  | EmptyString => false
  end.

Fixpoint ends_with_slash (s : string) : bool :=
  match s with
  | EmptyString => false
  | String c EmptyString => Ascii.eqb c "/"%char
  | String _ r => ends_with_slash r
  end.

Definition os_path_join (a b : string) : string :=
  if starts_with_slash b then b
  else if (String.eqb a EmptyString || ends_with_slash a)%bool then (a +:+ b)%string
  else (a +:+ "/" +:+ b)%string.

(** ** Python dicts: insertion-ordered, a key's first insertion fixes its
    place and a later assignment replaces the value in place *)

Module PyDict.

Definition t (V : Type) := list (Z * V).

Fixpoint get {V} (k : Z) (d : t V) : option V :=
  match d with
  | [] => None
  | (k', v) :: r => if k =? k' then Some v else get k r
  end.

(** [d[k] = v] *)
Fixpoint set {V} (k : Z) (v : V) (d : t V) : t V :=
  match d with
  | [] => [(k, v)]
  | (k', v') :: r => if k =? k' then (k, v) :: r else (k', v') :: set k v r
  end.

(** [d.items()] *)
Definition items {V} (d : t V) : list (Z * V) := d.

(** What [d[k]] reads on a [defaultdict(dict)]: the stored value, or a
    fresh empty dict.  (The read also stores that empty dict under [k];
    an empty dict has no items, so no later read can tell.) *)
Definition get_default {V} (k : Z) (d : t (t V)) : t V :=
  match get k d with Some v => v | None => [] end.

End PyDict.

(** ** The state-and-exception monad

    A computation takes the state, and gives back a value or a raised
    exception together with the state it left behind: what a Python call
    did before it raised stays done. *)

Definition M (S A : Type) : Type := S → result A * S.

Definition ret {S A} (a : A) : M S A := fun s => (Ok a, s).

Definition raise {S A} (e : exn) : M S A := fun s => (Raise e, s).

Definition bind {S A B} (m : M S A) (k : A → M S B) : M S B :=
  fun s =>
    match m s with
    | (Ok a, s') => k a s'
    | (Raise e, s') => (Raise e, s')
    end.

Definition lift_result {S A} (r : result A) : M S A := fun s => (r, s).

Definition gets {S A} (f : S → A) : M S A := fun s => (Ok (f s), s).

Definition modify {S} (f : S → S) : M S unit := fun s => (Ok tt, f s).

Declare Scope py_scope.
Delimit Scope py_scope with py.
Notation "x <- m ;; k" := (bind m (fun x => k))
  (at level 100, m at next level, right associativity) : py_scope.
Notation "m ;; k" := (bind m (fun _ => k))
  (at level 100, right associativity) : py_scope.
Open Scope py_scope.

(** ** Configuration and the values exchanged with the collaborators *)

(** [self.model.config], with the keys this module reads. *)
Record config : Type := {
  cfg_model_dir : string;
  cfg_epochs_per_cycle : Z;
  cfg_warmup_epochs : pynum;
  cfg_batch_size : Z;
  cfg_eval_batch_size : Z;
  cfg_num_first : Z;
  cfg_lr : float;
  cfg_b1 : float;
  cfg_b2 : float;
  cfg_e : float;
  cfg_l2 : float;
  cfg_day_dropout : float;
  cfg_code_dropout : float;
  cfg_size : Z
}.

Inductive device : Type := Cpu | Cuda0.

(** The keyword arguments of [DataLoader(dataset, ...)]. *)
Record loader_args : Type := {
  la_threshold : Z;
  la_is_val : bool;
  la_batch_size : Z;
  la_seed : Z;
  la_day_dropout : option float;
  la_code_dropout : option float
}.

(** The keyword arguments of [OpenAIAdam(params, ...)]. *)
Record adam_settings : Type := {
  as_lr : float;
  as_schedule : string;
  as_warmup : float;
  as_t_total : Z;
  as_b1 : float;
  as_b2 : float;
  as_e : float;
  as_l2 : float
}.

(** One entry of [model.named_parameters()]. *)
Record param (tensor : Type) : Type := {
  p_name : string;
  p_requires_grad : bool;
  p_data : tensor
}.
Arguments p_name {tensor} _.
Arguments p_requires_grad {tensor} _.
Arguments p_data {tensor} _.

(** A numpy array of floats with three axes, and one with two. *)
Abbreviation ndarray3 := (list (list (list float))).
Abbreviation ndarray2 := (list (list float)).

(** What one [loss_file.write] adds to the file. *)
Inductive chunk : Type :=
  | EpochLine (epoch : Z)
  | TrainLossLine (l : float)
  | ValLossLine (l : float)
  | BlankLine.

(** The imported collaborators: [.dataset], [.opt], [.prediction_model],
    [.utils], [..extension.clmbr], [random], and the tensors of [torch]. *)
Class Collaborators : Type := {
  tensor : Type;
  batch : Type;
  dataset : Type;
  info : Type;
  loss : Type;
  adam_state : Type;
  rng : Type;
  (* random.randint(a, b) *)
  randint : rng → Z → Z → Z * rng;
  (* PatientTimelineDataset(extract, ontology, info, train_data, val_data) *)
  PatientTimelineDataset :
    string → string → string →
    list Z * list Z * list Z → list Z * list Z * list Z → result dataset;
  (* dataset.num_batches(batch_size, is_val) *)
  num_batches : dataset → Z → bool → Z;
  (* DataLoader(dataset, ...): the batches it will yield, each pull
     either a batch or an exception *)
  DataLoader : dataset → loader_args → result (list (result batch));
  (* batch["pid"] *)
  batch_pid : batch → list Z;
  (* PredictionModel(config, info).to(device) *)
  PredictionModel : config → info → device → result (list (param tensor));
  (* values, non_text_loss = model(batch): the loss, in train or eval mode *)
  model_call : list (param tensor) → bool → batch → result loss;
  (* non_text_loss.item() *)
  loss_item : loss → float;
  (* non_text_loss.backward() *)
  loss_backward : loss → list (param tensor) → result (list (param tensor));
  (* model.compute_embedding_batch(batch["rnn"]).cpu().numpy() *)
  compute_embedding_batch : list (param tensor) → batch → result ndarray3;
  tensor_shape : tensor → list Z;
  (* the optimizer's own state at construction, zero_grad() and step() *)
  adam_init : list (param tensor) → adam_settings → result adam_state;
  adam_zero_grad : list (param tensor) → list (param tensor);
  adam_step : adam_settings → adam_state → list (param tensor) →
              result (adam_state * list (param tensor));
  (* the JSON readers of .utils, on the text of the file *)
  parse_config : string → result config;
  parse_info : string → result info
}.

Section Featurizer.
Context `{C : Collaborators}.

Abbreviation params := (list (param tensor)).
Abbreviation state_dict_t := (list (string * tensor)).

(** ** The outside world *)

(** The file system: a flat map from path to what is stored there. *)
Inductive fobj : Type :=
  | FDir
  | FText (content : list chunk)
  | FStateDict (sd : state_dict_t)
  | FJson (text : string).

(** A file object returned by [open(path, "w")]: what was written and
    not yet flushed, and whether it was closed. *)
Record file_object : Type := {
  fo_path : string;
  fo_buffer : list chunk;
  fo_closed : bool
}.

Inductive logmsg : Type :=
  | LogBatchesPerEpoch (n : Z)
  | LogTotalBatches (n : Z)
  | LogSeenBatch (i : Z)
  | LogStartTraining
  | LogAboutToStart (epoch : Z)
  | LogEpochComplete (epoch : Z)
  | LogTrainLoss (l : float)
  | LogValLoss (l : float)
  | LogSavingBest (path : string)
  | LogTrainingComplete.

Inductive pbar_op : Type :=
  | PbarNew (total : option Z)
  | PbarDescEpoch (epoch : Z)
  | PbarDescEvaluating (epoch : Z)
  | PbarDescComputing
  | PbarUpdate (n : Z)
  | PbarClose.

(** The observable effects, in the order they happen. *)
Inductive event : Type :=
  | EvLog (m : logmsg)
  | EvSetUpLogging (path : string)
  | EvPbar (op : pbar_op)
  | EvLoaderEnter (a : loader_args)
  | EvLoaderExit
  | EvOptimizer (ps : params) (a : adam_settings)
  | EvMakedirs (path : string)
  | EvOpen (path : string)
  | EvWrite (fd : nat) (c : chunk)
  | EvFlush (fd : nat)
  | EvClose (fd : nat)
  | EvUnlink (path : string)
  | EvSave (path : string) (sd : state_dict_t).

Record world : Type := {
  w_fs : gmap string fobj;
  w_files : list file_object;
  w_loaders : nat;
  w_rng : rng;
  w_cuda : bool;
  w_trace : list event
}.

Definition set_fs (f : gmap string fobj → gmap string fobj) (w : world) : world :=
  {| w_fs := f (w_fs w); w_files := w_files w; w_loaders := w_loaders w;
     w_rng := w_rng w; w_cuda := w_cuda w; w_trace := w_trace w |}.

Definition set_files (f : list file_object → list file_object) (w : world) : world :=
  {| w_fs := w_fs w; w_files := f (w_files w); w_loaders := w_loaders w;
     w_rng := w_rng w; w_cuda := w_cuda w; w_trace := w_trace w |}.

Definition set_loaders (f : nat → nat) (w : world) : world :=
  {| w_fs := w_fs w; w_files := w_files w; w_loaders := f (w_loaders w);
     w_rng := w_rng w; w_cuda := w_cuda w; w_trace := w_trace w |}.

Definition set_rng (r : rng) (w : world) : world :=
  {| w_fs := w_fs w; w_files := w_files w; w_loaders := w_loaders w;
     w_rng := r; w_cuda := w_cuda w; w_trace := w_trace w |}.

Definition emit_w (ev : event) (w : world) : world :=
  {| w_fs := w_fs w; w_files := w_files w; w_loaders := w_loaders w;
     w_rng := w_rng w; w_cuda := w_cuda w; w_trace := w_trace w ++ [ev] |}.

(** ** The featurizer object *)

Record model_t : Type := {
  m_config : config;
  m_info : info;
  m_device : device;
  m_parameters : params;
  m_training : bool
}.

(** An [OpenAIAdam]: the parameters it was given, its [defaults], and
    its own state. *)
Record optimizer_t : Type := {
  opt_params : params;
  opt_defaults : adam_settings;
  opt_state : adam_state
}.

(** [self]: [self.model], and [self.optimizer] once [fit] has set it. *)
Record featurizer : Type := {
  model : model_t;
  optimizer : option optimizer_t
}.

Record state : Type := {
  st_self : featurizer;
  st_world : world
}.

Definition in_world {A} (m : M world A) : M state A :=
  fun s =>
    let '(r, w) := m (st_world s) in
    (r, {| st_self := st_self s; st_world := w |}).

Definition set_model (f : model_t → model_t) (s : state) : state :=
  {| st_self := {| model := f (model (st_self s));
                   optimizer := optimizer (st_self s) |};
     st_world := st_world s |}.

Definition set_optimizer (o : optimizer_t) (s : state) : state :=
  {| st_self := {| model := model (st_self s); optimizer := Some o |};
     st_world := st_world s |}.

Definition with_parameters (ps : params) (m : model_t) : model_t :=
  {| m_config := m_config m; m_info := m_info m; m_device := m_device m;
     m_parameters := ps; m_training := m_training m |}.

Definition with_training (b : bool) (m : model_t) : model_t :=
  {| m_config := m_config m; m_info := m_info m; m_device := m_device m;
     m_parameters := m_parameters m; m_training := b |}.

(** ** Primitive operations *)

Definition emit (ev : event) : M world unit := modify (emit_w ev).

(** [logging.info(...)] *)
Definition logging_info (m : logmsg) : M state unit := in_world (emit (EvLog m)).

(** [random.randint(a, b)] *)
Definition random_randint (a b : Z) : M state Z :=
  in_world (fun w =>
    let '(n, r) := randint (w_rng w) a b in (Ok n, set_rng r w)).

(** [os.makedirs(path, exist_ok=True)] *)
Definition os_makedirs (path : string) : M world unit :=
  fun w =>
    match w_fs w !! path with
    | None => (Ok tt, emit_w (EvMakedirs path) (set_fs (insert path FDir) w))
    | Some FDir => (Ok tt, emit_w (EvMakedirs path) w)
    | Some _ => (Raise FileExistsError, w)
    end.

(** [open(path, "w")]: the file is created or truncated; the result is
    the position of the new file object in [w_files]. *)
Definition open_w (path : string) : M world nat :=
  fun w =>
    match w_fs w !! path with
    | Some FDir => (Raise IsADirectoryError, w)
    | _ =>
        (Ok (length (w_files w)),
         emit_w (EvOpen path)
           (set_files (fun fs => fs ++ [ {| fo_path := path; fo_buffer := [];
                                            fo_closed := false |} ])
              (set_fs (insert path (FText [])) w)))
    end.

(** [f.write(...)] *)
Definition file_write (fd : nat) (c : chunk) : M world unit :=
  fun w =>
    match w_files w !! fd with
    | Some fo =>
        if fo_closed fo then (Raise ValueError, w)
        else (Ok tt,
              emit_w (EvWrite fd c)
                (set_files (fun fs => <[fd := {| fo_path := fo_path fo;
                                                  fo_buffer := fo_buffer fo ++ [c];
                                                  fo_closed := false |}]> fs) w))
    | None => (Raise ValueError, w)
    end.

Definition text_of (o : option fobj) : list chunk :=
  match o with Some (FText t) => t | _ => [] end.

(** What [flush] does to the world: the buffer goes to the file. *)
Definition flush_file (fd : nat) (fo : file_object) (closed : bool) (w : world) : world :=
  set_files (fun fs => <[fd := {| fo_path := fo_path fo; fo_buffer := [];
                                  fo_closed := closed |}]> fs)
    (set_fs (fun m => <[fo_path fo := FText (text_of (m !! fo_path fo) ++ fo_buffer fo)]> m) w).

(** [f.flush()] *)
Definition file_flush (fd : nat) : M world unit :=
  fun w =>
    match w_files w !! fd with
    | Some fo =>
        if fo_closed fo then (Raise ValueError, w)
        else (Ok tt, emit_w (EvFlush fd) (flush_file fd fo false w))
    | None => (Raise ValueError, w)
    end.

(** [f.close()]: flushes, then closes; closing twice is allowed. *)
Definition file_close (fd : nat) : M world unit :=
  fun w =>
    match w_files w !! fd with
    | Some fo =>
        if fo_closed fo then (Ok tt, w)
        else (Ok tt, emit_w (EvClose fd) (flush_file fd fo true w))
    | None => (Raise ValueError, w)
    end.

(** [os.path.exists(path)] *)
Definition os_path_exists (path : string) : M world bool :=
  gets (fun w => bool_decide (is_Some (w_fs w !! path))).

(** [os.unlink(path)] *)
Definition os_unlink (path : string) : M world unit :=
  fun w =>
    match w_fs w !! path with
    | None => (Raise FileNotFoundError, w)
    | Some FDir => (Raise IsADirectoryError, w)
    | Some _ => (Ok tt, emit_w (EvUnlink path) (set_fs (delete path) w))
    end.

(** [torch.save(sd, path)] *)
Definition torch_save (sd : state_dict_t) (path : string) : M world unit :=
  fun w =>
    match w_fs w !! path with
    | Some FDir => (Raise IsADirectoryError, w)
    | _ => (Ok tt, emit_w (EvSave path sd) (set_fs (insert path (FStateDict sd)) w))
    end.

(** [torch.load(path, map_location="cpu")] *)
Definition torch_load (path : string) : M world state_dict_t :=
  fun w =>
    match w_fs w !! path with
    | None => (Raise FileNotFoundError, w)
    | Some FDir => (Raise IsADirectoryError, w)
    | Some (FStateDict sd) => (Ok sd, w)
    | Some _ => (Raise UnpicklingError, w)
    end.

(** [model.state_dict()] *)
Definition state_dict (ps : params) : state_dict_t :=
  map (fun p => (p_name p, p_data p)) ps.

Fixpoint sd_get (name : string) (sd : state_dict_t) : option tensor :=
  match sd with
  | [] => None
  | (n, t) :: r => if String.eqb name n then Some t else sd_get name r
  end.

Definition shape_eqb (a b : list Z) : bool := bool_decide (a = b).

(** [model.load_state_dict(sd)] (strict): every parameter of the model
    has an entry of its shape, and the entries name parameters of the
    model; the data of each parameter is then replaced. *)
Definition load_state_dict (ps : params) (sd : state_dict_t) : result params :=
  if (forallb (fun p => match sd_get (p_name p) sd with
                        | Some t => shape_eqb (tensor_shape t) (tensor_shape (p_data p))
                        | None => false
                        end) ps
      && forallb (fun nt => existsb (fun p => String.eqb (p_name p) (fst nt)) ps) sd)%bool
  then Ok (map (fun p => {| p_name := p_name p;
                            p_requires_grad := p_requires_grad p;
                            p_data := default (p_data p) (sd_get (p_name p) sd) |}) ps)
  else Raise RuntimeError.

(** Modelled from the spec: [read_config] and [read_info] of [.utils]
    are not part of the verified file; they read a file of the model
    directory and fail when it is missing or malformed. *)
Definition read_text (path : string) : M world string :=
  fun w =>
    match w_fs w !! path with
    | None => (Raise FileNotFoundError, w)
    | Some FDir => (Raise IsADirectoryError, w)
    | Some (FJson t) => (Ok t, w)
    | Some _ => (Raise ValueError, w)
    end.

Definition read_config (path : string) : M world config :=
  t <- read_text path ;; lift_result (parse_config t).

Definition read_info (path : string) : M world info :=
  t <- read_text path ;; lift_result (parse_info t).

(** [with DataLoader(dataset, ...) as batches: body]: the batch source
    is live from [__enter__] to [__exit__], and [__exit__] runs however
    the body ends. *)
Definition loader_enter (a : loader_args) (s : state) : state :=
  {| st_self := st_self s;
     st_world := emit_w (EvLoaderEnter a) (set_loaders S (st_world s)) |}.

Definition loader_exit (s : state) : state :=
  {| st_self := st_self s;
     st_world := emit_w EvLoaderExit (set_loaders Nat.pred (st_world s)) |}.

Definition with_DataLoader {A} (ds : dataset) (a : loader_args)
    (body : list (result batch) → M state A) : M state A :=
  fun s =>
    match DataLoader ds a with
    | Raise e => (Raise e, s)
    | Ok batches =>
        let '(r, s') := body batches (loader_enter a s) in
        (r, loader_exit s')
    end.

(** ** [CLMBRFeaturizer] *)

(** [__init__(self, config, info, device, log_path)] *)
Definition init (config : config) (info : info) (device : device)
    (log_path : option string) : M world featurizer :=
  match log_path with
  | Some p => emit (EvSetUpLogging p)
  | None => ret tt
  end ;;
  ps <- lift_result (PredictionModel config info device) ;;
  ret {| model := {| m_config := config; m_info := info; m_device := device;
                     m_parameters := ps; m_training := true |};
         optimizer := None |}.

Definition get_config : M state config :=
  gets (fun s => m_config (model (st_self s))).

Definition get_parameters : M state params :=
  gets (fun s => m_parameters (model (st_self s))).

Definition put_parameters (ps : params) : M state unit :=
  modify (set_model (with_parameters ps)).

(** [self.model.train()] and [self.model.eval()] *)
Definition model_train : M state unit := modify (set_model (with_training true)).
Definition model_eval : M state unit := modify (set_model (with_training false)).

(** [self.model(batch)], keeping the loss ([values] is deleted at once) *)
Definition call_model (b : batch) : M state loss :=
  fun s =>
    (model_call (m_parameters (model (st_self s)))
                (m_training (model (st_self s))) b, s).

(** [self.optimizer], an [AttributeError] before [fit] has set it *)
Definition get_optimizer : M state optimizer_t :=
  fun s =>
    match optimizer (st_self s) with
    | Some o => (Ok o, s)
    | None => (Raise AttributeError, s)
    end.

(** [OpenAIAdam(params, ...)] *)
Definition OpenAIAdam (ps : params) (a : adam_settings) : M state optimizer_t :=
  st <- lift_result (adam_init ps a) ;;
  in_world (emit (EvOptimizer ps a)) ;;
  ret {| opt_params := ps; opt_defaults := a; opt_state := st |}.

Definition _build_adam_optimizer (ds : dataset) : M state optimizer_t :=
  config <- get_config ;;
  named_parameters <- get_parameters ;;
  let params := List.filter (fun p => p_requires_grad p) named_parameters in
  warmup <- lift_result (py_truediv (cfg_warmup_epochs config)
                                    (PInt (cfg_epochs_per_cycle config))) ;;
  optimizer <- OpenAIAdam params
    {| as_lr := cfg_lr config;
       as_schedule := "warmup_linear";
       as_warmup := warmup;
       as_t_total := num_batches ds (cfg_batch_size config) false
                     * cfg_epochs_per_cycle config;
       as_b1 := cfg_b1 config;
       as_b2 := cfg_b2 config;
       as_e := cfg_e config;
       as_l2 := cfg_l2 config |} ;;
  logging_info (LogBatchesPerEpoch (num_batches ds (cfg_batch_size config) false)) ;;
  logging_info (LogTotalBatches (as_t_total (opt_defaults optimizer))) ;;
  ret optimizer.

(** The three optimizer lines of the training loop. *)
Definition optimizer_zero_grad : M state unit :=
  _ <- get_optimizer ;;
  ps <- get_parameters ;;
  put_parameters (adam_zero_grad ps).

Definition backward (l : loss) : M state unit :=
  ps <- get_parameters ;;
  ps' <- lift_result (loss_backward l ps) ;;
  put_parameters ps'.

Definition optimizer_step : M state unit :=
  o <- get_optimizer ;;
  ps <- get_parameters ;;
  r <- lift_result (adam_step (opt_defaults o) (opt_state o) ps) ;;
  modify (set_optimizer {| opt_params := opt_params o;
                           opt_defaults := opt_defaults o;
                           opt_state := fst r |}) ;;
  put_parameters (snd r).

(** The body of [for i, batch in enumerate(batches)] in [_train_epoch];
    [pbar] is [true] when a progress bar was passed. *)
Fixpoint train_loop (pbar : bool) (i : Z) (batches : list (result batch))
    : M state unit :=
  match batches with
  | [] => ret tt
  | next :: rest =>
      batch <- lift_result next ;;
      non_text_loss <- call_model batch ;;
      optimizer_zero_grad ;;
      backward non_text_loss ;;
      optimizer_step ;;
      (if pbar then in_world (emit (EvPbar (PbarUpdate 1)))
       else if i mod 2000 =? 0 then logging_info (LogSeenBatch i)
       else ret tt) ;;
      train_loop pbar (i + 1) rest
  end.

Definition _train_epoch (ds : dataset) (pbar : bool) : M state unit :=
  model_train ;;
  config <- get_config ;;
  seed <- random_randint 0 100000 ;;
  with_DataLoader ds
    {| la_threshold := cfg_num_first config;
       la_is_val := false;
       la_batch_size := cfg_batch_size config;
       la_seed := seed;
       la_day_dropout := Some (cfg_day_dropout config);
       la_code_dropout := Some (cfg_code_dropout config) |}
    (train_loop pbar 0).

(** The body of [for batch, _ in zip(batches, range(num_batches))] in
    [evaluate]: [zip] pulls a batch first and only then an element of the
    range, whose remaining length is [n]. *)
Fixpoint eval_loop (batches : list (result batch)) (n : nat) (total_loss : pynum)
    : M state pynum :=
  match batches with
  | [] => ret total_loss
  | next :: rest =>
      batch <- lift_result next ;;
      match n with
      | O => ret total_loss
      | S n' =>
          non_text_loss <- call_model batch ;;
          total_loss' <- lift_result (py_add_float total_loss (loss_item non_text_loss)) ;;
          eval_loop rest n' total_loss'
      end
  end.

Definition evaluate (ds : dataset) (is_val : bool) (num_batches_arg : option Z)
    : M state float :=
  model_eval ;;
  config <- get_config ;;
  let num_batches :=
    match num_batches_arg with
    | None => num_batches ds (cfg_batch_size config) is_val
    | Some k => k
    end in
  total_loss <- with_DataLoader ds
    {| la_threshold := cfg_num_first config;
       la_is_val := is_val;
       la_batch_size := cfg_eval_batch_size config;
       la_seed := 0;
       la_day_dropout := Some (cfg_day_dropout config);
       la_code_dropout := Some (cfg_code_dropout config) |}
    (fun batches => eval_loop batches (Z.to_nat num_batches) (PInt 0)) ;;
  lift_result (py_truediv total_loss (PInt num_batches)).

(** The body of [for epoch in range(num_epochs)] in [fit]; [best] is
    the pair [(best_val_loss, best_val_loss_epoch)]. *)
Definition fit_epoch (ds : dataset) (pbar : bool) (loss_file : nat)
    (model_dir : string) (best : option float * option Z) (epoch : Z)
    : M state (option float * option Z) :=
  logging_info (LogAboutToStart epoch) ;;
  (if pbar then in_world (emit (EvPbar (PbarDescEpoch epoch))) else ret tt) ;;
  _train_epoch ds pbar ;;
  logging_info (LogEpochComplete epoch) ;;
  (if pbar then in_world (emit (EvPbar (PbarDescEvaluating epoch))) else ret tt) ;;
  train_loss <- evaluate ds false (Some 2000) ;;
  val_loss <- evaluate ds true (Some 2000) ;;
  logging_info (LogTrainLoss train_loss) ;;
  logging_info (LogValLoss val_loss) ;;
  in_world (file_write loss_file (EpochLine epoch)) ;;
  in_world (file_write loss_file (TrainLossLine train_loss)) ;;
  in_world (file_write loss_file (ValLossLine val_loss)) ;;
  in_world (file_write loss_file BlankLine) ;;
  in_world (file_flush loss_file) ;;
  if match fst best with
     | None => true
     | Some best_val_loss => py_lt val_loss best_val_loss
     end
  then
    ex <- in_world (os_path_exists (os_path_join model_dir "best")) ;;
    (if ex : bool then in_world (os_unlink (os_path_join model_dir "best"))
     else ret tt) ;;
    ps <- get_parameters ;;
    in_world (torch_save (state_dict ps) (os_path_join model_dir "best")) ;;
    logging_info (LogSavingBest (os_path_join model_dir "best")) ;;
    ret (Some val_loss, Some epoch)
  else ret best.

Fixpoint fit_epochs (ds : dataset) (pbar : bool) (loss_file : nat)
    (model_dir : string) (epochs : list Z) (best : option float * option Z)
    : M state (option float * option Z) :=
  match epochs with
  | [] => ret best
  | epoch :: rest =>
      best' <- fit_epoch ds pbar loss_file model_dir best epoch ;;
      fit_epochs ds pbar loss_file model_dir rest best'
  end.

Definition fit (ds : dataset) (use_pbar : bool) : M state unit :=
  model_train ;;
  config <- get_config ;;
  let model_dir := cfg_model_dir config in
  let num_epochs := cfg_epochs_per_cycle config in
  optimizer <- _build_adam_optimizer ds ;;
  modify (set_optimizer optimizer) ;;
  let checkpoint_dir := os_path_join model_dir "checkpoints" in
  in_world (os_makedirs checkpoint_dir) ;;
  (if use_pbar
   then o <- get_optimizer ;;
        in_world (emit (EvPbar (PbarNew (Some (as_t_total (opt_defaults o))))))
   else ret tt) ;;
  loss_file <- in_world (open_w (os_path_join model_dir "losses")) ;;
  logging_info LogStartTraining ;;
  fit_epochs ds use_pbar loss_file model_dir (range num_epochs) (None, None) ;;
  (if use_pbar then in_world (emit (EvPbar PbarClose)) else ret tt) ;;
  in_world (file_close loss_file) ;;
  logging_info LogTrainingComplete.

(** *** numpy *)

(** [np.zeros((n, size))] *)
Definition np_zeros (n : nat) (size : Z) : result ndarray2 :=
  if size <? 0 then Raise ValueError
  else Ok (repeat (repeat 0%float (Z.to_nat size)) n).

(** [a[i]] along one axis: a negative index counts from the end. *)
Definition np_index {A} (a : list A) (i : Z) : result A :=
  let n := Z.of_nat (length a) in
  let j := if i <? 0 then i + n else i in
  if ((0 <=? j) && (j <? n))%bool
  then match a !! Z.to_nat j with
       | Some x => Ok x
       | None => Raise IndexError
       end
  else Raise IndexError.

(** [out[target, :] = v], with numpy's broadcasting of a length-1 [v]. *)
Definition np_set_row (out : ndarray2) (target : nat) (v : list float)
    : result ndarray2 :=
  match out !! target with
  | None => Raise IndexError
  | Some old =>
      if (length v =? length old)%nat then Ok (<[target := v]> out)
      else match v with
           | [x] => Ok (<[target := repeat x (length old)]> out)
           | _ => Raise ValueError
           end
  end.

(** *** [featurize_patients] *)

(** [patient_id_to_info]: for each position of the query,
    [patient_id_to_info[pid][index] = i]. *)
Definition build_index (patient_ids day_offsets : list Z)
    : PyDict.t (PyDict.t nat) :=
  fold_left
    (fun d '(i, (pid, index)) =>
       PyDict.set pid (PyDict.set index i (PyDict.get_default pid d)) d)
    (enumerate (combine patient_ids day_offsets)) [].

(** [for index, target_id in patient_id_to_info[patient_id].items()] *)
Fixpoint scatter_items (embeddings : ndarray3) (i : nat)
    (items : list (Z * nat)) (out : ndarray2) : result ndarray2 :=
  match items with
  | [] => Ok out
  | (index, target_id) :: rest =>
      rbind (np_index embeddings (Z.of_nat i)) (fun e_i =>
      rbind (np_index e_i index) (fun v =>
      rbind (np_set_row out target_id v) (scatter_items embeddings i rest)))
  end.

(** [for i, patient_id in enumerate(batch["pid"])] *)
Fixpoint scatter_batch (index : PyDict.t (PyDict.t nat)) (embeddings : ndarray3)
    (pids : list (nat * Z)) (out : ndarray2) : result ndarray2 :=
  match pids with
  | [] => Ok out
  | (i, patient_id) :: rest =>
      rbind (scatter_items embeddings i
               (PyDict.items (PyDict.get_default patient_id index)) out)
            (scatter_batch index embeddings rest)
  end.

(** [for batch in pbar] *)
Fixpoint featurize_loop (index : PyDict.t (PyDict.t nat))
    (batches : list (result batch)) (out : ndarray2) : M state ndarray2 :=
  match batches with
  | [] => ret out
  | next :: rest =>
      batch <- lift_result next ;;
      ps <- get_parameters ;;
      embeddings <- lift_result (compute_embedding_batch ps batch) ;;
      out' <- lift_result (scatter_batch index embeddings
                             (enumerate (batch_pid batch)) out) ;;
      featurize_loop index rest out'
  end.

Definition featurize_patients (extract_dir : string)
    (patient_ids day_offsets : list Z) : M state ndarray2 :=
  config <- get_config ;;
  let dummy_labels := map (fun _ => 0) patient_ids in
  let data := (dummy_labels, patient_ids, day_offsets) in
  ds <- lift_result
          (PatientTimelineDataset
             (os_path_join extract_dir "extract.db")
             (os_path_join extract_dir "ontology.db")
             (os_path_join (cfg_model_dir config) "info.json")
             data data) ;;
  let patient_id_to_info := build_index patient_ids day_offsets in
  patient_representations <-
    lift_result (np_zeros (length patient_ids) (cfg_size config)) ;;
  seed <- random_randint 0 100000 ;;
  with_DataLoader ds
    {| la_threshold := cfg_num_first config;
       la_is_val := true;
       la_batch_size := cfg_eval_batch_size config;
       la_seed := seed;
       la_day_dropout := None;
       la_code_dropout := None |}
    (fun batches =>
       in_world (emit (EvPbar (PbarNew None))) ;;
       in_world (emit (EvPbar PbarDescComputing)) ;;
       featurize_loop patient_id_to_info batches patient_representations).

(** [featurize_patients_w_labels(self, extract_dir, l)];
    [get_label_data] is what [l.get_label_data()] gives: the labels,
    the patient ids and the patient indices of the labeler. *)
Definition featurize_patients_w_labels {L} (extract_dir : string)
    (get_label_data : result (list L * list Z * list Z))
    : M state (ndarray2 * list L * list Z * list Z) :=
  data <- lift_result get_label_data ;;
  let '(labels, patient_ids, patient_indices) := data in
  patient_representations <-
    featurize_patients extract_dir patient_ids patient_indices ;;
  ret (patient_representations, labels, patient_ids, patient_indices).

(** *** [from_pretrained] *)

Definition torch_cuda_is_available : M world bool := gets w_cuda.

Definition from_pretrained (model_dir : string) : M world featurizer :=
  config <- read_config (os_path_join model_dir "config.json") ;;
  info <- read_info (os_path_join model_dir "info.json") ;;
  cuda <- torch_cuda_is_available ;;
  let device := if cuda : bool then Cuda0 else Cpu in
  featurizer <- init config info device None ;;
  model_data <- torch_load (os_path_join model_dir "best") ;;
  ps <- lift_result (load_state_dict (m_parameters (model featurizer)) model_data) ;;
  ret {| model := with_parameters ps (model featurizer);
         optimizer := optimizer featurizer |}.

End Featurizer.


(** * Observations on runs

    What the statements below are phrased in: the events a run appends to
    the trace, the summary of a training run read off these events, and
    the per-patient view of the embedding batches. *)

Section Observations.
Context `{C : Collaborators}.

Definition trace (s : state) : list event := w_trace (st_world s).

Definition new_events (s s' : state) : list event :=
  drop (length (trace s)) (trace s').

Definition body_event (ev : event) : bool :=
  match ev with
  | EvLog (LogSeenBatch _) | EvPbar _ => true
  | _ => false
  end.

Definition loader_event (ev : event) : bool :=
  match ev with
  | EvLoaderEnter _ | EvLoaderExit => true
  | _ => false
  end.

Definition inner_event (ev : event) : bool := body_event ev || loader_event ev.

Definition wp {S A} (m : M S A) (s : S) (Q : result A → S → Prop) : Prop :=
  Q (fst (m s)) (snd (m s)).

Definition frame (s s' : state) : Prop :=
  m_config (model (st_self s')) = m_config (model (st_self s)) ∧
  w_fs (st_world s') = w_fs (st_world s) ∧
  w_files (st_world s') = w_files (st_world s) ∧
  w_loaders (st_world s') = w_loaders (st_world s) ∧
  w_cuda (st_world s') = w_cuda (st_world s).

Definition extends (P : event → bool) (s s' : state) : Prop :=
  ∃ evs, trace s' = trace s ++ evs ∧ forallb P evs = true.

Definition quiet (P : event → bool) (s s' : state) : Prop :=
  frame s s' ∧ extends P s s'.

Definition quietly {A} (P : event → bool) (m : M state A) : Prop :=
  ∀ s, quiet P s (snd (m s)).

(** The scoped batch source: what [with DataLoader(...)] adds to the
    trace, whatever the body does. *)
Definition bracket (a : loader_args) (r : result (list (result batch))) (evs : list event) : Prop :=
  match r with
  | Raise _ => evs = []
  | Ok _ => ∃ body, evs = EvLoaderEnter a :: body ++ [EvLoaderExit]
                    ∧ forallb body_event body = true
  end.

(** The events of the trace that tell the story of the epochs. *)
Inductive mark : Type :=
  | MStart (epoch : Z)
  | MTrain (l : float)
  | MVal (l : float)
  | MUnlink (path : string)
  | MSave (path : string) (sd : list (string * tensor))
  | MOptimizer (ps : list (param tensor)) (a : adam_settings)
  | MOpen (path : string).

Definition classify (ev : event) : option mark :=
  match ev with
  | EvLog (LogAboutToStart e) => Some (MStart e)
  | EvLog (LogTrainLoss t) => Some (MTrain t)
  | EvLog (LogValLoss v) => Some (MVal v)
  | EvUnlink p => Some (MUnlink p)
  | EvSave p sd => Some (MSave p sd)
  | EvOptimizer ps a => Some (MOptimizer ps a)
  | EvOpen p => Some (MOpen p)
  | _ => None
  end.

Definition marks (evs : list event) : list mark := omap classify evs.

(** [best_val_loss is None or val_loss < best_val_loss] *)
Definition improves (best : option float) (v : float) : bool :=
  match best with
  | None => true
  | Some b => py_lt v b
  end.

(** The four writes of one epoch. *)
Definition entry (e : Z) (t v : float) : list chunk :=
  [EpochLine e; TrainLossLine t; ValLossLine v; BlankLine].

Definition unmarked (ev : event) : bool :=
  match classify ev with None => true | Some _ => false end.

(** Reaching [s'] from [s] with the file system and the file objects
    untouched, and [ms] the marks of the events added. *)
Definition reach (s s' : state) (ms : list mark) : Prop :=
  frame s s' ∧ ∃ evs, trace s' = trace s ++ evs ∧ marks evs = ms.

Definition epoch_post (md : string) (fd : nat) (best : option float * option Z)
    (e : Z) (s : state) (r : result (option float * option Z)) (s' : state) : Prop :=
  let lp := os_path_join md "losses" in
  let bp := os_path_join md "best" in
  m_config (model (st_self s')) = m_config (model (st_self s)) ∧
  w_files (st_world s') !! fd = w_files (st_world s) !! fd ∧
  w_loaders (st_world s') = w_loaders (st_world s) ∧
  (∀ p, p ≠ lp → p ≠ bp → w_fs (st_world s') !! p = w_fs (st_world s) !! p) ∧
  ∃ evs, trace s' = trace s ++ evs ∧
    ((∃ ex, r = Raise ex ∧ marks evs = [MStart e]
            ∧ w_fs (st_world s') = w_fs (st_world s))
     ∨ (∃ t v,
          w_fs (st_world s') !! lp
            = Some (FText (text_of (w_fs (st_world s) !! lp) ++ entry e t v)) ∧
          ((improves (fst best) v = false ∧ r = Ok best
            ∧ marks evs = [MStart e; MTrain t; MVal v]
            ∧ w_fs (st_world s') !! bp = w_fs (st_world s) !! bp)
           ∨ (improves (fst best) v = true ∧ r = Ok (Some v, Some e)
              ∧ marks evs = [MStart e; MTrain t; MVal v]
                  ++ (if bool_decide (is_Some (w_fs (st_world s) !! bp))
                      then [MUnlink bp] else [])
                  ++ [MSave bp (state_dict (m_parameters (model (st_self s'))))]
              ∧ w_fs (st_world s') !! bp
                = Some (FStateDict (state_dict (m_parameters (model (st_self s'))))))
           ∨ (improves (fst best) v = true ∧ (∃ ex, r = Raise ex)
              ∧ marks evs = [MStart e; MTrain t; MVal v]
              ∧ w_fs (st_world s') !! bp = w_fs (st_world s) !! bp)))).

Definition logging (md : string) (fd : nat) (s s' : state) (ms : list mark)
    (buf : list chunk) : Prop :=
  m_config (model (st_self s')) = m_config (model (st_self s)) ∧
  w_loaders (st_world s') = w_loaders (st_world s) ∧
  w_fs (st_world s') = w_fs (st_world s) ∧
  w_files (st_world s') !! fd
    = Some {| fo_path := os_path_join md "losses"; fo_buffer := buf; fo_closed := false |} ∧
  ∃ evs, trace s' = trace s ++ evs ∧ marks evs = ms.

(** After the flush: the buffer is in the file. *)
Definition flushed (md : string) (fd : nat) (s s' : state) (ms : list mark)
    (buf : list chunk) : Prop :=
  m_config (model (st_self s')) = m_config (model (st_self s)) ∧
  w_loaders (st_world s') = w_loaders (st_world s) ∧
  w_fs (st_world s')
    = <[os_path_join md "losses" :=
          FText (text_of (w_fs (st_world s) !! os_path_join md "losses") ++ buf)]>
        (w_fs (st_world s)) ∧
  w_files (st_world s') !! fd
    = Some {| fo_path := os_path_join md "losses"; fo_buffer := []; fo_closed := false |} ∧
  ∃ evs, trace s' = trace s ++ evs ∧ marks evs = ms.

(** One completed epoch: its number, its train and val losses, and the
    model's state dict at its end. *)
Definition epoch_run : Type := Z * float * float * list (string * tensor).

(** The marks of a run of completed epochs, from the artifact [art] at
    the "best" path and the best val loss so far. *)
Fixpoint loop_marks (bp : string) (art : option fobj) (best : option float)
    (run : list epoch_run) : list mark :=
  match run with
  | [] => []
  | (e, t, v, sd) :: r =>
      MStart e :: MTrain t :: MVal v ::
      if improves best v
      then (if bool_decide (is_Some art) then [MUnlink bp] else [])
           ++ MSave bp sd :: loop_marks bp (Some (FStateDict sd)) (Some v) r
      else loop_marks bp art best r
  end.

Fixpoint final_artifact (art : option fobj) (best : option float)
    (run : list epoch_run) : option fobj :=
  match run with
  | [] => art
  | (e, t, v, sd) :: r =>
      if improves best v then final_artifact (Some (FStateDict sd)) (Some v) r
      else final_artifact art best r
  end.

Fixpoint final_best (best : option float * option Z) (run : list epoch_run)
    : option float * option Z :=
  match run with
  | [] => best
  | (e, t, v, sd) :: r =>
      if improves (fst best) v then final_best (Some v, Some e) r
      else final_best best r
  end.

Definition run_entries (run : list epoch_run) : list chunk :=
  flat_map (fun x : epoch_run => entry x.1.1.1 x.1.1.2 x.1.2) run.

Definition loop_post (md : string) (fd : nat) (epochs : list Z)
    (best : option float * option Z) (s : state)
    (r : result (option float * option Z)) (s' : state) : Prop :=
  let lp := os_path_join md "losses" in
  let bp := os_path_join md "best" in
  m_config (model (st_self s')) = m_config (model (st_self s)) ∧
  w_files (st_world s') !! fd = w_files (st_world s) !! fd ∧
  w_loaders (st_world s') = w_loaders (st_world s) ∧
  (∀ p, p ≠ lp → p ≠ bp → w_fs (st_world s') !! p = w_fs (st_world s) !! p) ∧
  ∃ evs run, trace s' = trace s ++ evs ∧
    map (fun x : epoch_run => x.1.1.1) run = take (length run) epochs ∧
    match r with
    | Ok best' =>
        length run = length epochs ∧
        best' = final_best best run ∧
        marks evs = loop_marks bp (w_fs (st_world s) !! bp) (fst best) run ∧
        w_fs (st_world s') !! lp
          = (if run is [] then w_fs (st_world s) !! lp
             else Some (FText (text_of (w_fs (st_world s) !! lp) ++ run_entries run))) ∧
        w_fs (st_world s') !! bp
          = final_artifact (w_fs (st_world s) !! bp) (fst best) run
    | Raise _ =>
        ∃ e, epochs !! length run = Some e ∧
        ((marks evs = loop_marks bp (w_fs (st_world s) !! bp) (fst best) run ++ [MStart e]
          ∧ w_fs (st_world s') !! lp
            = (if run is [] then w_fs (st_world s) !! lp
               else Some (FText (text_of (w_fs (st_world s) !! lp) ++ run_entries run))))
         ∨ (∃ t v,
              marks evs = loop_marks bp (w_fs (st_world s) !! bp) (fst best) run
                          ++ [MStart e; MTrain t; MVal v]
              ∧ w_fs (st_world s') !! lp
                = Some (FText (text_of (w_fs (st_world s) !! lp)
                               ++ run_entries run ++ entry e t v))))
    end.

(** The checkpoints a run of completed epochs writes, from the best val
    loss so far. *)
Fixpoint saved_list (best : option float) (run : list epoch_run)
    : list (Z * list (string * tensor)) :=
  match run with
  | [] => []
  | (e, t, v, sd) :: r =>
      if improves best v then (e, sd) :: saved_list (Some v) r
      else saved_list best r
  end.

Definition vals (run : list epoch_run) : list float :=
  map (fun x : epoch_run => x.1.2) run.

Definition epochs_of (run : list epoch_run) : list Z :=
  map (fun x : epoch_run => x.1.1.1) run.

(** The best val loss so far is one of the losses seen, and none of
    them is below it. *)
Definition best_inv (best : option float) (seen : list float) : Prop :=
  match best with
  | None => seen = []
  | Some x => x ∈ seen ∧ Forall (fun y => py_lt y x = false) seen
  end.

(** The keyword arguments that [_build_adam_optimizer] passes. *)
Definition build_settings (config : config) (ds : dataset) (warmup : float)
    : adam_settings :=
  {| as_lr := cfg_lr config;
     as_schedule := "warmup_linear";
     as_warmup := warmup;
     as_t_total := num_batches ds (cfg_batch_size config) false
                   * cfg_epochs_per_cycle config;
     as_b1 := cfg_b1 config;
     as_b2 := cfg_b2 config;
     as_e := cfg_e config;
     as_l2 := cfg_l2 config |}.

Definition fit_post (ds : dataset) (s : state) (r : result unit) (s' : state) : Prop :=
  let cfg := m_config (model (st_self s)) in
  let md := cfg_model_dir cfg in
  let lp := os_path_join md "losses" in
  let bp := os_path_join md "best" in
  let fd := length (w_files (st_world s)) in
  let ps := List.filter (fun p => p_requires_grad p) (m_parameters (model (st_self s))) in
  let epochs := range (cfg_epochs_per_cycle cfg) in
  m_config (model (st_self s')) = cfg ∧
  w_loaders (st_world s') = w_loaders (st_world s) ∧
  ∃ evs, trace s' = trace s ++ evs ∧
    ((∃ ex, r = Raise ex ∧ evs = [] ∧ w_files (st_world s') = w_files (st_world s))
     ∨ ∃ warmup,
         py_truediv (cfg_warmup_epochs cfg) (PInt (cfg_epochs_per_cycle cfg)) = Ok warmup ∧
         ((∃ ex, r = Raise ex ∧ marks evs = [MOptimizer ps (build_settings cfg ds warmup)]
                 ∧ w_files (st_world s') = w_files (st_world s))
          ∨ ∃ run : list epoch_run,
              map (fun x : epoch_run => x.1.1.1) run = take (length run) epochs ∧
              match r with
              | Ok _ =>
                  length run = length epochs ∧
                  marks evs = MOptimizer ps (build_settings cfg ds warmup) :: MOpen lp
                              :: loop_marks bp (w_fs (st_world s) !! bp) None run ∧
                  w_fs (st_world s') !! lp = Some (FText (run_entries run)) ∧
                  w_fs (st_world s') !! bp
                    = final_artifact (w_fs (st_world s) !! bp) None run ∧
                  w_files (st_world s') !! fd
                    = Some {| fo_path := lp; fo_buffer := []; fo_closed := true |}
              | Raise _ =>
                  ∃ e tail extra,
                    epochs !! length run = Some e ∧
                    marks evs = MOptimizer ps (build_settings cfg ds warmup) :: MOpen lp
                                :: loop_marks bp (w_fs (st_world s) !! bp) None run ++ tail ∧
                    w_fs (st_world s') !! lp = Some (FText (run_entries run ++ extra)) ∧
                    ((tail = [MStart e] ∧ extra = [])
                     ∨ ∃ t v, tail = [MStart e; MTrain t; MVal v] ∧ extra = entry e t v) ∧
                    w_files (st_world s') !! fd
                      = Some {| fo_path := lp; fo_buffer := []; fo_closed := false |}
              end)).

(** A world that differs from [w] by events with marks [ms], by the
    file objects, and by the files at the paths in [touched]. *)
Definition world_step (w w1 : world) (files : list file_object)
    (touched : list string) (ms : list mark) : Prop :=
  w_files w1 = files ∧
  w_loaders w1 = w_loaders w ∧
  (∀ q, q ∉ touched → w_fs w1 !! q = w_fs w !! q) ∧
  ∃ evs, w_trace w1 = w_trace w ++ evs ∧ marks evs = ms.

(** Reading the marks: the epochs started, the losses logged, the
    optimizers built, the checkpoints written. *)
Definition started (ms : list mark) : list Z :=
  omap (fun m => match m with MStart e => Some e | _ => None end) ms.


Definition val_losses (ms : list mark) : list float :=
  omap (fun m => match m with MVal v => Some v | _ => None end) ms.

Definition optimizers_built (ms : list mark)
    : list (list (param tensor) * adam_settings) :=
  omap (fun m => match m with MOptimizer ps a => Some (ps, a) | _ => None end) ms.


(** The checkpoints written, each with the epoch it was written in. *)
Fixpoint saves_from (cur : option Z) (ms : list mark)
    : list (Z * list (string * tensor)) :=
  match ms with
  | [] => []
  | MStart e :: r => saves_from (Some e) r
  | MSave _ sd :: r =>
      match cur with
      | Some e => (e, sd) :: saves_from cur r
      | None => saves_from cur r
      end
  | _ :: r => saves_from cur r
  end.

Definition saves (ms : list mark) : list (Z * list (string * tensor)) :=
  saves_from None ms.

(** Every checkpoint is written while no artifact is at the path, and
    every deletion removes the artifact that is there: an artifact is
    deleted before the next one is written.  [present] tells whether an
    artifact is there at the start. *)
Fixpoint delete_then_write (present : bool) (bp : string) (ms : list mark) : bool :=
  match ms with
  | [] => true
  | MUnlink p :: r => present && String.eqb p bp && delete_then_write false bp r
  | MSave p _ :: r => negb present && String.eqb p bp && delete_then_write true bp r
  | _ :: r => delete_then_write present bp r
  end.

(** [total_loss] after the losses [ls] were added to the int [0]. *)
Definition sum_losses (ls : list float) : result pynum :=
  fold_left (fun acc l => rbind acc (fun a => py_add_float a l)) ls (Ok (PInt 0)).

(** The keyword arguments [evaluate] and [_train_epoch] give their
    [DataLoader]. *)
Definition evaluate_args (config : config) (is_val : bool) : loader_args :=
  {| la_threshold := cfg_num_first config;
     la_is_val := is_val;
     la_batch_size := cfg_eval_batch_size config;
     la_seed := 0;
     la_day_dropout := Some (cfg_day_dropout config);
     la_code_dropout := Some (cfg_code_dropout config) |}.

Definition train_args (config : config) (seed : Z) : loader_args :=
  {| la_threshold := cfg_num_first config;
     la_is_val := false;
     la_batch_size := cfg_batch_size config;
     la_seed := seed;
     la_day_dropout := Some (cfg_day_dropout config);
     la_code_dropout := Some (cfg_code_dropout config) |}.


(** [patient_id_to_info[p][o]], when it is there. *)
Definition index_get (idx : PyDict.t (PyDict.t nat)) (p o : Z) : option nat :=
  PyDict.get o (PyDict.get_default p idx).

(** The last position of the pair [(p, o)] in a query whose first
    position is numbered [a]. *)
Fixpoint last_position_from (a : nat) (q : list (Z * Z)) (p o : Z) : option nat :=
  match q with
  | [] => None
  | (p', o') :: r =>
      match last_position_from (S a) r p o with
      | Some i => Some i
      | None => if ((p' =? p) && (o' =? o))%bool then Some a else None
      end
  end.

Definition last_position (patient_ids day_offsets : list Z) (p o : Z) : option nat :=
  last_position_from 0 (combine patient_ids day_offsets) p o.

(** The offsets an axis of length [n] accepts, and the position a
    negative one stands for. *)
Definition in_window (n : nat) (o : Z) : bool :=
  ((- Z.of_nat n <=? o) && (o <? Z.of_nat n))%bool.

Definition at_offset (e : list (list float)) (o : Z) : list float :=
  default [] (e !! Z.to_nat (if o <? 0 then o + Z.of_nat (length e) else o)).

(** The patients of the streamed batches, in stream order, each with its
    own slice [embeddings[i]] of the batch's embeddings. *)
Definition visits (bes : list (batch * ndarray3)) : list (Z * list (list float)) :=
  flat_map (fun be : batch * ndarray3 => combine (batch_pid be.1) be.2) bes.

(** The embedding at offset [o] of the last visit of patient [p]. *)
Definition last_embedding (vs : list (Z * list (list float))) (p o : Z)
    : option (list float) :=
  fold_left (fun acc v => if v.1 =? p then Some (at_offset v.2 o) else acc) vs None.

Definition zeros (size : Z) : list float := repeat 0%float (Z.to_nat size).


(** Every offset the query asks of a streamed patient is one its slice
    has. *)
Definition all_in_window (patient_ids day_offsets : list Z)
    (vs : list (Z * list (list float))) : bool :=
  forallb (fun v : Z * list (list float) =>
             forallb (fun po : Z * Z =>
                        negb (po.1 =? v.1) || in_window (length v.2) po.2)
                     (combine patient_ids day_offsets))
          vs.

(** The keyword arguments [featurize_patients] gives its [DataLoader]. *)
Definition featurize_args (config : config) (seed : Z) : loader_args :=
  {| la_threshold := cfg_num_first config;
     la_is_val := true;
     la_batch_size := cfg_eval_batch_size config;
     la_seed := seed;
     la_day_dropout := None;
     la_code_dropout := None |}.

(** *** The patient index *)
Definition index_wf (idx : PyDict.t (PyDict.t nat)) : Prop :=
  ∀ p inner, PyDict.get p idx = Some inner → NoDup inner.*1.

Definition index_step (d : PyDict.t (PyDict.t nat)) (x : nat * (Z * Z))
    : PyDict.t (PyDict.t nat) :=
  let '(i, (pid, index)) := x in
  PyDict.set pid (PyDict.set index i (PyDict.get_default pid d)) d.

(** *** The scatter of one patient of a batch *)
Definition write_items (e : list (list float)) (items : list (Z * nat))
    (out : ndarray2) : ndarray2 :=
  fold_left (fun acc it => <[it.2 := at_offset e it.1]> acc) items out.

Definition rows_ok (sz : nat) (out : ndarray2) : Prop :=
  Forall (fun row => length row = sz) out.

(** *** The scatter of a batch, and of the stream *)
Definition visit_ok (idx : PyDict.t (PyDict.t nat)) (v : Z * list (list float)) : bool :=
  forallb (fun it : Z * nat => in_window (length v.2) it.1)
          (PyDict.items (PyDict.get_default v.1 idx)).

Definition apply_visit (idx : PyDict.t (PyDict.t nat)) (out : ndarray2)
    (v : Z * list (list float)) : ndarray2 :=
  write_items v.2 (PyDict.items (PyDict.get_default v.1 idx)) out.

Definition targets_ok (idx : PyDict.t (PyDict.t nat)) (n : nat) : Prop :=
  ∀ p o t, index_get idx p o = Some t → (t < n)%nat.

(** The embeddings of a batch have one slice per patient of the batch,
    and every vector has the embedding size. *)
Definition well_shaped (sz : nat) (b : batch) (emb : ndarray3) : Prop :=
  length emb = length (batch_pid b)
  ∧ Forall (Forall (fun v => length v = sz)) emb.

(** The batch source of a [featurize_patients] call streams the batches
    [bes.*1] without error, and the model gives each of them the
    embeddings paired with it, of the expected shape. *)
Definition streams (s : state) (extract_dir : string)
    (patient_ids day_offsets : list Z) (bes : list (batch * ndarray3)) : Prop :=
  let config := m_config (model (st_self s)) in
  let data := (map (fun _ => 0) patient_ids, patient_ids, day_offsets) in
  ∃ ds,
    PatientTimelineDataset
      (os_path_join extract_dir "extract.db")
      (os_path_join extract_dir "ontology.db")
      (os_path_join (cfg_model_dir config) "info.json") data data = Ok ds
    ∧ DataLoader ds (featurize_args config (fst (randint (w_rng (st_world s)) 0 100000)))
      = Ok (map Ok bes.*1)
    ∧ Forall (fun be : batch * ndarray3 =>
                compute_embedding_batch (m_parameters (model (st_self s))) be.1 = Ok be.2
                ∧ length be.2 = length (batch_pid be.1)
                ∧ Forall (Forall (fun v => length v = Z.to_nat (cfg_size config))) be.2)
             bes.

(** What a completed training loop over [n] batches reports, from batch
    number [i]: one [pbar.update(1)] per batch when a progress bar was
    passed, and else a log line for each batch number that is a
    multiple of 2000. *)
Definition progress (pbar : bool) (i : Z) (n : nat) : list event :=
  if pbar then repeat (EvPbar (PbarUpdate 1)) n
  else omap (fun j => if j mod 2000 =? 0 then Some (EvLog (LogSeenBatch j)) else None)
            (map (fun k => i + Z.of_nat k) (seq 0 n)).

(** No event at all. *)
Definition silent (ev : event) : bool := false.

(** A computation that leaves [self] as it found it. *)
Definition keeps_self {A} (m : M state A) : Prop :=
  ∀ s, st_self (snd (m s)) = st_self s.

(** The featurizer that [from_pretrained] returns for the parameters
    [ps]. *)
Definition pretrained (config : config) (info : info) (device : device)
    (ps : list (param tensor))
    : featurizer :=
  {| model := {| m_config := config; m_info := info; m_device := device;
                 m_parameters := ps; m_training := true |};
     optimizer := None |}.

(** An array of [n] rows of [sz] floats. *)
Definition shaped (n sz : nat) (out : ndarray2) : Prop :=
  length out = n ∧ Forall (fun row => length row = sz) out.

End Observations.

(** * A concrete instance

    Test doubles for the collaborators, on which the methods can be run. *)

Module Demo.

(** A batch of the test double: the patients in it, what the model
    embeds it to, and nothing else. *)
Record demo_batch : Type := {
  db_pid : list Z;
  db_emb : result (list (list (list float)))
}.

(** A dataset of the test double: the batches its loaders stream. *)
Record demo_dataset : Type := {
  dd_train : list (result demo_batch);
  dd_val : list (result demo_batch)
}.

(** Test doubles for the collaborators.  A tensor is an integer; the
    model has a trainable parameter [w] and a frozen one; an optimizer
    step adds one to the trainable parameter; the loss of the model is
    [loss_of] of the value of [w]. *)
Definition collaborators (loss_of : Z → float) (query_ds : result demo_dataset)
    (parse : string → result config) : Collaborators :=
  {| tensor := Z;
     batch := demo_batch;
     dataset := demo_dataset;
     info := unit;
     loss := Z;
     adam_state := unit;
     rng := Z;
     randint r a b := (a + r mod (b - a + 1), r + 1);
     PatientTimelineDataset _ _ _ _ _ := query_ds;
     num_batches ds _ is_val :=
       Z.of_nat (length (if is_val then dd_val ds else dd_train ds));
     DataLoader ds a := Ok (if la_is_val a then dd_val ds else dd_train ds);
     batch_pid := db_pid;
     PredictionModel _ _ _ :=
       Ok [ {| p_name := "w"; p_requires_grad := true; p_data := 0 |};
            {| p_name := "frozen"; p_requires_grad := false; p_data := 0 |} ];
     model_call ps _ _ := Ok (match ps with p :: _ => p_data p | [] => 0 end);
     loss_item := loss_of;
     loss_backward _ ps := Ok ps;
     compute_embedding_batch _ b := db_emb b;
     tensor_shape _ := [];
     adam_init _ _ := Ok tt;
     adam_zero_grad ps := ps;
     adam_step _ st ps :=
       Ok (st, map (fun p => if p_requires_grad p
                             then {| p_name := p_name p; p_requires_grad := true;
                                     p_data := p_data p + 1 |}
                             else p) ps);
     parse_config := parse;
     parse_info _ := Ok tt |}.

Definition config0 (epochs : Z) : config :=
  {| cfg_model_dir := "m";
     cfg_epochs_per_cycle := epochs;
     cfg_warmup_epochs := PInt 1;
     cfg_batch_size := 4;
     cfg_eval_batch_size := 4;
     cfg_num_first := 0;
     cfg_lr := 0.5;
     cfg_b1 := 0.5;
     cfg_b2 := 0.5;
     cfg_e := 0.5;
     cfg_l2 := 0;
     cfg_day_dropout := 0;
     cfg_code_dropout := 0;
     cfg_size := 2 |}.

(** One patient, 7, with two timeline positions. *)
Definition batch0 : demo_batch :=
  {| db_pid := [7]; db_emb := Ok [[[1; 2]; [3; 4]]]%float |}.

Definition dataset0 : demo_dataset :=
  {| dd_train := [Ok batch0]; dd_val := [Ok batch0] |}.

(** A dataset whose training stream fails at its first batch. *)
Definition dataset_failing : demo_dataset :=
  {| dd_train := [Raise (CollaboratorError 1)]; dd_val := [Ok batch0] |}.

Definition no_config (_ : string) : result config := Raise ValueError.

(** Losses per value of [w]: evaluated over the 2000 requested
    batches they give the val losses 1, nan, 0.5. *)
Definition losses_with_nan (z : Z) : float :=
  match z with 1 => 2000 | 2 => nan | _ => 1000 end%float.

(** The same, with 2 in the place of nan. *)
Definition losses_plain (z : Z) : float :=
  match z with 1 => 2000 | 2 => 4000 | _ => 1000 end%float.

Definition loss_four (_ : Z) : float := 4%float.

Section Doubles.
Variables (loss_of : Z → float) (query_ds : result demo_dataset)
  (parse : string → result config).

#[local] Instance doubles : Collaborators := collaborators loss_of query_ds parse.

Definition world0 (r : Z) : world :=
  {| w_fs := ∅; w_files := []; w_loaders := 0; w_rng := r; w_cuda := false;
     w_trace := [] |}.

Definition model0 (epochs : Z) : model_t :=
  {| m_config := config0 epochs; m_info := tt; m_device := Cpu;
     m_parameters :=
       [ {| p_name := "w"; p_requires_grad := true; p_data := 0 |};
         {| p_name := "frozen"; p_requires_grad := false; p_data := 0 |} ];
     m_training := true |}.

Definition state0 (epochs : Z) (r : Z) : state :=
  {| st_self := {| model := model0 epochs; optimizer := None |};
     st_world := world0 r |}.

End Doubles.

End Demo.

(** More of the concrete instance: other datasets, other losses, and a
    model directory that is not empty. *)

Module DemoMore.
Import Demo.

(** A dataset whose validation stream fails at its second pull. *)
Definition dataset_val_failing : demo_dataset :=
  {| dd_train := [Ok batch0]; dd_val := [Ok batch0; Raise (CollaboratorError 1)] |}.

(** A dataset that streams no batch. *)
Definition dataset_empty : demo_dataset := {| dd_train := []; dd_val := [] |}.

(** Losses per value of [w] that give the val losses nan, 0.5, 0.5. *)
Definition losses_nan_first (z : Z) : float :=
  match z with 1 => nan | _ => 1000 end%float.

Definition parse_config0 (_ : string) : result config := Ok (config0 1).

Section Doubles.
Variables (loss_of : Z → float) (query_ds : result demo_dataset)
  (parse : string → result config).

#[local] Instance doubles : Collaborators := collaborators loss_of query_ds parse.

(** A model directory with a configuration, the metadata and the
    checkpoint of an earlier run. *)
Definition model_dir0 : gmap string fobj :=
  {[ "m/config.json" := FJson "{}";
     "m/info.json" := FJson "{}";
     "m/best" := FStateDict [("w", 9); ("frozen", 9)] ]}.

Definition state_in (fs : gmap string fobj) (epochs : Z) (r : Z) : state :=
  {| st_self := {| model := model0 loss_of query_ds parse epochs; optimizer := None |};
     st_world := {| w_fs := fs; w_files := []; w_loaders := 0; w_rng := r;
                    w_cuda := false; w_trace := [] |} |}.

End Doubles.

End DemoMore.

(** * The order of floats *)

Lemma SFltb_irrefl x : SFltb x x = false.
Proof.
  unfold SFltb. destruct x as [s|s| |s m e]; simpl; try destruct s; try reflexivity;
  rewrite Z.compare_refl;
  change (PosDef.Pos.compare_cont Eq m m) with (Pos.compare m m);
  rewrite Pos.compare_refl; reflexivity.
Qed.

Ltac sf_cases :=
  repeat match goal with
  | |- context [PosDef.Pos.compare_cont Eq ?a ?b] =>
      change (PosDef.Pos.compare_cont Eq a b) with (Pos.compare a b)
  | H : context [PosDef.Pos.compare_cont Eq ?a ?b] |- _ =>
      change (PosDef.Pos.compare_cont Eq a b) with (Pos.compare a b) in H
  end;
  repeat match goal with
  | H : context [Z.compare ?a ?b] |- _ => destruct (Z.compare_spec a b); simpl in H
  | |- context [Z.compare ?a ?b] => destruct (Z.compare_spec a b); simpl
  | H : context [Pos.compare ?a ?b] |- _ => destruct (Pos.compare_spec a b); simpl in H
  | |- context [Pos.compare ?a ?b] => destruct (Pos.compare_spec a b); simpl
  end;
  try congruence; try lia; auto.

Lemma SFltb_trans x y z : SFltb x y = true → SFltb y z = true → SFltb x z = true.
Proof.
  unfold SFltb.
  destruct x as [s1|s1| |s1 m1 e1], y as [s2|s2| |s2 m2 e2], z as [s3|s3| |s3 m3 e3];
    simpl; try discriminate; try reflexivity;
    try destruct s1; try destruct s2; try destruct s3; simpl;
    try discriminate; try reflexivity; intros H1 H2; sf_cases.
Qed.

Lemma SFltb_neg_trans x y z :
  y ≠ S754_nan → SFltb x z = true → SFltb x y = true ∨ SFltb y z = true.
Proof.
  unfold SFltb. intros Hy.
  destruct x as [s1|s1| |s1 m1 e1], y as [s2|s2| |s2 m2 e2], z as [s3|s3| |s3 m3 e3];
    simpl; try discriminate; try congruence;
    try destruct s1; try destruct s2; try destruct s3; simpl;
    try discriminate; auto; intros H1; sf_cases.
Qed.

Lemma is_nan_false x : is_nan x = false → Prim2SF x ≠ S754_nan.
Proof.
  unfold is_nan. rewrite FloatAxioms.eqb_spec. intros H E. rewrite E in H. discriminate.
Qed.

Lemma py_lt_irrefl x : py_lt x x = false.
Proof. unfold py_lt. rewrite FloatAxioms.ltb_spec. apply SFltb_irrefl. Qed.

Lemma py_lt_trans x y z : py_lt x y = true → py_lt y z = true → py_lt x z = true.
Proof. unfold py_lt. rewrite !FloatAxioms.ltb_spec. apply SFltb_trans. Qed.

Lemma py_lt_neg_trans x y z :
  is_nan y = false → py_lt x z = true → py_lt x y = true ∨ py_lt y z = true.
Proof.
  unfold py_lt. rewrite !FloatAxioms.ltb_spec. intros H. apply SFltb_neg_trans.
  by apply is_nan_false.
Qed.

(** * What the batch loops leave untouched *)

Section Framing.
Context `{C : Collaborators}.

Lemma wp_bind {S A B} (m : M S A) (k : A → M S B) s Q :
  wp m s (fun r s1 => match r with
                      | Ok a => wp (k a) s1 Q
                      | Raise e => Q (Raise e) s1
                      end) →
  wp (bind m k) s Q.
Proof.
  unfold wp, bind. destruct (m s) as [[a|e] s1]; simpl; auto.
Qed.

Lemma wp_mono {S A} (m : M S A) s (Q Q' : result A → S → Prop) :
  wp m s Q → (∀ r s', Q r s' → Q' r s') → wp m s Q'.
Proof. unfold wp. auto. Qed.

Lemma wp_eq {S A} (m : M S A) s r s' Q : m s = (r, s') → (wp m s Q ↔ Q r s').
Proof. unfold wp. intros ->. reflexivity. Qed.

Lemma quiet_refl P s : quiet P s s.
Proof.
  split; [repeat split|]. exists []. by rewrite app_nil_r.
Qed.

Lemma quiet_trans P s1 s2 s3 : quiet P s1 s2 → quiet P s2 s3 → quiet P s1 s3.
Proof.
  intros [(a1 & a2 & a3 & a4 & a5) (e1 & E1 & F1)] [(b1 & b2 & b3 & b4 & b5) (e2 & E2 & F2)].
  split.
  - repeat split; congruence.
  - exists (e1 ++ e2). rewrite E2, E1, app_assoc. split; [done|].
    by rewrite forallb_app, F1, F2.
Qed.

Lemma quiet_weaken (P P' : event → bool) s s' :
  (∀ ev, P ev = true → P' ev = true) → quiet P s s' → quiet P' s s'.
Proof.
  intros H [F (evs & E & A)]. split; [done|]. exists evs. split; [done|].
  rewrite forallb_forall in *. auto.
Qed.

Lemma quietly_bind {A B} P (m : M state A) (k : A → M state B) :
  quietly P m → (∀ a, quietly P (k a)) → quietly P (bind m k).
Proof.
  intros Hm Hk s. specialize (Hm s). unfold bind.
  destruct (m s) as [[a|e] s1]; simpl in *; [|done].
  eapply quiet_trans; [exact Hm | apply Hk].
Qed.

Lemma quietly_ret {A} P (a : A) : quietly P (ret a).
Proof. intros s. apply quiet_refl. Qed.

Lemma quietly_lift_result {A} P (r : result A) : quietly P (lift_result r).
Proof. intros s. apply quiet_refl. Qed.

Lemma quietly_gets {A} P (f : state → A) : quietly P (gets f).
Proof. intros s. apply quiet_refl. Qed.

Lemma quietly_emit P ev : P ev = true → quietly P (in_world (emit ev)).
Proof.
  intros H s. split; [repeat split|]. exists [ev]. split; [done|].
  simpl. by rewrite H.
Qed.

Lemma quietly_logging_info P m : P (EvLog m) = true → quietly P (logging_info m).
Proof. apply quietly_emit. Qed.

Lemma quietly_set_model P f :
  (∀ m, m_config (f m) = m_config m) → quietly P (modify (set_model f)).
Proof.
  intros H s. split; [repeat split; simpl; auto|]. exists []. by rewrite app_nil_r.
Qed.

Lemma quietly_put_parameters P ps : quietly P (put_parameters ps).
Proof. by apply quietly_set_model. Qed.

Lemma quietly_set_optimizer P o : quietly P (modify (set_optimizer o)).
Proof. intros s. split; [repeat split|]. exists []. by rewrite app_nil_r. Qed.

Lemma quietly_get_optimizer P : quietly P get_optimizer.
Proof.
  intros s. unfold get_optimizer. destruct (optimizer (st_self s)); apply quiet_refl.
Qed.

Lemma quietly_call_model P b : quietly P (call_model b).
Proof. intros s. apply quiet_refl. Qed.

Lemma quietly_random_randint P a b : quietly P (random_randint a b).
Proof.
  intros s. unfold random_randint, in_world.
  destruct (randint (w_rng (st_world s)) a b) as [n r]. simpl.
  split; [repeat split|]. exists []. by rewrite app_nil_r.
Qed.

Lemma quietly_if {A} P (c : bool) (m1 m2 : M state A) :
  quietly P m1 → quietly P m2 → quietly P (if c then m1 else m2).
Proof. by destruct c. Qed.

Ltac quietly_step :=
  first
    [ apply quietly_bind; [|intros ?]
    | apply quietly_ret
    | apply quietly_lift_result
    | apply quietly_gets
    | apply quietly_put_parameters
    | apply quietly_set_optimizer
    | apply quietly_get_optimizer
    | apply quietly_call_model
    | apply quietly_random_randint
    | apply quietly_set_model; reflexivity
    | apply quietly_emit; reflexivity
    | apply quietly_logging_info; reflexivity
    | apply quietly_if ].

Ltac quietly_auto := repeat quietly_step.

Lemma quietly_train_loop pbar batches : ∀ i, quietly body_event (train_loop pbar i batches).
Proof.
  induction batches as [|next rest IH]; intros i; simpl.
  - apply quietly_ret.
  - unfold optimizer_zero_grad, backward, optimizer_step. quietly_auto. apply IH.
Qed.

Lemma quietly_eval_loop batches : ∀ n total, quietly body_event (eval_loop batches n total).
Proof.
  induction batches as [|next rest IH]; intros n total; simpl.
  - apply quietly_ret.
  - quietly_auto. destruct n; quietly_auto. apply IH.
Qed.


Lemma with_DataLoader_spec {A} ds a (body : list (result batch) → M state A) s :
  (∀ bs, quietly body_event (body bs)) →
  frame s (snd (with_DataLoader ds a body s))
  ∧ ∃ evs, trace (snd (with_DataLoader ds a body s)) = trace s ++ evs
           ∧ bracket a (DataLoader ds a) evs.
Proof.
  intros Hb. unfold with_DataLoader.
  destruct (DataLoader ds a) as [bs|e]; simpl.
  - specialize (Hb bs (loader_enter a s)).
    destruct (body bs (loader_enter a s)) as [r s1]. simpl in *.
    destruct Hb as [(h1 & h2 & h3 & h4 & h5) (evs & E & F)].
    split.
    + simpl in *. repeat split; simpl; try congruence. by rewrite h4.
    + exists (EvLoaderEnter a :: evs ++ [EvLoaderExit]). split.
      * unfold trace in *. simpl in *. rewrite E. by rewrite <- !app_assoc.
      * eauto.
  - split; [repeat split|]. exists []. by rewrite app_nil_r.
Qed.

Lemma bracket_inner a r evs : bracket a r evs → forallb inner_event evs = true.
Proof.
  destruct r; simpl.
  - intros (body & -> & F). simpl. rewrite forallb_app. simpl.
    rewrite andb_true_r. rewrite forallb_forall in *. intros x Hx.
    unfold inner_event. by rewrite (F x Hx).
  - by intros ->.
Qed.

Lemma quietly_with_DataLoader {A} ds a (body : list (result batch) → M state A) :
  (∀ bs, quietly body_event (body bs)) →
  quietly inner_event (with_DataLoader ds a body).
Proof.
  intros Hb s. destruct (with_DataLoader_spec ds a body s Hb) as [F (evs & E & B)].
  split; [done|]. exists evs. split; [done|]. by eapply bracket_inner.
Qed.

Lemma quietly_weaken {A} (P P' : event → bool) (m : M state A) :
  (∀ ev, P ev = true → P' ev = true) → quietly P m → quietly P' m.
Proof. intros H Hm s. eapply quiet_weaken; eauto. Qed.

Lemma quietly_train_epoch ds pbar : quietly inner_event (_train_epoch ds pbar).
Proof.
  unfold _train_epoch, model_train, get_config. quietly_auto.
  apply quietly_with_DataLoader. intros bs. apply quietly_train_loop.
Qed.

Lemma quietly_evaluate ds is_val nb : quietly inner_event (evaluate ds is_val nb).
Proof.
  unfold evaluate, model_eval, get_config. quietly_auto.
  apply quietly_with_DataLoader. intros bs. apply quietly_eval_loop.
Qed.

End Framing.

(** * [fit]: one epoch *)

Section Marks.
Context `{C : Collaborators}.

Lemma marks_app a b : marks (a ++ b) = marks a ++ marks b.
Proof. apply omap_app. Qed.

Lemma marks_unmarked evs : forallb unmarked evs = true → marks evs = [].
Proof.
  induction evs as [|ev evs IH]; [done|]. simpl. intros [H1 H2]%andb_true_iff.
  unfold marks in *. simpl. rewrite (IH H2). unfold unmarked in H1.
  by destruct (classify ev).
Qed.

Lemma inner_unmarked ev : inner_event ev = true → unmarked ev = true.
Proof. by destruct ev as [[]| | | | | | | | | | | |]. Qed.

Lemma reach_refl s : reach s s [].
Proof. split; [repeat split|]. exists []. by rewrite app_nil_r. Qed.

Lemma reach_quiet s s1 s2 ms : reach s s1 ms → quiet unmarked s1 s2 → reach s s2 ms.
Proof.
  intros [(a1 & a2 & a3 & a4 & a5) (e1 & E1 & M1)] [(b1 & b2 & b3 & b4 & b5) (e2 & E2 & F2)].
  split; [repeat split; congruence|].
  exists (e1 ++ e2). rewrite E2, E1, app_assoc. split; [done|].
  by rewrite marks_app, M1, (marks_unmarked _ F2), app_nil_r.
Qed.

Lemma append_inj_l p x y : (p +:+ x)%string = (p +:+ y)%string → x = y.
Proof. induction p; simpl; [done|]. intros [=]. auto. Qed.

Lemma losses_ne_best d : os_path_join d "losses" ≠ os_path_join d "best".
Proof.
  unfold os_path_join. simpl.
  destruct (String.eqb d EmptyString || ends_with_slash d)%bool; intros H.
  - apply append_inj_l in H. discriminate.
  - apply append_inj_l in H. discriminate.
Qed.

End Marks.

Section FitEpoch.
Context `{C : Collaborators}.

Lemma quietly_wp {A} P (m : M state A) s : quietly P m → wp m s (fun _ s' => quiet P s s').
Proof. intros H. apply H. Qed.

Lemma post_fail md fd best e s ex s' :
  reach s s' [MStart e] → epoch_post md fd best e s (Raise ex) s'.
Proof.
  intros [(a1 & a2 & a3 & a4 & a5) (evs & E & Mk)].
  unfold epoch_post. split; [done|]. split; [by rewrite a3|]. split; [done|].
  split; [intros; by rewrite a2|].
  exists evs. split; [done|]. left. eauto.
Qed.

Lemma wp_log md fd s s' ms buf m (Q : result unit → state → Prop) :
  logging md fd s s' ms buf →
  (∀ s'', logging md fd s s'' (ms ++ marks [EvLog m]) buf → Q (Ok tt) s'') →
  wp (logging_info m) s' Q.
Proof.
  intros (a1 & a3 & a4 & a5 & evs & E & Mk) HQ. unfold wp. simpl.
  apply HQ. repeat split; simpl; try done.
  exists (evs ++ [EvLog m]). unfold trace in *. simpl. rewrite E, app_assoc.
  split; [done|]. by rewrite marks_app, Mk.
Qed.

Lemma wp_write md fd s s' ms buf c (Q : result unit → state → Prop) :
  logging md fd s s' ms buf →
  (∀ s'', logging md fd s s'' ms (buf ++ [c]) → Q (Ok tt) s'') →
  wp (in_world (file_write fd c)) s' Q.
Proof.
  intros (a1 & a3 & a4 & a5 & evs & E & Mk) HQ.
  unfold wp, in_world, file_write. rewrite a5. simpl.
  apply HQ. repeat split; simpl; try done.
  - apply list_lookup_insert_eq. by eapply lookup_lt_Some.
  - exists (evs ++ [EvWrite fd c]). unfold trace in *. simpl. rewrite E, app_assoc.
    split; [done|]. by rewrite marks_app, Mk, app_nil_r.
Qed.

Lemma wp_flush md fd s s' ms buf (Q : result unit → state → Prop) :
  logging md fd s s' ms buf →
  (∀ s'', flushed md fd s s'' ms buf → Q (Ok tt) s'') →
  wp (in_world (file_flush fd)) s' Q.
Proof.
  intros (a1 & a3 & a4 & a5 & evs & E & Mk) HQ.
  unfold wp, in_world, file_flush. rewrite a5. simpl.
  apply HQ. repeat split; simpl; try done.
  - by rewrite a4.
  - apply list_lookup_insert_eq. by eapply lookup_lt_Some.
  - exists (evs ++ [EvFlush fd]). unfold trace in *. simpl. rewrite E, app_assoc.
    split; [done|]. by rewrite marks_app, Mk, app_nil_r.
Qed.

Ltac quiet_step x lem :=
  apply wp_bind; eapply wp_mono; [apply (quietly_wp unmarked); lem |];
  let Hq := fresh "Hq" in
  intros [x|?] ? Hq; simpl;
  match goal with R : reach _ _ _ |- _ =>
    pose proof (reach_quiet _ _ _ _ R Hq); clear R Hq
  end;
  [| by eapply post_fail].

Lemma fit_epoch_spec ds pbar fd md best e s :
  w_files (st_world s) !! fd
    = Some {| fo_path := os_path_join md "losses"; fo_buffer := []; fo_closed := false |} →
  wp (fit_epoch ds pbar fd md best e) s (epoch_post md fd best e s).
Proof.
  intros Hfd. unfold fit_epoch.
  apply wp_bind. unfold wp at 1. simpl.
  match goal with |- wp _ ?st _ =>
    assert (R : reach s st [MStart e])
      by (split; [repeat split|]; exists [EvLog (LogAboutToStart e)]; done);
    generalize dependent st; intros s1 R end.
  quiet_step u1 ltac:(apply quietly_if; [by apply quietly_emit | apply quietly_ret]).
  quiet_step u2 ltac:(eapply quietly_weaken; [apply inner_unmarked | apply quietly_train_epoch]).
  quiet_step u3 ltac:(by apply quietly_logging_info).
  quiet_step u4 ltac:(apply quietly_if; [by apply quietly_emit | apply quietly_ret]).
  quiet_step t ltac:(eapply quietly_weaken; [apply inner_unmarked | apply quietly_evaluate]).
  quiet_step v ltac:(eapply quietly_weaken; [apply inner_unmarked | apply quietly_evaluate]).
  match goal with R : reach _ _ _ |- _ => destruct R as [(a1 & a2 & a3 & a4 & a5) (evs & E & Mk)] end.
  pose proof Hfd as Hfd0. rewrite <- a3 in Hfd.
  assert (L : logging md fd s s'4 [MStart e] []) by (repeat split; eauto; congruence).
  clear a1 a2 a3 a4 a5 E Mk Hfd.
  eapply wp_bind, wp_log; [exact L|]. clear L. intros s5 L. simpl.
  eapply wp_bind, wp_log; [exact L|]. clear L. intros s6 L. simpl.
  eapply wp_bind, wp_write; [exact L|]. clear L. intros s7 L. simpl.
  eapply wp_bind, wp_write; [exact L|]. clear L. intros s8 L. simpl.
  eapply wp_bind, wp_write; [exact L|]. clear L. intros s9 L. simpl.
  eapply wp_bind, wp_write; [exact L|]. clear L. intros s10 L. simpl.
  eapply wp_bind, wp_flush; [exact L|]. clear L. intros s11 L. simpl.
  change (match best.1 with Some b => py_lt v b | None => true end)
    with (improves (fst best) v).
  destruct L as (c1 & c2 & c3 & c4 & evs' & E & Mk). simpl in Mk.
  pose proof (losses_ne_best md) as Hne.
  assert (Hlp : w_fs (st_world s11) !! os_path_join md "losses"
                = Some (FText (text_of (w_fs (st_world s) !! os_path_join md "losses")
                               ++ entry e t v))).
  { rewrite c3. by rewrite lookup_insert_eq. }
  assert (Hbp : w_fs (st_world s11) !! os_path_join md "best"
                = w_fs (st_world s) !! os_path_join md "best").
  { rewrite c3. by rewrite lookup_insert_ne. }
  assert (Hoth : ∀ p, p ≠ os_path_join md "losses" →
                 w_fs (st_world s11) !! p = w_fs (st_world s) !! p).
  { intros p Hp. rewrite c3. by rewrite lookup_insert_ne. }
  clear c3.
  assert (Hpost : ∀ r s', 
     m_config (model (st_self s')) = m_config (model (st_self s11)) →
     w_files (st_world s') = w_files (st_world s11) →
     w_loaders (st_world s') = w_loaders (st_world s11) →
     (∀ p, p ≠ os_path_join md "best" → w_fs (st_world s') !! p = w_fs (st_world s11) !! p) →
     (∃ evs2, trace s' = trace s11 ++ evs2 ∧
       ((improves (fst best) v = false ∧ r = Ok best ∧ evs2 = []
         ∧ w_fs (st_world s') !! os_path_join md "best" = w_fs (st_world s11) !! os_path_join md "best")
        ∨ (improves (fst best) v = true ∧ r = Ok (Some v, Some e)
           ∧ marks evs2 = (if bool_decide (is_Some (w_fs (st_world s) !! os_path_join md "best"))
                           then [MUnlink (os_path_join md "best")] else [])
                  ++ [MSave (os_path_join md "best") (state_dict (m_parameters (model (st_self s'))))]
           ∧ w_fs (st_world s') !! os_path_join md "best"
             = Some (FStateDict (state_dict (m_parameters (model (st_self s'))))))
        ∨ (improves (fst best) v = true ∧ (∃ ex, r = Raise ex) ∧ evs2 = []
           ∧ w_fs (st_world s') !! os_path_join md "best" = w_fs (st_world s11) !! os_path_join md "best"))) →
     epoch_post md fd best e s r s').
  { intros r s2 h1 h2 h3 h4 (evs2 & E2 & Hc). unfold epoch_post.
    split; [congruence|]. split; [by rewrite h2, c4, Hfd0|].
    split; [congruence|]. split; [intros p Hp1 Hp2; rewrite h4, Hoth; done|].
    exists (evs' ++ evs2). split; [rewrite E2, E; by rewrite app_assoc|].
    right. exists t, v. split; [rewrite h4 by done; exact Hlp|].
    rewrite marks_app, Mk.
    destruct Hc as [(k1 & k2 & k3 & k4)|[(k1 & k2 & k3 & k4)|(k1 & k2 & k3 & k4)]].
    - left. subst evs2. rewrite app_nil_r. repeat split; try done. by rewrite k4.
    - right; left. rewrite k3. repeat split; done.
    - right; right. subst evs2. rewrite app_nil_r. repeat split; try done. by rewrite k4. }
  clear Hlp Hoth E Mk c1 c2 c4.
  destruct s11 as [me w]. simpl in Hbp.
  destruct (improves (fst best) v) eqn:Hi.
  - unfold wp, bind, in_world, os_path_exists, os_unlink, torch_save,
      get_parameters, gets, logging_info, emit, modify; simpl.
    destruct (w_fs (st_world s) !! os_path_join md "best") as [o|] eqn:Hb.
    + rewrite bool_decide_eq_true_2 by (rewrite Hbp; eauto).
      destruct o; simpl; rewrite ?Hbp; simpl; rewrite ?lookup_delete_eq; simpl;
        (apply Hpost; simpl; [done|done|done|..]);
        try (intros p Hp; by rewrite ?lookup_insert_ne, ?lookup_delete_ne);
        try done;
        (eexists; unfold trace; simpl; rewrite <- ?app_assoc;
         split; [first [reflexivity | symmetry; apply app_nil_r]|]).
      all: first [ right; right; by eauto 6
                 | right; left; rewrite lookup_insert_eq; done ].
    + rewrite bool_decide_eq_false_2 by (rewrite Hbp; by intros [? ?]).
      simpl. rewrite ?Hbp. simpl. apply Hpost; simpl; try done.
      { intros p Hp. by rewrite lookup_insert_ne. }
      eexists. unfold trace. simpl. rewrite <- !app_assoc. split; [reflexivity|].
      right; left. rewrite lookup_insert_eq. done.
  - unfold wp. simpl. apply Hpost; try done. exists []. rewrite app_nil_r.
    split; [done|]. left. done.
Qed.

End FitEpoch.

(** * [fit]: the loop over the epochs *)

Section FitEpochs.
Context `{C : Collaborators}.

Lemma fit_epochs_spec ds pbar fd md epochs : ∀ best s,
  w_files (st_world s) !! fd
    = Some {| fo_path := os_path_join md "losses"; fo_buffer := []; fo_closed := false |} →
  wp (fit_epochs ds pbar fd md epochs best) s (loop_post md fd epochs best s).
Proof.
  induction epochs as [|e rest IH]; intros best s Hfd; simpl.
  - unfold wp, loop_post. simpl. repeat split; try done.
    exists [], []. rewrite app_nil_r. repeat split; done.
  - apply wp_bind. eapply wp_mono; [by apply fit_epoch_spec|].
    intros r s1 (h1 & h2 & h3 & h4 & evs & E & Hc).
    destruct r as [best1|ex].
    + (* the epoch completed *)
      assert (Hfd1 : w_files (st_world s1) !! fd
                = Some {| fo_path := os_path_join md "losses"; fo_buffer := [];
                          fo_closed := false |}) by (by rewrite h2).
      eapply wp_mono; [apply (IH best1 s1 Hfd1)|].
      intros r s2 (k1 & k2 & k3 & k4 & evs2 & run & E2 & Hr & Hk).
      destruct Hc as [(ex & ? & _)|(t & v & Hlp & Hc)]; [done|].
      unfold loop_post.
      split; [congruence|]. split; [congruence|]. split; [congruence|].
      split; [intros p P1 P2; by rewrite k4, h4|].
      set (sd := state_dict (m_parameters (model (st_self s1)))) in *.
      exists (evs ++ evs2), ((e, t, v, sd) :: run).
      split; [by rewrite E2, E, app_assoc|].
      split; [simpl; by rewrite Hr|].
      assert (Hx : ∃ art,
        w_fs (st_world s1) !! os_path_join md "best" = art ∧
        marks evs ++ loop_marks (os_path_join md "best") art (fst best1) run
          = loop_marks (os_path_join md "best")
              (w_fs (st_world s) !! os_path_join md "best") (fst best) ((e, t, v, sd) :: run) ∧
        final_best best1 run = final_best best ((e, t, v, sd) :: run) ∧
        final_artifact art (fst best1) run
          = final_artifact (w_fs (st_world s) !! os_path_join md "best") (fst best)
              ((e, t, v, sd) :: run)).
      { destruct Hc as [(i1 & i2 & i3 & i4)|[(i1 & i2 & i3 & i4)|(i1 & (? & i2) & _)]];
          [| |done].
        - injection i2 as ->. exists (w_fs (st_world s) !! os_path_join md "best").
          split; [done|]. simpl. rewrite i1, i3. done.
        - injection i2 as ->. exists (Some (FStateDict sd)).
          split; [done|]. simpl. rewrite i1, i3. simpl.
          rewrite <- !app_assoc. done. }
      destruct Hx as (art & Ha & Hm & Hb & Hf).
      rewrite Ha in Hk. rewrite marks_app.
      destruct r as [best2|ex2].
      * destruct Hk as (l1 & l2 & l3 & l4 & l5).
        split; [simpl; by rewrite l1|]. split; [by rewrite l2, Hb|].
        split; [by rewrite l3, Hm|].
        split; [|by rewrite l5, Hf].
        rewrite l4. destruct run; rewrite Hlp; unfold run_entries; simpl;
          rewrite <- ?app_assoc, ?app_nil_r; done.
      * destruct Hk as (e' & l1 & Hk). exists e'. split; [done|].
        destruct Hk as [(l2 & l3)|(t' & v' & l2 & l3)].
        -- left. split; [by rewrite l2, app_assoc, Hm|].
           rewrite l3. destruct run; rewrite Hlp; unfold run_entries; simpl;
             rewrite <- ?app_assoc, ?app_nil_r; done.
        -- right. exists t', v'. split; [by rewrite l2, app_assoc, Hm|].
           rewrite l3, Hlp. unfold run_entries. simpl.
           rewrite <- ?app_assoc, ?app_nil_r. done.
    + (* the epoch failed *)
      unfold loop_post. repeat split; try done.
      exists evs, []. split; [done|]. split; [done|]. exists e. split; [done|].
      destruct Hc as [(ex' & _ & Hm & Hfs)|(t & v & Hlp & Hc)].
      * left. simpl. split; [done|]. by rewrite Hfs.
      * right. exists t, v. simpl.
        destruct Hc as [(_ & ? & _)|[(_ & ? & _)|(_ & _ & Hm & _)]]; done.
Qed.

End FitEpochs.

(** * The best val loss so far *)

Section BestSoFar.
Context `{C : Collaborators}.

Lemma best_inv_step best seen v :
  best_inv best seen →
  best_inv (if improves best v then Some v else best) (seen ++ [v]).
Proof.
  intros Hinv. destruct (improves best v) eqn:Hi.
  - split; [set_solver|]. apply Forall_app. split.
    + destruct best as [x|]; simpl in *.
      * destruct Hinv as [_ Hall]. eapply Forall_impl; [exact Hall|].
        intros y Hy. simpl in Hy. destruct (py_lt y v) eqn:Hyv; [|done].
        by rewrite (py_lt_trans _ _ _ Hyv Hi) in Hy.
      * subst seen. constructor.
    + constructor; [apply py_lt_irrefl|constructor].
  - destruct best as [x|]; simpl in *; [|done].
    destruct Hinv as [Hin Hall]. split; [set_solver|].
    apply Forall_app. split; [done|]. constructor; [done|constructor].
Qed.

Lemma improves_iff best seen v :
  best_inv best seen → Forall (fun y => is_nan y = false) seen →
  improves best v = true ↔ Forall (fun y => py_lt v y = true) seen.
Proof.
  intros Hinv Hnan. destruct best as [x|]; simpl in *.
  - destruct Hinv as [Hin Hall]. split.
    + intros Hvx. rewrite Forall_forall in *. intros y Hy.
      destruct (py_lt_neg_trans v y x (Hnan y Hy) Hvx) as [H|H]; [done|].
      by rewrite (Hall y Hy) in H.
    + intros H. rewrite Forall_forall in H. by apply H.
  - subst seen. split; [constructor|done].
Qed.

Lemma saved_list_epochs best run e sd :
  (e, sd) ∈ saved_list best run → e ∈ epochs_of run.
Proof.
  revert best. induction run as [|[[[e0 t0] v0] sd0] r IH]; intros best; simpl.
  - by intros ?%elem_of_nil.
  - destruct (improves best v0).
    + intros [[= -> ->]|H]%elem_of_cons; [left|right; eauto].
    + intros H. right. eauto.
Qed.

Lemma saved_iff run : ∀ n0 best seen,
  epochs_of run = map Z.of_nat (seq n0 (length run)) →
  best_inv best seen →
  Forall (fun y => is_nan y = false) (seen ++ vals run) →
  ∀ i v, vals run !! i = Some v →
    (Z.of_nat (n0 + i) ∈ (saved_list best run).*1
     ↔ Forall (fun y => py_lt v y = true) (seen ++ take i (vals run))).
Proof.
  induction run as [|[[[e0 t0] v0] sd0] r IH]; intros n0 best seen He Hinv Hnan i v Hv.
  - done.
  - simpl in He. injection He as -> He.
    assert (Hlater : ∀ b, Z.of_nat n0 ∉ (saved_list b r).*1).
    { intros b [[e sd] [Heq Hin]]%list_elem_of_fmap. simpl in Heq. subst e.
      apply saved_list_epochs in Hin. rewrite He in Hin.
      apply list_elem_of_fmap in Hin as (k & Hk1 & Hk2).
      apply elem_of_seq in Hk2. lia. }
    destruct i as [|j]; simpl in Hv.
    + injection Hv as ->. rewrite Nat.add_0_r. simpl. rewrite app_nil_r.
      rewrite <- (improves_iff best seen v Hinv)
        by (by apply Forall_app in Hnan as [? _]).
      destruct (improves best v); simpl.
      * split; [done|]. intros _. left.
      * split; [|done]. intros H. by apply Hlater in H.
    + pose proof (best_inv_step best seen v0 Hinv) as Hinv'.
      assert (Hnan' : Forall (fun y => is_nan y = false) ((seen ++ [v0]) ++ vals r)).
      { by rewrite <- app_assoc. }
      specialize (IH (S n0) _ _ He Hinv' Hnan' j v Hv).
      replace (n0 + S j)%nat with (S n0 + j)%nat by lia.
      simpl (take _ _). rewrite <- app_assoc in IH. simpl in IH. rewrite <- IH.
      simpl. destruct (improves best v0); simpl; [|done].
      rewrite elem_of_cons. split; [|by right].
      intros [H|H]; [lia|done].
Qed.

(** The last checkpoint written is the final best val loss. *)
Lemma saved_list_last run : ∀ n0 best seen,
  epochs_of run = map Z.of_nat (seq n0 (length run)) →
  best_inv best seen →
  match last (saved_list best run) with
  | None => saved_list best run = [] ∧ best_inv best (seen ++ vals run)
  | Some (e, sd) =>
      ∃ i v, e = Z.of_nat (n0 + i) ∧ vals run !! i = Some v
             ∧ best_inv (Some v) (seen ++ vals run)
  end.
Proof.
  induction run as [|[[[e0 t0] v0] sd0] r IH]; intros n0 best seen He Hinv.
  - simpl. by rewrite app_nil_r.
  - simpl in He. injection He as -> He.
    pose proof (best_inv_step best seen v0 Hinv) as Hinv'.
    specialize (IH (S n0) _ _ He Hinv').
    simpl. replace (seen ++ v0 :: vals r) with ((seen ++ [v0]) ++ vals r)
      by (by rewrite <- app_assoc).
    destruct (improves best v0) eqn:Hi.
    + rewrite last_cons. destruct (last (saved_list (Some v0) r)) as [[e sd]|].
      * destruct IH as (i & v & -> & Hv & Hb). exists (S i), v.
        split; [f_equal; lia|]. done.
      * destruct IH as [_ Hb]. exists 0%nat, v0. split; [f_equal; lia|]. done.
    + destruct (last (saved_list best r)) as [[e sd]|].
      * destruct IH as (i & v & -> & Hv & Hb). exists (S i), v.
        split; [f_equal; lia|]. done.
      * done.
Qed.

Lemma saved_list_first run e t v sd :
  saved_list None ((e, t, v, sd) :: run) ≠ [].
Proof. done. Qed.

Lemma final_artifact_last run : ∀ art best,
  final_artifact art best run
  = match last (saved_list best run) with
    | Some (e, sd) => Some (FStateDict sd)
    | None => art
    end.
Proof.
  induction run as [|[[[e0 t0] v0] sd0] r IH]; intros art best; simpl; [done|].
  destruct (improves best v0).
  - rewrite IH, last_cons. by destruct (last (saved_list (Some v0) r)) as [[]|].
  - apply IH.
Qed.

End BestSoFar.

(** * [fit]: the whole call *)

Section FitRun.
Context `{C : Collaborators}.

Lemma checkpoints_ne_best d : os_path_join d "checkpoints" ≠ os_path_join d "best".
Proof.
  unfold os_path_join. simpl.
  destruct (String.eqb d EmptyString || ends_with_slash d)%bool; intros H;
    apply append_inj_l in H; discriminate.
Qed.

Lemma checkpoints_ne_losses d : os_path_join d "checkpoints" ≠ os_path_join d "losses".
Proof.
  unfold os_path_join. simpl.
  destruct (String.eqb d EmptyString || ends_with_slash d)%bool; intros H;
    apply append_inj_l in H; discriminate.
Qed.

Lemma build_eq ds s :
  _build_adam_optimizer ds s =
  let cfg := m_config (model (st_self s)) in
  let ps := List.filter (fun p => p_requires_grad p) (m_parameters (model (st_self s))) in
  match py_truediv (cfg_warmup_epochs cfg) (PInt (cfg_epochs_per_cycle cfg)) with
  | Raise ex => (Raise ex, s)
  | Ok warmup =>
      match adam_init ps (build_settings cfg ds warmup) with
      | Raise ex => (Raise ex, s)
      | Ok st =>
          (Ok {| opt_params := ps; opt_defaults := build_settings cfg ds warmup;
                 opt_state := st |},
           {| st_self := st_self s;
              st_world :=
                emit_w (EvLog (LogTotalBatches (as_t_total (build_settings cfg ds warmup))))
                  (emit_w (EvLog (LogBatchesPerEpoch
                                    (num_batches ds (cfg_batch_size cfg) false)))
                     (emit_w (EvOptimizer ps (build_settings cfg ds warmup))
                        (st_world s))) |})
      end
  end.
Proof.
  destruct s as [me w]. simpl.
  unfold _build_adam_optimizer, OpenAIAdam, bind, get_config, get_parameters,
    gets, lift_result, logging_info, in_world, emit, modify, ret. simpl.
  destruct (py_truediv _ _) as [warmup|ex]; simpl; [|done].
  fold (build_settings (m_config (model me)) ds warmup).
  destruct (adam_init _ _) as [st|ex]; simpl; done.
Qed.

Lemma wp_bind_eq {S A B} (m : M S A) (k : A → M S B) s r s1 Q :
  m s = (r, s1) →
  match r with Ok a => wp (k a) s1 Q | Raise e => Q (Raise e) s1 end →
  wp (bind m k) s Q.
Proof. intros E H. apply wp_bind. unfold wp at 1. rewrite E. exact H. Qed.

Lemma makedirs_cases p w :
  os_makedirs p w = (Raise FileExistsError, w)
  ∨ ∃ w1, os_makedirs p w = (Ok tt, w1) ∧ world_step w w1 (w_files w) [p] [].
Proof.
  unfold os_makedirs. destruct (w_fs w !! p) as [[]|] eqn:E; auto; right.
  - eexists. split; [done|]. repeat split; simpl; eauto.
  - eexists. split; [done|]. repeat split; simpl; eauto.
    intros q Hq. rewrite lookup_insert_ne; [done|].
    intros ->. apply Hq. left.
Qed.

Lemma open_w_cases p w :
  open_w p w = (Raise IsADirectoryError, w)
  ∨ ∃ w1, open_w p w = (Ok (length (w_files w)), w1)
          ∧ world_step w w1
              (w_files w ++ [ {| fo_path := p; fo_buffer := []; fo_closed := false |} ])
              [p] [MOpen p]
          ∧ w_fs w1 !! p = Some (FText []).
Proof.
  unfold open_w.
  assert (H : ∃ w1,
    (Ok (length (w_files w)),
     emit_w (EvOpen p)
       (set_files (fun fs => fs ++ [ {| fo_path := p; fo_buffer := []; fo_closed := false |} ])
          (set_fs (insert p (FText [])) w))) = (Ok (length (w_files w)), w1)
    ∧ world_step w w1
              (w_files w ++ [ {| fo_path := p; fo_buffer := []; fo_closed := false |} ])
              [p] [MOpen p]
    ∧ w_fs w1 !! p = Some (FText [])).
  { eexists. split; [done|]. split.
    - repeat split; simpl; eauto.
      intros q Hq. rewrite lookup_insert_ne; [done|].
      intros ->. apply Hq. left.
    - simpl. by rewrite lookup_insert_eq. }
  destruct (w_fs w !! p) as [[]|] eqn:E; auto.
Qed.

Lemma pbar_step (b : bool) op me w :
  ∃ w1, (if b then in_world (emit (EvPbar op)) else ret tt)
          {| st_self := me; st_world := w |}
        = (Ok tt, {| st_self := me; st_world := w1 |})
        ∧ w_fs w1 = w_fs w ∧ world_step w w1 (w_files w) [] [].
Proof.
  destruct b; simpl; eexists; (split; [reflexivity|]); split; try done;
    repeat split; simpl; eauto. exists []. by rewrite app_nil_r.
Qed.

Lemma pbar_new_step (b : bool) m o w :
  ∃ w1, (if b
         then o' <- get_optimizer ;;
              in_world (emit (EvPbar (PbarNew (Some (as_t_total (opt_defaults o'))))))
         else ret tt)
          {| st_self := {| model := m; optimizer := Some o |}; st_world := w |}
        = (Ok tt, {| st_self := {| model := m; optimizer := Some o |}; st_world := w1 |})
        ∧ w_fs w1 = w_fs w ∧ world_step w w1 (w_files w) [] [].
Proof.
  destruct b; simpl; eexists; (split; [reflexivity|]); split; try done;
    repeat split; simpl; eauto. exists []. by rewrite app_nil_r.
Qed.

Lemma world_step_trans w w1 w2 f1 f2 t1 t2 m1 m2 :
  world_step w w1 f1 t1 m1 → world_step w1 w2 f2 t2 m2 →
  world_step w w2 f2 (t1 ++ t2) (m1 ++ m2).
Proof.
  intros (a1 & a2 & a3 & e1 & E1 & M1) (b1 & b2 & b3 & e2 & E2 & M2).
  repeat split; try congruence.
  - intros q Hq. rewrite b3, a3; [done| |]; intros H; apply Hq, elem_of_app; auto.
  - exists (e1 ++ e2). rewrite E2, E1, app_assoc. split; [done|].
    by rewrite marks_app, M1, M2.
Qed.

Lemma in_world_eq {A} (m : M world A) me w r w1 :
  m w = (r, w1) →
  in_world m {| st_self := me; st_world := w |} = (r, {| st_self := me; st_world := w1 |}).
Proof. unfold in_world. simpl. by intros ->. Qed.

Lemma file_close_open fd w fo :
  w_files w !! fd = Some fo → fo_closed fo = false →
  file_close fd w = (Ok tt, emit_w (EvClose fd) (flush_file fd fo true w)).
Proof. intros H1 H2. unfold file_close. by rewrite H1, H2. Qed.

Lemma fit_spec ds use_pbar s : wp (fit ds use_pbar) s (fit_post ds s).
Proof.
  destruct s as [[m o] w].
  unfold fit.
  eapply wp_bind_eq; [reflexivity|]. cbv beta iota.
  eapply wp_bind_eq; [reflexivity|]. cbv beta iota.
  destruct (py_truediv (cfg_warmup_epochs (m_config m)) (PInt (cfg_epochs_per_cycle (m_config m))))
    as [warmup|ex] eqn:Hw.
  2:{ eapply wp_bind_eq; [rewrite build_eq; cbv zeta; simpl; rewrite Hw; reflexivity|].
      unfold fit_post. simpl. repeat split; try done.
      exists []. rewrite app_nil_r. split; [done|]. left. eauto. }
  destruct (adam_init (List.filter (fun p => p_requires_grad p) (m_parameters m))
              (build_settings (m_config m) ds warmup)) as [st|ex] eqn:Hst.
  2:{ eapply wp_bind_eq; [rewrite build_eq; cbv zeta; simpl; rewrite Hw, Hst; reflexivity|].
      unfold fit_post. simpl. repeat split; try done.
      exists []. rewrite app_nil_r. split; [done|]. left. eauto. }
  eapply wp_bind_eq; [rewrite build_eq; cbv zeta; simpl; rewrite Hw, Hst; reflexivity|].
  cbv beta iota.
  eapply wp_bind_eq; [reflexivity|]. cbv beta iota.
  simpl (m_config _). unfold set_optimizer. simpl (st_self _). simpl (st_world _).
  simpl (model _).
  set (md := cfg_model_dir (m_config m)).
  set (ps := List.filter (fun p => p_requires_grad p) (m_parameters m)) in *.
  set (a := build_settings (m_config m) ds warmup) in *.
  match goal with |- wp _ {| st_self := ?me; st_world := ?wx |} _ =>
    set (me1 := me);
    assert (W0 : world_step w wx (w_files w) [] [MOptimizer ps a])
      by (repeat split; simpl; eauto; eexists;
          (split; [rewrite <- !app_assoc; reflexivity | reflexivity]));
    generalize dependent wx
  end.
  intros w0 W0.
  destruct (makedirs_cases (os_path_join md "checkpoints") w0)
    as [Hm|(w1 & Hm & W1)].
  { eapply wp_bind_eq; [apply in_world_eq, Hm|].
    destruct W0 as (b1 & b2 & b3 & evs & E & Mk).
    unfold fit_post. simpl. repeat split; try done.
    exists evs. split; [done|]. right. exists warmup. split; [done|]. left. eauto. }
  eapply wp_bind_eq; [apply in_world_eq, Hm|]. cbv beta iota.
  rewrite (proj1 W0) in W1.
  pose proof (world_step_trans _ _ _ _ _ _ _ _ _ W0 W1) as W. clear W0 W1 Hm w0.
  destruct (pbar_new_step use_pbar (with_training true m)
              {| opt_params := ps; opt_defaults := a; opt_state := st |} w1)
    as (w2 & Hp & _ & W2).
  eapply wp_bind_eq; [exact Hp|]. cbv beta iota.
  rewrite (proj1 W) in W2.
  pose proof (world_step_trans _ _ _ _ _ _ _ _ _ W W2) as W'. clear W W2 Hp w1.
  set (lp := os_path_join md "losses").
  set (bp := os_path_join md "best").
  set (fo := {| fo_path := lp; fo_buffer := []; fo_closed := false |}).
  assert (Hbp_cp : bp ≠ os_path_join md "checkpoints")
    by (intros H; by apply (checkpoints_ne_best md)).
  assert (Hlp_bp : lp ≠ bp) by apply losses_ne_best.
  destruct (open_w_cases lp w2) as [Ho|(w3 & Ho & W3 & Hlp3)].
  { eapply wp_bind_eq; [apply in_world_eq, Ho|].
    destruct W' as (b1 & b2 & b3 & evs & E & Mk).
    unfold fit_post. simpl. repeat split; try done.
    exists evs. split; [done|]. right. exists warmup. split; [done|]. left. eauto. }
  rewrite (proj1 W') in Ho, W3.
  eapply wp_bind_eq; [apply in_world_eq, Ho|]. cbv beta iota.
  pose proof (world_step_trans _ _ _ _ _ _ _ _ _ W' W3) as W. clear W' W3 Ho.
  simpl in W.
  eapply wp_bind_eq; [reflexivity|]. cbv beta iota. simpl (st_self _). simpl (st_world _).
  destruct W as (b1 & b2 & b3 & evs & E & Mk).
  set (fd := length (w_files w)) in *.
  apply wp_bind. eapply wp_mono.
  { apply fit_epochs_spec. simpl. rewrite b1. by apply list_lookup_middle. }
  intros r [me5 w5] (c1 & c2 & c3 & c4 & evs5 & run & E5 & Hrun & Hr).
  simpl in c1, c2, c3, c4, E5, Hr. unfold trace in E5. simpl in E5.
  fold lp bp in c4, Hr.
  assert (Hbp0 : w_fs w3 !! bp = w_fs w !! bp).
  { apply b3. simpl.
    intros [?|[?|?%elem_of_nil]%elem_of_cons]%elem_of_cons; [by apply Hbp_cp| |done].
    by apply Hlp_bp. }
  rewrite Hbp0, Hlp3 in Hr.
  assert (Hfd5 : w_files w5 !! fd = Some fo).
  { rewrite c2, b1. by apply list_lookup_middle. }
  destruct r as [best'|ex].
  - (* every epoch completed *)
    destruct Hr as (r1 & r2 & r3 & r4 & r5).
    assert (Hlp5 : w_fs w5 !! lp = Some (FText (run_entries run))).
    { rewrite r4. by destruct run. }
    destruct (pbar_step use_pbar PbarClose me5 w5) as (w6 & Hp & Hfs6 & W6).
    eapply wp_bind_eq; [exact Hp|]. cbv beta iota.
    destruct W6 as (d1 & d2 & d3 & evs6 & E6 & Mk6).
    eapply wp_bind_eq.
    { apply in_world_eq. apply (file_close_open fd w6 fo); [by rewrite d1|done]. }
    cbv beta iota. unfold wp, fit_post. simpl.
    split; [done|]. split; [congruence|].
    exists (evs ++ [EvLog LogStartTraining] ++ evs5 ++ evs6
            ++ [EvClose fd; EvLog LogTrainingComplete]).
    split.
    { unfold trace. simpl. rewrite E6, E5, E. by rewrite <- !app_assoc. }
    right. exists warmup. split; [done|]. right. exists run. split; [done|].
    split; [done|]. split.
    { rewrite !marks_app, Mk, r3, Mk6. simpl. by rewrite app_nil_r. }
    rewrite Hfs6. fold lp bp. split; [|split].
    + rewrite lookup_insert_eq, Hlp5. simpl. by rewrite app_nil_r.
    + by rewrite lookup_insert_ne.
    + apply list_lookup_insert_eq. rewrite d1. by eapply lookup_lt_Some.
  - (* an epoch failed *)
    unfold fit_post. simpl. split; [done|]. split; [congruence|].
    exists (evs ++ [EvLog LogStartTraining] ++ evs5).
    split.
    { unfold trace. simpl. rewrite E5, E. by rewrite <- !app_assoc. }
    right. exists warmup. split; [done|]. right. exists run. split; [done|].
    fold md. fold lp bp.
    destruct Hr as (e & He & [(r3 & r4)|(t & v & r3 & r4)]).
    + exists e, [MStart e], []. split; [done|]. split.
      { rewrite !marks_app, Mk, r3. simpl. done. }
      split; [rewrite r4, app_nil_r; by destruct run|]. split; [by left|done].
    + exists e, [MStart e; MTrain t; MVal v], (entry e t v). split; [done|]. split.
      { rewrite !marks_app, Mk, r3. simpl. done. }
      split; [by rewrite r4|]. split; [right; eauto|done].
Qed.

End FitRun.

(** * Reading a run off the marks *)

Section Decoding.
Context `{C : Collaborators}.

Lemma started_loop bp run : ∀ art best,
  started (loop_marks bp art best run) = epochs_of run.
Proof.
  induction run as [|[[[e t] v] sd] r IH]; intros art best; simpl; [done|].
  f_equal. destruct (improves best v); [|apply IH].
  unfold started in *. rewrite omap_app. simpl. rewrite IH.
  by destruct (bool_decide _).
Qed.


Lemma val_losses_loop bp run : ∀ art best,
  val_losses (loop_marks bp art best run) = vals run.
Proof.
  induction run as [|[[[e t] v] sd] r IH]; intros art best; simpl; [done|].
  f_equal. destruct (improves best v); [|apply IH].
  unfold val_losses in *. rewrite omap_app. simpl. rewrite IH.
  by destruct (bool_decide _).
Qed.

Lemma optimizers_loop bp run : ∀ art best,
  optimizers_built (loop_marks bp art best run) = [].
Proof.
  induction run as [|[[[e t] v] sd] r IH]; intros art best; simpl; [done|].
  destruct (improves best v); [|apply IH].
  unfold optimizers_built in *. rewrite omap_app. simpl. rewrite IH.
  by destruct (bool_decide _).
Qed.

Lemma saves_loop bp run : ∀ cur art best,
  saves_from cur (loop_marks bp art best run) = saved_list best run.
Proof.
  induction run as [|[[[e t] v] sd] r IH]; intros cur art best; simpl; [done|].
  destruct (improves best v); [|apply IH].
  destruct (bool_decide _); simpl; by rewrite IH.
Qed.

Lemma delete_then_write_loop bp run : ∀ art best,
  delete_then_write (bool_decide (is_Some art)) bp (loop_marks bp art best run) = true.
Proof.
  induction run as [|[[[e t] v] sd] r IH]; intros art best; simpl; [done|].
  destruct (improves best v); [|apply IH].
  specialize (IH (Some (FStateDict sd)) (Some v)).
  rewrite bool_decide_eq_true_2 in IH by eauto.
  destruct (bool_decide (is_Some art)); simpl; by rewrite String.eqb_refl, IH.
Qed.



Lemma new_events_app s s' evs : trace s' = trace s ++ evs → new_events s s' = evs.
Proof. unfold new_events. intros ->. by rewrite drop_app_length. Qed.

End Decoding.

(** * [fit]: checkpoints, loss log, optimizer *)

Section FitTheorems.
Context `{C : Collaborators}.

Lemma Forall_take_lookup {A} (P : A → Prop) (l : list A) i :
  Forall P (take i l) ↔ ∀ j x, (j < i)%nat → l !! j = Some x → P x.
Proof.
  rewrite Forall_lookup. split.
  - intros H j x Hj Hx. apply (H j). by rewrite lookup_take_lt.
  - intros H j x Hx. apply lookup_take_Some in Hx as [Hx Hj]. eauto.
Qed.

Lemma fit_run ds use_pbar s :
  fit_post ds s (fst (fit ds use_pbar s)) (snd (fit ds use_pbar s)).
Proof. apply (fit_spec ds use_pbar s). Qed.

Lemma range_length n : length (range n) = Z.to_nat n.
Proof. unfold range. by rewrite length_map, length_seq. Qed.

(** What a completed [fit] leaves: the run of its epochs. *)
Lemma fit_ok_run ds use_pbar s s' :
  fit ds use_pbar s = (Ok tt, s') →
  let cfg := m_config (model (st_self s)) in
  let lp := os_path_join (cfg_model_dir cfg) "losses" in
  let bp := os_path_join (cfg_model_dir cfg) "best" in
  ∃ warmup (run : list epoch_run),
    py_truediv (cfg_warmup_epochs cfg) (PInt (cfg_epochs_per_cycle cfg)) = Ok warmup ∧
    epochs_of run = map Z.of_nat (seq 0 (length run)) ∧
    length run = Z.to_nat (cfg_epochs_per_cycle cfg) ∧
    marks (new_events s s')
      = MOptimizer (List.filter (fun p => p_requires_grad p)
                      (m_parameters (model (st_self s))))
                   (build_settings cfg ds warmup)
        :: MOpen lp :: loop_marks bp (w_fs (st_world s) !! bp) None run ∧
    w_fs (st_world s') !! lp = Some (FText (run_entries run)) ∧
    w_fs (st_world s') !! bp = final_artifact (w_fs (st_world s) !! bp) None run ∧
    w_files (st_world s') !! length (w_files (st_world s))
      = Some {| fo_path := lp; fo_buffer := []; fo_closed := true |}.
Proof.
  intros Hfit. pose proof (fit_run ds use_pbar s) as H. rewrite Hfit in H. simpl in H.
  destruct H as (_ & _ & evs & E & [(ex & ? & _)|(warmup & Hw & [(ex & ? & _)|(run & Hr & H)])]);
    try done.
  destruct H as (h1 & h2 & h3 & h4 & h5).
  exists warmup, run. rewrite (new_events_app _ _ _ E).
  rewrite range_length in h1.
  repeat split; try done.
  unfold epochs_of. rewrite Hr. rewrite take_ge by (rewrite range_length; lia).
  unfold range. by rewrite h1.
Qed.







(** C3, amended.  When no val loss of the run is NaN, a completed [fit]
    writes the "best" checkpoint at epoch [e] exactly when the val loss
    of [e] is strictly below the val loss of every earlier epoch (the
    first epoch always is); each checkpoint is written with no artifact
    at the path, the one that was there having been deleted first; and
    after the run the artifact is the state dict saved last, at an epoch
    whose val loss none of the run is below and which is strictly below
    all those before it: the earliest epoch of minimal val loss. *)
Theorem fit_keeps_best_checkpoint ds use_pbar s s' :
  fit ds use_pbar s = (Ok tt, s') →
  let cfg := m_config (model (st_self s)) in
  let bp := os_path_join (cfg_model_dir cfg) "best" in
  let ms := marks (new_events s s') in
  let vs := val_losses ms in
  Forall (fun v => is_nan v = false) vs →
  length vs = Z.to_nat (cfg_epochs_per_cycle cfg)
  ∧ (∀ e v, vs !! e = Some v →
       (Z.of_nat e ∈ (saves ms).*1
        ↔ ∀ e' v', (e' < e)%nat → vs !! e' = Some v' → py_lt v v' = true))
  ∧ delete_then_write (bool_decide (is_Some (w_fs (st_world s) !! bp))) bp ms = true
  ∧ (vs ≠ [] →
     ∃ e sd v,
       last (saves ms) = Some (Z.of_nat e, sd) ∧ vs !! e = Some v
       ∧ w_fs (st_world s') !! bp = Some (FStateDict sd)
       ∧ (∀ v', v' ∈ vs → py_lt v' v = false)
       ∧ (∀ e' v', (e' < e)%nat → vs !! e' = Some v' → py_lt v v' = true)).
Proof.
  intros Hfit cfg bp ms vs.
  destruct (fit_ok_run ds use_pbar s s' Hfit)
    as (warmup & run & Hw & Hep & Hlen & Hms & Hlp & Hbp & Hfo).
  fold cfg bp in Hms, Hbp, Hlen. 
  assert (Hvs : vs = vals run).
  { unfold vs, ms. rewrite Hms. unfold val_losses. simpl.
    apply (val_losses_loop bp run). }
  assert (Hsv : saves ms = saved_list None run).
  { unfold ms. rewrite Hms. unfold saves. simpl. apply saves_loop. }
  rewrite Hvs, Hsv. intros Hnan.
  assert (Hiff : ∀ e v, vals run !! e = Some v →
       (Z.of_nat e ∈ (saved_list None run).*1
        ↔ ∀ e' v', (e' < e)%nat → vals run !! e' = Some v' → py_lt v v' = true)).
  { intros e v Hv.
    pose proof (saved_iff run 0 None [] Hep eq_refl Hnan e v Hv) as H.
    simpl in H. rewrite H. apply Forall_take_lookup. }
  split; [unfold vals; by rewrite length_map|]. split; [exact Hiff|]. split.
  { unfold ms. rewrite Hms. simpl. apply delete_then_write_loop. }
  intros Hne.
  pose proof (saved_list_last run 0 None [] Hep eq_refl) as Hl.
  rewrite final_artifact_last in Hbp.
  destruct (last (saved_list None run)) as [[e sd]|] eqn:Hlast.
  - destruct Hl as (i & v & -> & Hv & [_ Hmin]). simpl in Hmin.
    exists i, sd, v. repeat split; try done.
    + intros v' Hv'. rewrite Forall_forall in Hmin. by apply Hmin.
    + apply Hiff; [done|]. apply list_elem_of_fmap. exists (Z.of_nat i, sd).
      split; [done|]. by apply last_Some_elem_of.
  - destruct Hl as [Hnil _]. destruct run as [|[[[e t] v] sd] r]; [done|].
    by apply saved_list_first in Hnil.
Qed.


(** C5, as the code behaves.  When an exception leaves [fit] after the
    loss log was opened, the file object of the loss log is still open
    when the call ends: [loss_file.close()] is the last but one statement
    of [fit] and no handler guards it. *)
Theorem fit_error_leaves_loss_log_open ds use_pbar s ex :
  let cfg := m_config (model (st_self s)) in
  let lp := os_path_join (cfg_model_dir cfg) "losses" in
  let s' := snd (fit ds use_pbar s) in
  fst (fit ds use_pbar s) = Raise ex →
  MOpen lp ∈ marks (new_events s s') →
  w_files (st_world s') !! length (w_files (st_world s))
    = Some {| fo_path := lp; fo_buffer := []; fo_closed := false |}.
Proof.
  intros cfg lp s' Hr.
  pose proof (fit_run ds use_pbar s) as H. fold s' in H. rewrite Hr in H.
  destruct H as (_ & _ & evs & E & H). rewrite (new_events_app _ _ _ E).
  destruct H as [(? & _ & -> & _)|(warmup & Hw & [(? & _ & -> & _)|(run & _ & H)])].
  - by intros ?%elem_of_nil.
  - intros [?|?%elem_of_nil]%elem_of_cons; done.
  - intros _. by destruct H as (e & tail & extra & _ & _ & _ & _ & H).
Qed.

(** C6, amended.  A completed [fit] builds one optimizer, before the
    loss log is opened and the first epoch starts, and none in the
    epochs [0 .. K-1] that follow.  It is given the parameters of the
    model that require gradients, the schedule "warmup_linear", the
    warmup [warmup_epochs / epochs_per_cycle], and as [t_total] the
    number of training batches at the configured batch size times
    [epochs_per_cycle]. *)
Theorem fit_builds_one_optimizer ds use_pbar s s' :
  fit ds use_pbar s = (Ok tt, s') →
  let cfg := m_config (model (st_self s)) in
  ∃ warmup rest,
    py_truediv (cfg_warmup_epochs cfg) (PInt (cfg_epochs_per_cycle cfg)) = Ok warmup
    ∧ marks (new_events s s')
      = MOptimizer
          (List.filter (fun p => p_requires_grad p) (m_parameters (model (st_self s))))
          {| as_lr := cfg_lr cfg;
             as_schedule := "warmup_linear";
             as_warmup := warmup;
             as_t_total := num_batches ds (cfg_batch_size cfg) false
                           * cfg_epochs_per_cycle cfg;
             as_b1 := cfg_b1 cfg;
             as_b2 := cfg_b2 cfg;
             as_e := cfg_e cfg;
             as_l2 := cfg_l2 cfg |}
        :: rest
    ∧ optimizers_built rest = []
    ∧ started rest = range (cfg_epochs_per_cycle cfg).
Proof.
  intros Hfit cfg.
  destruct (fit_ok_run ds use_pbar s s' Hfit)
    as (warmup & run & Hw & Hep & Hlen & Hms & _).
  exists warmup. eexists. split; [done|]. split; [exact Hms|]. split.
  - unfold optimizers_built. simpl. apply optimizers_loop.
  - unfold started. simpl.
    etrans; [apply started_loop|]. rewrite Hep. unfold range. by rewrite Hlen.
Qed.

End FitTheorems.

(** * [evaluate] *)

Section Evaluate.
Context `{C : Collaborators}.

Lemma eval_loop_state batches : ∀ n total s, snd (eval_loop batches n total s) = s.
Proof.
  induction batches as [|[b|ex] rest IH]; intros n total s; simpl; try done.
  unfold bind, lift_result, call_model. simpl.
  destruct n; [done|].
  destruct (model_call _ _ _); [|done]. simpl.
  destruct (py_add_float _ _); [|done]. apply IH.
Qed.

Lemma eval_loop_indep batches : ∀ n total s1 s2,
  m_parameters (model (st_self s1)) = m_parameters (model (st_self s2)) →
  m_training (model (st_self s1)) = m_training (model (st_self s2)) →
  fst (eval_loop batches n total s1) = fst (eval_loop batches n total s2).
Proof.
  induction batches as [|[b|ex] rest IH]; intros n total s1 s2 Hp Ht; simpl; try done.
  unfold bind, lift_result, call_model. simpl.
  destruct n; [done|]. rewrite Hp, Ht.
  destruct (model_call _ _ _); [|done]. simpl.
  destruct (py_add_float _ _); [|done]. by apply IH.
Qed.

Lemma fold_raise (ls : list float) ex :
  fold_left (fun acc l => rbind acc (fun a => py_add_float a l)) ls (Raise ex) = Raise ex.
Proof. induction ls; simpl; auto. Qed.

Lemma eval_loop_sum bs : ∀ n total ls s,
  m_training (model (st_self s)) = false →
  Forall2 (fun b l => model_call (m_parameters (model (st_self s))) false b = Ok l)
          (take n bs) ls →
  fst (eval_loop (map Ok bs) n total s)
  = fold_left (fun acc l => rbind acc (fun a => py_add_float a l))
      (map loss_item ls) (Ok total).
Proof.
  induction bs as [|b rest IH]; intros n total ls s Ht Hls; simpl.
  - rewrite take_nil in Hls. by inversion Hls.
  - unfold bind, lift_result, call_model. simpl.
    destruct n as [|n]; simpl in Hls.
    + by inversion Hls.
    + inversion Hls as [|? l ? ls' Hl Hrest]; subst. rewrite Ht, Hl. simpl.
      destruct (py_add_float total (loss_item l)) as [t'|ex].
      * by apply IH.
      * simpl. by rewrite fold_raise.
Qed.

(** [evaluate], with its binds unfolded. *)
Lemma evaluate_eq ds is_val nb s :
  evaluate ds is_val nb s
  = let cfg := m_config (model (st_self s)) in
    let k := match nb with
             | None => num_batches ds (cfg_batch_size cfg) is_val
             | Some k => k
             end in
    let out := with_DataLoader ds (evaluate_args cfg is_val)
                 (fun batches => eval_loop batches (Z.to_nat k) (PInt 0))
                 (set_model (with_training false) s) in
    (rbind (fst out) (fun total => py_truediv total (PInt k)), snd out).
Proof.
  unfold evaluate, bind, model_eval, get_config, modify, gets, lift_result. simpl.
  fold (evaluate_args (m_config (model (st_self s))) is_val).
  destruct (with_DataLoader _ _ _ _) as [[total|ex] s1]; done.
Qed.

Lemma evaluate_trace ds is_val nb s :
  let a := evaluate_args (m_config (model (st_self s))) is_val in
  w_loaders (st_world (snd (evaluate ds is_val nb s))) = w_loaders (st_world s)
  ∧ ∃ evs, trace (snd (evaluate ds is_val nb s)) = trace s ++ evs
           ∧ bracket a (DataLoader ds a) evs.
Proof.
  intros a. rewrite evaluate_eq. cbv zeta. fold a. simpl.
  match goal with |- context [with_DataLoader ds a ?body ?st] =>
    pose proof (with_DataLoader_spec ds a body st (fun bs => quietly_eval_loop bs _ _)) as H;
    destruct (with_DataLoader ds a body st) as [rr s1]
  end.
  simpl in *. destruct H as [(_ & _ & _ & Hl & _) H]. done.
Qed.

Lemma train_epoch_eq ds pbar s :
  _train_epoch ds pbar s
  = let cfg := m_config (model (st_self s)) in
    let sr := randint (w_rng (st_world s)) 0 100000 in
    with_DataLoader ds (train_args cfg (fst sr)) (train_loop pbar 0)
      {| st_self := st_self (set_model (with_training true) s);
         st_world := set_rng (snd sr) (st_world s) |}.
Proof.
  unfold _train_epoch, bind, model_train, get_config, modify, gets, random_randint,
    in_world. simpl.
  destruct (randint (w_rng (st_world s)) 0 100000) as [seed r]. done.
Qed.

Lemma train_epoch_trace ds pbar s :
  let a := train_args (m_config (model (st_self s)))
             (fst (randint (w_rng (st_world s)) 0 100000)) in
  w_loaders (st_world (snd (_train_epoch ds pbar s))) = w_loaders (st_world s)
  ∧ ∃ evs, trace (snd (_train_epoch ds pbar s)) = trace s ++ evs
           ∧ bracket a (DataLoader ds a) evs.
Proof.
  intros a. rewrite train_epoch_eq. cbv zeta. fold a.
  match goal with |- context [with_DataLoader ds a ?body ?st] =>
    pose proof (with_DataLoader_spec ds a body st (fun bs => quietly_train_loop pbar bs 0)) as H;
    destruct (with_DataLoader ds a body st) as [rr s1]
  end.
  simpl in *. destruct H as [(_ & _ & _ & Hl & _) H]. done.
Qed.

(** What [evaluate] returns, from its batch stream. *)
Lemma evaluate_result ds is_val nb s :
  let cfg := m_config (model (st_self s)) in
  let k := match nb with
           | None => num_batches ds (cfg_batch_size cfg) is_val
           | Some k => k
           end in
  fst (evaluate ds is_val nb s)
  = match DataLoader ds (evaluate_args cfg is_val) with
    | Raise ex => Raise ex
    | Ok batches =>
        rbind (fst (eval_loop batches (Z.to_nat k) (PInt 0)
                      (loader_enter (evaluate_args cfg is_val)
                         (set_model (with_training false) s))))
              (fun total => py_truediv total (PInt k))
    end.
Proof.
  rewrite evaluate_eq. cbv zeta. simpl. unfold with_DataLoader.
  destruct (DataLoader ds _) as [batches|ex]; [|done].
  destruct (eval_loop batches _ _ _) as [[total|ex] s1]; done.
Qed.

(** C10.  With [num_batches = k], when the batch source streams the
    batches [bs] and the model gives the losses [ls] on the first [k] of
    them (on all of them when there are fewer than [k]), [evaluate]
    returns the sum of the [ls] divided by [k], whatever the number of
    batches consumed; when [k] is zero the division raises. *)
Theorem evaluate_divides_by_num_batches ds is_val k s bs ls :
  let cfg := m_config (model (st_self s)) in
  DataLoader ds (evaluate_args cfg is_val) = Ok (map Ok bs) →
  Forall2 (fun b l => model_call (m_parameters (model (st_self s))) false b = Ok l)
          (take (Z.to_nat k) bs) ls →
  fst (evaluate ds is_val (Some k) s)
  = rbind (sum_losses (map loss_item ls))
          (fun total_loss => py_truediv total_loss (PInt k)).
Proof.
  intros cfg Hdl Hls. rewrite evaluate_result. fold cfg. rewrite Hdl.
  f_equal. apply eval_loop_sum; [done|]. exact Hls.
Qed.


Lemma bracket_enter a r evs a' : bracket a r evs → EvLoaderEnter a' ∈ evs → a' = a.
Proof.
  destruct r; simpl.
  - intros (body & -> & F) [[=]|Hin]%elem_of_cons; [done|].
    apply elem_of_app in Hin as [Hin|Hin].
    + rewrite forallb_forall in F. apply list_elem_of_In in Hin.
      by specialize (F _ Hin).
    + apply list_elem_of_singleton in Hin. done.
  - intros -> ?%elem_of_nil. done.
Qed.

(** C7.  [evaluate] returns the same on two states whose models have
    the same configuration and the same parameters, for the same
    dataset, [is_val] and [num_batches]; every batch source it enters
    was built with seed 0, while the one of [_train_epoch] is built
    with the seed drawn from the random generator. *)
Theorem evaluate_deterministic ds is_val nb s1 s2 :
  m_config (model (st_self s1)) = m_config (model (st_self s2)) →
  m_parameters (model (st_self s1)) = m_parameters (model (st_self s2)) →
  fst (evaluate ds is_val nb s1) = fst (evaluate ds is_val nb s2)
  ∧ (∀ a, EvLoaderEnter a ∈ new_events s1 (snd (evaluate ds is_val nb s1)) →
          la_seed a = 0)
  ∧ (∀ pbar a, EvLoaderEnter a ∈ new_events s1 (snd (_train_epoch ds pbar s1)) →
               la_seed a = fst (randint (w_rng (st_world s1)) 0 100000)).
Proof.
  intros Hc Hp. split; [|split].
  - rewrite !evaluate_result. rewrite Hc.
    destruct (DataLoader ds _) as [batches|ex]; [|done].
    f_equal. apply eval_loop_indep; simpl; done.
  - intros a. destruct (evaluate_trace ds is_val nb s1) as (_ & evs & E & B).
    unfold new_events. rewrite E, drop_app_length. intros Hin.
    by rewrite (bracket_enter _ _ _ _ B Hin).
  - intros pbar a. destruct (train_epoch_trace ds pbar s1) as (_ & evs & E & B).
    unfold new_events. rewrite E, drop_app_length. intros Hin.
    by rewrite (bracket_enter _ _ _ _ B Hin).
Qed.

End Evaluate.

(** * [featurize_patients]: the patient index *)

Section Index.
Context `{C : Collaborators}.

(** *** The dict *)
Lemma get_set_eq {V} k (v : V) d : PyDict.get k (PyDict.set k v d) = Some v.
Proof.
  induction d as [|[k' v'] d IH]; simpl.
  - by rewrite Z.eqb_refl.
  - destruct (k =? k') eqn:E; simpl; rewrite ?Z.eqb_refl, ?E; done.
Qed.

Lemma get_set_ne {V} k k' (v : V) d :
  k ≠ k' → PyDict.get k' (PyDict.set k v d) = PyDict.get k' d.
Proof.
  intros Hne. induction d as [|[k0 v0] d IH]; simpl.
  - by rewrite (proj2 (Z.eqb_neq k' k)).
  - destruct (k =? k0) eqn:E; simpl.
    + apply Z.eqb_eq in E. subst k0. by rewrite (proj2 (Z.eqb_neq k' k)).
    + by rewrite IH.
Qed.

Lemma set_keys_nodup {V} k (v : V) d :
  NoDup d.*1 → NoDup (PyDict.set k v d).*1.
Proof.
  induction d as [|[k0 v0] d IH]; simpl.
  - intros _. constructor; [by intros ?%elem_of_nil|constructor].
  - intros [Hn Hd]%NoDup_cons. destruct (k =? k0) eqn:E; simpl.
    + apply Z.eqb_eq in E. subst k0. by apply NoDup_cons.
    + apply NoDup_cons. split; [|by apply IH].
      intros [[k1 v1] [Hk Hin]]%list_elem_of_fmap. simpl in Hk. subst k1.
      apply Hn. clear -Hin E. induction d as [|[k2 v2] d IH]; simpl in *.
      * apply list_elem_of_singleton in Hin. injection Hin as -> _.
        by rewrite Z.eqb_refl in E.
      * destruct (k =? k2) eqn:E2.
        -- apply elem_of_cons in Hin as [[= -> ->]|Hin];
             [by rewrite Z.eqb_refl in E|].
           right. apply list_elem_of_fmap. by exists (k0, v1).
        -- apply elem_of_cons in Hin as [[= -> ->]|Hin]; [left|right; auto].
Qed.

Lemma get_elem_of {V} k (v : V) d : PyDict.get k d = Some v → (k, v) ∈ d.
Proof.
  induction d as [|[k0 v0] d IH]; simpl; [done|].
  destruct (k =? k0) eqn:E.
  - apply Z.eqb_eq in E. intros [= ->]. subst. left.
  - intros H. right. auto.
Qed.

Lemma elem_of_get {V} k (v : V) d : NoDup d.*1 → (k, v) ∈ d → PyDict.get k d = Some v.
Proof.
  induction d as [|[k0 v0] d IH]; simpl.
  - by intros _ ?%elem_of_nil.
  - intros [Hn Hd]%NoDup_cons [[= -> ->]|Hin]%elem_of_cons.
    + by rewrite Z.eqb_refl.
    + destruct (k =? k0) eqn:E; [|auto].
      apply Z.eqb_eq in E. subst k0. exfalso. apply Hn.
      apply list_elem_of_fmap. by exists (k, v).
Qed.

Lemma build_index_fold pids offs :
  build_index pids offs
  = fold_left index_step (enumerate (combine pids offs)) [].
Proof. done. Qed.

Lemma index_get_step d i p o p' o' :
  index_get (index_step d (i, (p, o))) p' o'
  = if ((p =? p') && (o =? o'))%bool then Some i else index_get d p' o'.
Proof.
  unfold index_get, index_step, PyDict.get_default.
  destruct (p =? p') eqn:Ep; simpl.
  - apply Z.eqb_eq in Ep. subst p'. rewrite get_set_eq.
    destruct (o =? o') eqn:Eo.
    + apply Z.eqb_eq in Eo. subst. apply get_set_eq.
    + apply Z.eqb_neq in Eo. by rewrite get_set_ne.
  - apply Z.eqb_neq in Ep. by rewrite get_set_ne.
Qed.

Lemma index_wf_step d i p o : index_wf d → index_wf (index_step d (i, (p, o))).
Proof.
  intros Hwf p' inner. unfold index_step.
  destruct (Z.eq_dec p p') as [->|Hne].
  - rewrite get_set_eq. intros [= <-]. apply set_keys_nodup.
    unfold PyDict.get_default. destruct (PyDict.get p' d) eqn:E.
    + by eapply Hwf.
    + constructor.
  - rewrite get_set_ne by done. apply Hwf.
Qed.

Lemma fold_index q : ∀ a d p o,
  index_get (fold_left index_step (combine (seq a (length q)) q) d) p o
  = match last_position_from a q p o with
    | Some i => Some i
    | None => index_get d p o
    end.
Proof.
  induction q as [|[p' o'] q IH]; intros a d p o; simpl; [done|].
  rewrite IH. destruct (last_position_from (S a) q p o); [done|].
  pose proof (index_get_step d a p' o' p o) as H. unfold index_step in H.
  rewrite H. by destruct ((p' =? p) && (o' =? o))%bool.
Qed.

Lemma fold_index_wf q : ∀ a d,
  index_wf d → index_wf (fold_left index_step (combine (seq a (length q)) q) d).
Proof.
  induction q as [|[p' o'] q IH]; intros a d Hd; simpl; [done|].
  apply IH. by apply (index_wf_step d a p' o').
Qed.

Lemma build_index_get pids offs p o :
  index_get (build_index pids offs) p o = last_position pids offs p o.
Proof.
  rewrite build_index_fold. unfold enumerate. rewrite fold_index.
  unfold last_position. by destruct (last_position_from _ _ _ _).
Qed.

Lemma build_index_wf pids offs : index_wf (build_index pids offs).
Proof.
  rewrite build_index_fold. apply fold_index_wf. intros p inner. done.
Qed.

(** The items of a patient are the pairs the index holds for it. *)
Lemma items_index_get idx p o t :
  index_wf idx →
  (o, t) ∈ PyDict.items (PyDict.get_default p idx) ↔ index_get idx p o = Some t.
Proof.
  intros Hwf. unfold index_get, PyDict.items, PyDict.get_default.
  destruct (PyDict.get p idx) as [inner|] eqn:E.
  - split; [apply elem_of_get; by eapply Hwf | apply get_elem_of].
  - split; [by intros ?%elem_of_nil | done].
Qed.

(** *** The last position *)
Lemma last_position_from_spec q : ∀ a p o i,
  last_position_from a q p o = Some i
  ↔ (a ≤ i)%nat ∧ q !! (i - a)%nat = Some (p, o)
    ∧ ∀ j, (i - a < j)%nat → q !! j ≠ Some (p, o).
Proof.
  induction q as [|[p' o'] q IH]; intros a p o i; simpl.
  - split; [done|]. by intros (_ & ? & _).
  - destruct (last_position_from (S a) q p o) as [i'|] eqn:E.
    + apply IH in E as (E1 & E2 & E3). split.
      * intros [= <-]. split; [lia|]. split.
        -- replace (i' - a)%nat with (S (i' - S a)) by lia. done.
        -- intros j Hj. destruct j; [lia|]. simpl. apply E3. lia.
      * intros (H1 & H2 & H3). f_equal.
        destruct (decide (i' = i)) as [|Hne]; [done|]. exfalso.
        destruct (decide (i' < i)%nat).
        -- apply (E3 (i - S a)%nat); [lia|].
           destruct (i - a)%nat as [|n] eqn:En; [lia|]. simpl in H2.
           by replace (i - S a)%nat with n by lia.
        -- apply (H3 (S (i' - S a))); [lia|]. done.
    + assert (Hnone : ∀ j, q !! j ≠ Some (p, o)).
      { intros j Hj. 
        assert (∃ i0, last_position_from (S a) q p o = Some i0) as [? ?]; [|congruence].
        clear -Hj. revert a j Hj. induction q as [|[p1 o1] q IH2]; intros a j Hj; [done|].
        simpl. destruct j as [|j]; simpl in Hj.
        - injection Hj as -> ->. destruct (last_position_from _ q p o); [eauto|].
          rewrite !Z.eqb_refl. eauto.
        - destruct (IH2 (S a) j Hj) as [i0 ->]. eauto. }
      destruct ((p' =? p) && (o' =? o))%bool eqn:Em.
      * apply andb_true_iff in Em as [->%Z.eqb_eq ->%Z.eqb_eq]. split.
        -- intros [= <-]. split; [lia|]. rewrite Nat.sub_diag. split; [done|].
           intros j Hj. destruct j; [lia|]. simpl. apply Hnone.
        -- intros (H1 & H2 & H3). f_equal.
           destruct (i - a)%nat as [|n] eqn:En; [lia|]. simpl in H2.
           by apply Hnone in H2.
      * split; [done|]. intros (H1 & H2 & H3).
        destruct (i - a)%nat as [|n] eqn:En; simpl in H2.
        -- injection H2 as -> ->. by rewrite !Z.eqb_refl in Em.
        -- by apply Hnone in H2.
Qed.

Lemma last_position_spec pids offs p o i :
  last_position pids offs p o = Some i
  ↔ combine pids offs !! i = Some (p, o)
    ∧ ∀ j, (i < j)%nat → combine pids offs !! j ≠ Some (p, o).
Proof.
  unfold last_position. rewrite last_position_from_spec.
  rewrite Nat.sub_0_r. split.
  - intros (_ & ? & ?). done.
  - intros [? ?]. split; [lia|done].
Qed.

Lemma last_position_None pids offs p o :
  last_position pids offs p o = None ↔ ∀ j, combine pids offs !! j ≠ Some (p, o).
Proof.
  split.
  - intros Hn j Hj.
    assert (∃ i, last_position pids offs p o = Some i) as [? ?]; [|congruence].
    unfold last_position. clear Hn. generalize 0%nat.
    revert j Hj. induction (combine pids offs) as [|[p1 o1] q IH]; intros j Hj a; [done|].
    simpl. destruct j as [|j]; simpl in Hj.
    + injection Hj as -> ->. destruct (last_position_from _ q p o); [eauto|].
      rewrite !Z.eqb_refl. eauto.
    + destruct (IH j Hj (S a)) as [i0 ->]. eauto.
  - intros H. destruct (last_position pids offs p o) as [i|] eqn:E; [|done].
    apply last_position_spec in E as [E _]. by apply H in E.
Qed.

End Index.

(** * [featurize_patients]: the scatter *)

Section Scatter.
Context `{C : Collaborators}.

(** *** numpy *)
Lemma np_index_at (e : list (list float)) o :
  np_index e o = if in_window (length e) o then Ok (at_offset e o) else Raise IndexError.
Proof.
  unfold np_index, in_window, at_offset.
  destruct (o <? 0) eqn:Eo.
  - apply Z.ltb_lt in Eo.
    destruct (0 <=? o + Z.of_nat (length e)) eqn:E1.
    + apply Z.leb_le in E1.
      rewrite (proj2 (Z.ltb_lt _ _)) by lia. rewrite (proj2 (Z.leb_le _ _)) by lia.
      rewrite (proj2 (Z.ltb_lt _ _)) by lia. simpl.
      destruct (e !! Z.to_nat (o + Z.of_nat (length e))) eqn:El; [done|].
      apply lookup_ge_None in El. lia.
    + apply Z.leb_gt in E1. simpl. rewrite (proj2 (Z.leb_gt _ _)) by lia. done.
  - apply Z.ltb_ge in Eo. rewrite (proj2 (Z.leb_le 0 o)) by lia.
    rewrite (proj2 (Z.leb_le (- Z.of_nat (length e)) o)) by lia. simpl.
    destruct (o <? Z.of_nat (length e)) eqn:E1; [|done].
    apply Z.ltb_lt in E1.
    destruct (e !! Z.to_nat o) eqn:El; [done|].
    apply lookup_ge_None in El. lia.
Qed.

Lemma np_index_row (emb : ndarray3) (i : nat) e :
  emb !! i = Some e → np_index emb (Z.of_nat i) = Ok e.
Proof.
  intros H. unfold np_index. pose proof (lookup_lt_Some _ _ _ H).
  rewrite (proj2 (Z.ltb_ge (Z.of_nat i) 0)) by lia.
  rewrite (proj2 (Z.leb_le 0 (Z.of_nat i))) by lia.
  rewrite (proj2 (Z.ltb_lt (Z.of_nat i) _)) by lia.
  cbv [andb]. replace (Z.to_nat (Z.of_nat i)) with i by lia.
  by rewrite H.
Qed.

Lemma at_offset_elem e o : in_window (length e) o = true → at_offset e o ∈ e.
Proof.
  unfold in_window, at_offset. intros [H1 H2]%andb_true_iff.
  apply Z.leb_le in H1. apply Z.ltb_lt in H2.
  destruct (e !! _) eqn:El.
  - by eapply list_elem_of_lookup_2.
  - apply lookup_ge_None in El. destruct (o <? 0) eqn:Eo;
      [apply Z.ltb_lt in Eo|apply Z.ltb_ge in Eo]; lia.
Qed.

Lemma np_set_row_ok (out : ndarray2) t v old :
  out !! t = Some old → length v = length old →
  np_set_row out t v = Ok (<[t := v]> out).
Proof.
  intros H1 H2. unfold np_set_row. rewrite H1, H2. by rewrite Nat.eqb_refl.
Qed.

Lemma write_items_length e items : ∀ out, length (write_items e items out) = length out.
Proof.
  induction items as [|[o t] items IH]; intros out; simpl; [done|].
  unfold write_items in *. simpl. by rewrite IH, length_insert.
Qed.

Lemma scatter_items_eq (emb : ndarray3) i e sz items : ∀ out,
  emb !! i = Some e →
  Forall (fun v => length v = sz) e →
  rows_ok sz out →
  Forall (fun it : Z * nat => (it.2 < length out)%nat) items →
  scatter_items emb i items out
  = (if forallb (fun it : Z * nat => in_window (length e) it.1) items
     then Ok (write_items e items out) else Raise IndexError)
  ∧ (forallb (fun it : Z * nat => in_window (length e) it.1) items = true →
     rows_ok sz (write_items e items out)).
Proof.
  intros out He Hsz. revert out.
  induction items as [|[o t] items IH]; intros out Hout Ht; simpl; [done|].
  apply Forall_cons in Ht as [Ht1 Ht2]. simpl in Ht1.
  rewrite (np_index_row _ _ _ He). simpl. rewrite np_index_at.
  destruct (in_window (length e) o) eqn:Ew; simpl; [|done].
  assert (Hv : length (at_offset e o) = sz).
  { rewrite Forall_forall in Hsz. apply Hsz, at_offset_elem, Ew. }
  destruct (lookup_lt_is_Some_2 out t Ht1) as [old Hold].
  rewrite (np_set_row_ok out t _ old Hold); simpl.
  - unfold write_items. simpl. apply IH.
    + by apply Forall_insert.
    + by rewrite length_insert.
  - rewrite Hv. symmetry. unfold rows_ok in Hout. rewrite Forall_forall in Hout.
    apply Hout. by eapply list_elem_of_lookup_2.
Qed.

Lemma items_targets idx n p :
  index_wf idx → targets_ok idx n →
  Forall (fun it : Z * nat => (it.2 < n)%nat) (PyDict.items (PyDict.get_default p idx)).
Proof.
  intros Hwf Ht. apply Forall_forall. intros [o t] Hin.
  apply items_index_get in Hin; [|done]. simpl. eauto.
Qed.

Lemma apply_visit_length idx out v : length (apply_visit idx out v) = length out.
Proof. apply write_items_length. Qed.

Lemma fold_visits_length idx vs : ∀ out,
  length (fold_left (apply_visit idx) vs out) = length out.
Proof.
  induction vs as [|v vs IH]; intros out; simpl; [done|].
  by rewrite IH, apply_visit_length.
Qed.

Lemma scatter_batch_eq idx (emb : ndarray3) sz ps : ∀ a es out,
  index_wf idx → targets_ok idx (length out) →
  drop a emb = es → length es = length ps →
  Forall (Forall (fun v => length v = sz)) es →
  rows_ok sz out →
  scatter_batch idx emb (combine (seq a (length ps)) ps) out
  = (if forallb (visit_ok idx) (combine ps es)
     then Ok (fold_left (apply_visit idx) (combine ps es) out) else Raise IndexError)
  ∧ (forallb (visit_ok idx) (combine ps es) = true →
     rows_ok sz (fold_left (apply_visit idx) (combine ps es) out)).
Proof.
  induction ps as [|p ps IH]; intros a es out Hwf Ht Hd Hl Hsz Hout; simpl; [done|].
  destruct es as [|e es]; [done|]. simpl in Hl.
  apply Forall_cons in Hsz as [He Hes].
  assert (Hemb : emb !! a = Some e).
  { rewrite <- (Nat.add_0_r a), <- lookup_drop, Hd. done. }
  destruct (scatter_items_eq emb a e sz
              (PyDict.items (PyDict.get_default p idx)) out Hemb He Hout
              (items_targets idx _ p Hwf Ht)) as [Heq Hrows].
  rewrite Heq. simpl. unfold visit_ok at 1 3. simpl.
  destruct (forallb _ (PyDict.items (PyDict.get_default p idx))) eqn:Ev; simpl; [|done].
  apply IH; try done.
  - unfold apply_visit. simpl. by rewrite write_items_length.
  - rewrite <- (drop_drop emb a 1) || rewrite <- Nat.add_1_r, <- drop_drop.
    all: by rewrite Hd.
  - lia.
  - by apply Hrows.
Qed.

End Scatter.

(** * [featurize_patients]: the loop over the batches *)

Section FeaturizeLoop.
Context `{C : Collaborators}.

Lemma featurize_loop_eq idx sz bs : ∀ embs out s,
  index_wf idx → targets_ok idx (length out) →
  Forall2 (fun b emb =>
             compute_embedding_batch (m_parameters (model (st_self s))) b = Ok emb
             ∧ well_shaped sz b emb) bs embs →
  rows_ok sz out →
  featurize_loop idx (map Ok bs) out s
  = (if forallb (visit_ok idx) (visits (combine bs embs))
     then Ok (fold_left (apply_visit idx) (visits (combine bs embs)) out)
     else Raise IndexError, s).
Proof.
  induction bs as [|b bs IH]; intros embs out s Hwf Ht Hall Hout.
  - inversion Hall; subst. done.
  - inversion Hall as [|? emb ? embs' [Hc [Hl Hs]] Hrest]; subst.
    simpl. unfold bind, lift_result, get_parameters, gets. simpl. rewrite Hc.
    unfold visits. simpl. fold (visits (combine bs embs')).
    rewrite forallb_app, fold_left_app.
    destruct (scatter_batch_eq idx emb sz (batch_pid b) 0 emb out Hwf Ht
                (drop_0 emb) Hl Hs Hout) as [Heq Hrows].
    unfold enumerate. rewrite Heq.
    destruct (forallb (visit_ok idx) (combine (batch_pid b) emb)) eqn:Ev; simpl; [|done].
    apply IH; try done.
    + by rewrite fold_visits_length.
    + by apply Hrows.
Qed.

(** *** The rows of the result *)
Lemma write_items_row e items r o_r : ∀ (out : ndarray2),
  (∀ o t, (o, t) ∈ items → t = r → o = o_r) →
  (r < length out)%nat →
  write_items e items out !! r
  = if existsb (fun it : Z * nat => Nat.eqb it.2 r) items
    then Some (at_offset e o_r) else out !! r.
Proof.
  induction items as [|[o t] items IH]; intros out Hsame Hr; simpl; [done|].
  unfold write_items in *. simpl.
  rewrite IH; [|intros; eapply Hsame; [by right|done]|by rewrite length_insert].
  destruct (existsb _ items); [by rewrite orb_true_r|]. rewrite orb_false_r.
  destruct (Nat.eqb t r) eqn:Et.
  - apply Nat.eqb_eq in Et. subst t.
    rewrite (Hsame o r); [|left|done]. by apply list_lookup_insert_eq.
  - apply Nat.eqb_neq in Et. by apply list_lookup_insert_ne.
Qed.

Section Query.

Variables (patient_ids day_offsets : list Z).

#[local] Abbreviation idx := (build_index patient_ids day_offsets).

#[local] Abbreviation q := (combine patient_ids day_offsets).

Lemma targets_query : targets_ok idx (length q).
Proof.
  intros p o t Ht. rewrite build_index_get in Ht.
  apply last_position_spec in Ht as [Ht _]. by eapply lookup_lt_Some.
Qed.

Lemma apply_visit_row (out : ndarray2) v r p o :
  q !! r = Some (p, o) → (r < length out)%nat →
  apply_visit idx out v !! r
  = if ((v.1 =? p) && bool_decide (last_position patient_ids day_offsets p o = Some r))%bool
    then Some (at_offset v.2 o) else out !! r.
Proof.
  intros Hq Hr. destruct v as [p' e]. unfold apply_visit. simpl.
  rewrite (write_items_row e _ r o).
  - assert (Hex : existsb (fun it : Z * nat => Nat.eqb it.2 r)
                    (PyDict.items (PyDict.get_default p' idx))
                  = ((p' =? p) && bool_decide (last_position patient_ids day_offsets p o = Some r))%bool).
    { apply eq_true_iff_eq. rewrite existsb_exists, andb_true_iff, bool_decide_eq_true.
      split.
      - intros ([o' t] & Hin%list_elem_of_In & Ht%Nat.eqb_eq). simpl in Ht. subst t.
        apply items_index_get in Hin; [|apply build_index_wf].
        rewrite build_index_get in Hin.
        pose proof Hin as Hin'.
        apply last_position_spec in Hin as [Hin _].
        rewrite Hq in Hin. injection Hin as -> ->. split; [apply Z.eqb_refl|done].
      - intros [->%Z.eqb_eq Hl]. exists (o, r). split; [|apply Nat.eqb_refl].
        apply list_elem_of_In, items_index_get; [apply build_index_wf|].
        by rewrite build_index_get. }
    by rewrite Hex.
  - intros o' t Hin ->.
    apply items_index_get in Hin; [|apply build_index_wf].
    rewrite build_index_get in Hin.
    apply last_position_spec in Hin as [Hin _].
    rewrite Hq in Hin. by injection Hin.
  - done.
Qed.

Lemma last_embedding_fold vs p o : ∀ x,
  fold_left (fun acc (v : Z * list (list float)) =>
               if v.1 =? p then Some (at_offset v.2 o) else acc) vs (Some x)
  = Some (default x (last_embedding vs p o)).
Proof.
  unfold last_embedding.
  induction vs as [|v vs IH]; intros x; simpl; [done|].
  destruct (v.1 =? p); [|apply IH].
  rewrite !IH. by destruct (fold_left _ vs None).
Qed.

Lemma fold_visits_row vs r p o : ∀ (out : ndarray2) row,
  q !! r = Some (p, o) → out !! r = Some row →
  fold_left (apply_visit idx) vs out !! r
  = Some (if bool_decide (last_position patient_ids day_offsets p o = Some r)
          then default row (last_embedding vs p o) else row).
Proof.
  induction vs as [|v vs IH]; intros out row Hq Hrow; simpl.
  - rewrite Hrow. by destruct (bool_decide _).
  - pose proof (lookup_lt_Some _ _ _ Hrow) as Hr.
    pose proof (apply_visit_row out v r p o Hq Hr) as Hv.
    destruct (bool_decide (last_position patient_ids day_offsets p o = Some r)) eqn:Hb.
    + destruct (v.1 =? p) eqn:Ep; simpl in Hv.
      * rewrite (IH _ _ Hq Hv). f_equal.
        unfold last_embedding. simpl. rewrite Ep.
        rewrite last_embedding_fold. done.
      * rewrite Hrow in Hv. rewrite (IH _ _ Hq Hv).
        unfold last_embedding. simpl. by rewrite Ep.
    + rewrite andb_false_r, Hrow in Hv. by rewrite (IH _ _ Hq Hv).
Qed.

(** Indexing checks the offsets the index holds for a patient: they are
    the offsets the query asks of it. *)
Lemma visit_ok_query v :
  visit_ok idx v
  = forallb (fun po : Z * Z => negb (po.1 =? v.1) || in_window (length v.2) po.2) q.
Proof.
  destruct v as [p' e]. apply eq_true_iff_eq. unfold visit_ok. simpl.
  rewrite !forallb_forall. split.
  - intros H [p o] Hin. simpl. destruct (p =? p') eqn:Ep; [|done]. simpl.
    apply Z.eqb_eq in Ep. subst p'.
    apply list_elem_of_In, list_elem_of_lookup in Hin as [j Hj].
    destruct (last_position patient_ids day_offsets p o) as [t|] eqn:El.
    + apply (H (o, t)). apply list_elem_of_In, items_index_get; [apply build_index_wf|].
      by rewrite build_index_get.
    + rewrite last_position_None in El. by apply El in Hj.
  - intros H [o t] Hin. simpl.
    apply list_elem_of_In, items_index_get in Hin; [|apply build_index_wf].
    rewrite build_index_get in Hin.
    apply last_position_spec in Hin as [Hin _].
    apply list_elem_of_lookup_2, list_elem_of_In in Hin.
    specialize (H _ Hin). simpl in H. by rewrite Z.eqb_refl in H.
Qed.

Lemma all_in_window_visits vs :
  forallb (visit_ok idx) vs = all_in_window patient_ids day_offsets vs.
Proof.
  unfold all_in_window. induction vs as [|v vs IH]; simpl; [done|].
  by rewrite IH, visit_ok_query.
Qed.

End Query.

End FeaturizeLoop.

(** * [featurize_patients]: the whole call *)

Section FeaturizeRun.
Context `{C : Collaborators}.

Lemma featurize_patients_eq extract_dir pids offs s :
  featurize_patients extract_dir pids offs s
  = let config := m_config (model (st_self s)) in
    let data := (map (fun _ => 0) pids, pids, offs) in
    match PatientTimelineDataset
            (os_path_join extract_dir "extract.db")
            (os_path_join extract_dir "ontology.db")
            (os_path_join (cfg_model_dir config) "info.json") data data with
    | Raise ex => (Raise ex, s)
    | Ok ds =>
        match np_zeros (length pids) (cfg_size config) with
        | Raise ex => (Raise ex, s)
        | Ok out =>
            let sr := randint (w_rng (st_world s)) 0 100000 in
            with_DataLoader ds (featurize_args config (fst sr))
              (fun batches =>
                 in_world (emit (EvPbar (PbarNew None))) ;;
                 in_world (emit (EvPbar PbarDescComputing)) ;;
                 featurize_loop (build_index pids offs) batches out)
              {| st_self := st_self s; st_world := set_rng (snd sr) (st_world s) |}
        end
    end.
Proof.
  unfold featurize_patients. unfold bind at 1. simpl. unfold bind at 1.
  unfold lift_result at 1. cbv zeta.
  destruct (PatientTimelineDataset _ _ _ _ _) as [ds|ex]; [|done].
  unfold bind at 1. unfold lift_result at 1.
  destruct (np_zeros _ _) as [out|ex]; [|done].
  unfold bind at 1. unfold random_randint, in_world. simpl.
  destruct (randint (w_rng (st_world s)) 0 100000) as [seed r]. simpl.
  by destruct s.
Qed.




Lemma np_zeros_ok n size :
  0 ≤ size → np_zeros n size = Ok (repeat (zeros size) n).
Proof. intros H. unfold np_zeros. by rewrite (proj2 (Z.ltb_ge size 0)). Qed.

(** What [featurize_patients] returns when its batch source streams
    [bes]. *)
Lemma featurize_patients_result extract_dir pids offs s bes :
  let size := cfg_size (m_config (model (st_self s))) in
  length pids = length offs → 0 ≤ size →
  streams s extract_dir pids offs bes →
  fst (featurize_patients extract_dir pids offs s)
  = if all_in_window pids offs (visits bes)
    then Ok (fold_left (apply_visit (build_index pids offs)) (visits bes)
               (repeat (zeros size) (length pids)))
    else Raise IndexError.
Proof.
  intros size Hlen Hsize (ds & Hds & Hdl & Hall).
  rewrite featurize_patients_eq. cbv zeta. rewrite Hds.
  fold size. rewrite (np_zeros_ok _ _ Hsize). unfold with_DataLoader. rewrite Hdl.
  unfold bind, in_world, emit, modify. simpl.
  assert (Hz : combine bes.*1 bes.*2 = bes).
  { clear. induction bes as [|[b e] bes IH]; simpl; [done|]. f_equal. exact IH. }
  match goal with |- context [featurize_loop ?idx ?bs ?out ?st] =>
    pose proof (featurize_loop_eq idx (Z.to_nat size) bes.*1 bes.*2 out st) as H
  end.
  rewrite Hz in H. rewrite H; clear H.
  - simpl. rewrite all_in_window_visits. by destruct (all_in_window _ _ _).
  - apply build_index_wf.
  - rewrite repeat_length. 
    pose proof (targets_query pids offs) as Ht.
    rewrite length_combine, <- Hlen, Nat.min_id in Ht. exact Ht.
  - simpl. clear -Hall. induction bes as [|[b e] bes IH]; simpl; [constructor|].
    apply Forall_cons in Hall as [(h1 & h2 & h3) Hall]. constructor; [|by apply IH].
    done.
  - apply Forall_forall. intros row Hin. apply list_elem_of_In, repeat_spec in Hin.
    subst row. unfold zeros. by rewrite repeat_length.
Qed.

End FeaturizeRun.

(** * [featurize_patients]: the rows of the result *)

Section FeaturizeRows.
Context `{C : Collaborators}.

Lemma repeat_lookup {A} (x : A) n i : (i < n)%nat → repeat x n !! i = Some x.
Proof.
  revert i. induction n as [|n IH]; intros [|i] H; simpl; try done; try lia.
  apply IH. lia.
Qed.

Lemma combine_lookup {A B} (l : list A) (k : list B) r x y :
  l !! r = Some x → k !! r = Some y → combine l k !! r = Some (x, y).
Proof.
  revert k r. induction l as [|a l IH]; intros [|b k] [|r]; simpl; try done.
  - by intros [= ->] [= ->].
  - apply IH.
Qed.

Lemma combine_lookup_inv {A B} (l : list A) (k : list B) r x y :
  combine l k !! r = Some (x, y) → l !! r = Some x ∧ k !! r = Some y.
Proof.
  revert k r. induction l as [|a l IH]; intros [|b k] [|r]; simpl; try done.
  - by intros [= -> ->].
  - apply IH.
Qed.


Lemma last_embedding_visited vs p o e :
  (p, e) ∈ vs → ∃ v, last_embedding vs p o = Some v.
Proof.
  unfold last_embedding. generalize (@None (list float)).
  induction vs as [|[p' e'] vs IH]; intros acc Hin; simpl.
  - by apply elem_of_nil in Hin.
  - apply elem_of_cons in Hin as [[= <- <-]|Hin]; [|by apply IH].
    rewrite Z.eqb_refl. rewrite last_embedding_fold. eauto.
Qed.




(** C2.  When the query has the same pair [(p, o)] at the positions
    [i < j], and nowhere after [j], the patient index keeps [j] for the
    pair; and when patient [p] is streamed, row [j] of the result is
    the embedding of [p] at [o] and row [i] is zero. *)
Theorem featurize_patients_duplicate extract_dir pids offs s bes i j p o :
  let size := cfg_size (m_config (model (st_self s))) in
  let vs := visits bes in
  length pids = length offs → 0 ≤ size →
  streams s extract_dir pids offs bes →
  all_in_window pids offs vs = true →
  (i < j)%nat →
  pids !! i = Some p → offs !! i = Some o →
  pids !! j = Some p → offs !! j = Some o →
  (∀ k, (j < k)%nat → ¬ (pids !! k = Some p ∧ offs !! k = Some o)) →
  (∃ e, (p, e) ∈ vs) →
  index_get (build_index pids offs) p o = Some j
  ∧ ∃ M v, fst (featurize_patients extract_dir pids offs s) = Ok M
           ∧ last_embedding vs p o = Some v
           ∧ M !! j = Some v
           ∧ M !! i = Some (zeros size).
Proof.
  intros size vs Hlen Hsize Hst Hw Hij Hpi Hoi Hpj Hoj Hlast [e He].
  assert (Hl : last_position pids offs p o = Some j).
  { apply last_position_spec. split; [by apply combine_lookup|].
    intros k Hk Hq. apply combine_lookup_inv in Hq. by apply (Hlast k). }
  split; [by rewrite build_index_get|].
  rewrite (featurize_patients_result extract_dir pids offs s bes Hlen Hsize Hst).
  fold vs size. rewrite Hw.
  destruct (last_embedding_visited vs p o e He) as [v Hv].
  eexists. exists v. split; [done|]. split; [done|].
  assert (Hz : ∀ r, (r < length pids)%nat →
            repeat (zeros size) (length pids) !! r = Some (zeros size)).
  { intros r Hr. by apply repeat_lookup. }
  split.
  - rewrite (fold_visits_row pids offs vs j p o _ (zeros size));
      [|by apply combine_lookup|apply Hz; by eapply lookup_lt_Some].
    rewrite bool_decide_eq_true_2 by done. by rewrite Hv.
  - rewrite (fold_visits_row pids offs vs i p o _ (zeros size));
      [|by apply combine_lookup|apply Hz; by eapply lookup_lt_Some].
    rewrite bool_decide_eq_false_2; [done|]. rewrite Hl. intros [=]. lia.
Qed.

End FeaturizeRows.

(** * [from_pretrained] *)

Section Load.
Context `{C : Collaborators}.




End Load.

(** * [evaluate]: mode, cap and edge cases *)

Section EvaluateEdges.
Context `{C : Collaborators}.

Lemma evaluate_state ds is_val nb s :
  snd (evaluate ds is_val nb s)
  = let a := evaluate_args (m_config (model (st_self s))) is_val in
    match DataLoader ds a with
    | Ok _ => loader_exit (loader_enter a (set_model (with_training false) s))
    | Raise _ => set_model (with_training false) s
    end.
Proof.
  rewrite evaluate_eq. cbv zeta. simpl. unfold with_DataLoader.
  destruct (DataLoader ds _) as [batches|ex]; [|done].
  match goal with |- context [eval_loop batches ?n ?t ?st] =>
    pose proof (eval_loop_state batches n t st) as H;
    destruct (eval_loop batches n t st) as [r s1]
  end.
  simpl in *. by subst.
Qed.

(** X1.  However [evaluate] ends, it leaves the model in eval mode
    (it never switches back to training mode) and changes nothing else
    of the featurizer: the parameters and the optimizer are as before,
    and so are the file system, the open files and the random
    generator. *)
Theorem evaluate_leaves_eval_mode ds is_val nb s :
  let s' := snd (evaluate ds is_val nb s) in
  st_self s' = {| model := with_training false (model (st_self s));
                  optimizer := optimizer (st_self s) |}
  ∧ w_fs (st_world s') = w_fs (st_world s)
  ∧ w_files (st_world s') = w_files (st_world s)
  ∧ w_rng (st_world s') = w_rng (st_world s).
Proof.
  cbv zeta. rewrite evaluate_state. cbv zeta.
  destruct (DataLoader ds _); done.
Qed.

Lemma eval_loop_stops bs : ∀ tl n total ls s,
  m_training (model (st_self s)) = false →
  (length bs ≤ n)%nat →
  Forall2 (fun b l => model_call (m_parameters (model (st_self s))) false b = Ok l) bs ls →
  fst (eval_loop (map Ok bs ++ tl) n total s)
  = rbind (fold_left (fun acc l => rbind acc (fun a => py_add_float a l))
             (map loss_item ls) (Ok total))
          (fun total' => fst (eval_loop tl (n - length bs) total' s)).
Proof.
  induction bs as [|b bs IH]; intros tl n total ls s Ht Hn Hls.
  - inversion Hls; subst. simpl. by rewrite Nat.sub_0_r.
  - inversion Hls as [|? l ? ls' Hl Hrest]; subst. simpl in *.
    destruct n as [|n]; [lia|].
    unfold bind, lift_result, call_model. simpl. rewrite Ht, Hl. simpl.
    destruct (py_add_float total (loss_item l)) as [t'|ex]; simpl.
    + rewrite (IH tl n t' ls' s Ht); [done|lia|done].
    + by rewrite fold_raise.
Qed.

Lemma sum_losses_ok (ls : list float) : ∀ total,
  (∀ z, total = PInt z → z = 0) →
  ∃ t, fold_left (fun acc l => rbind acc (fun a => py_add_float a l)) ls (Ok total) = Ok t.
Proof.
  induction ls as [|l ls IH]; intros total Ht; simpl; [eauto|].
  destruct total as [z|f]; simpl.
  - rewrite (Ht z eq_refl). simpl. apply IH. intros z' [=].
  - apply IH. intros z' [=].
Qed.

(** X3.  [zip(batches, range(num_batches))] pulls a batch before it
    consults the range: when the batch source raises at a pull that
    follows at most [num_batches] good batches, [evaluate] raises that
    exception, also when the failing pull is the one after the last
    batch it would have evaluated. *)
Theorem evaluate_raises_what_the_next_pull_raises ds is_val k s bs ls ex rest :
  let cfg := m_config (model (st_self s)) in
  DataLoader ds (evaluate_args cfg is_val) = Ok (map Ok bs ++ Raise ex :: rest) →
  (length bs ≤ Z.to_nat k)%nat →
  Forall2 (fun b l => model_call (m_parameters (model (st_self s))) false b = Ok l) bs ls →
  fst (evaluate ds is_val (Some k) s) = Raise ex.
Proof.
  intros cfg Hdl Hlen Hls. rewrite evaluate_result. fold cfg. rewrite Hdl.
  rewrite (eval_loop_stops bs _ _ _ ls); [|done|done|done].
  destruct (sum_losses_ok (map loss_item ls) (PInt 0)) as [t Ht]; [by intros z [=]|].
  rewrite Ht. simpl. done.
Qed.

(** X4.  When [evaluate] evaluates no batch, because the stream is
    empty or [num_batches] is not positive, the total is the int 0: the
    result is 0.0 for a positive [num_batches], -0.0 for a negative
    one, and [ZeroDivisionError] is raised for [num_batches = 0]. *)
Theorem evaluate_without_batches ds is_val k s batches :
  let cfg := m_config (model (st_self s)) in
  DataLoader ds (evaluate_args cfg is_val) = Ok batches →
  batches = [] ∨ (k ≤ 0 ∧ ∃ b rest, batches = Ok b :: rest) →
  fst (evaluate ds is_val (Some k) s)
  = if k =? 0 then Raise ZeroDivisionError
    else Ok (if k <? 0 then (-0)%float else 0%float).
Proof.
  intros cfg Hdl H. rewrite evaluate_result. fold cfg. rewrite Hdl.
  destruct H as [->|(Hk & b & rest & ->)]; simpl.
  - unfold int_truediv. by destruct (k =? 0).
  - replace (Z.to_nat k) with 0%nat by lia. unfold bind, lift_result. simpl.
    unfold int_truediv. by destruct (k =? 0).
Qed.

(** X2.  With [num_batches = None], [evaluate] caps the batches and
    divides the summed losses by [dataset.num_batches(config["batch_size"],
    is_val)], the count at the training batch size, while the batch
    source it consumes is built with [config["eval_batch_size"]]. *)
Theorem evaluate_default_num_batches ds is_val s bs ls :
  let cfg := m_config (model (st_self s)) in
  let k := num_batches ds (cfg_batch_size cfg) is_val in
  DataLoader ds (evaluate_args cfg is_val) = Ok (map Ok bs) →
  Forall2 (fun b l => model_call (m_parameters (model (st_self s))) false b = Ok l)
          (take (Z.to_nat k) bs) ls →
  fst (evaluate ds is_val None s)
  = rbind (sum_losses (map loss_item ls))
          (fun total_loss => py_truediv total_loss (PInt k))
  ∧ ∀ a, EvLoaderEnter a ∈ new_events s (snd (evaluate ds is_val None s)) →
         la_batch_size a = cfg_eval_batch_size cfg.
Proof.
  intros cfg k Hdl Hls. split.
  - rewrite evaluate_result. fold cfg k. rewrite Hdl.
    f_equal. apply eval_loop_sum; [done|]. exact Hls.
  - intros a. destruct (evaluate_trace ds is_val None s) as (_ & evs & E & B).
    unfold new_events. rewrite E, drop_app_length. intros Hin.
    by rewrite (bracket_enter _ _ _ _ B Hin).
Qed.

End EvaluateEdges.

(** * [_train_epoch]: the optimizer and the progress reports *)

Section TrainEpoch.
Context `{C : Collaborators}.

Lemma train_epoch_result ds pbar s :
  let cfg := m_config (model (st_self s)) in
  let sr := randint (w_rng (st_world s)) 0 100000 in
  let a := train_args cfg (fst sr) in
  let s0 := {| st_self := st_self (set_model (with_training true) s);
               st_world := set_rng (snd sr) (st_world s) |} in
  _train_epoch ds pbar s
  = match DataLoader ds a with
    | Raise ex => (Raise ex, s0)
    | Ok batches =>
        (fst (train_loop pbar 0 batches (loader_enter a s0)),
         loader_exit (snd (train_loop pbar 0 batches (loader_enter a s0))))
    end.
Proof.
  cbv zeta. rewrite train_epoch_eq. cbv zeta. unfold with_DataLoader.
  destruct (DataLoader ds _) as [batches|ex]; [|done].
  by destruct (train_loop pbar 0 batches _).
Qed.

(** X5.  [self.optimizer] is set by [fit] only: on a featurizer that
    has no optimizer, [_train_epoch] raises [AttributeError] at the
    first batch, after the model was called on it, and the parameters
    are left as they were. *)
Theorem train_epoch_needs_fit ds pbar s b rest l :
  let cfg := m_config (model (st_self s)) in
  let seed := fst (randint (w_rng (st_world s)) 0 100000) in
  optimizer (st_self s) = None →
  DataLoader ds (train_args cfg seed) = Ok (Ok b :: rest) →
  model_call (m_parameters (model (st_self s))) true b = Ok l →
  fst (_train_epoch ds pbar s) = Raise AttributeError
  ∧ m_parameters (model (st_self (snd (_train_epoch ds pbar s))))
    = m_parameters (model (st_self s)).
Proof.
  intros cfg seed Ho Hdl Hl. rewrite train_epoch_result. cbv zeta.
  fold cfg seed. rewrite Hdl. simpl.
  unfold bind, lift_result, call_model, optimizer_zero_grad, get_optimizer, bind. simpl.
  rewrite Hl, Ho. simpl. done.
Qed.

Ltac silently :=
  repeat first
    [ apply quietly_bind; [|intros ?]
    | apply quietly_ret
    | apply quietly_lift_result
    | apply quietly_gets
    | apply quietly_put_parameters
    | apply quietly_set_optimizer
    | apply quietly_get_optimizer
    | apply quietly_call_model ].

Lemma extends_silent s s' : quiet silent s s' → trace s' = trace s.
Proof.
  intros [_ (evs & -> & H)]. destruct evs as [|ev evs]; [by rewrite app_nil_r|].
  simpl in H. done.
Qed.

Lemma progress_step pbar i n :
  progress pbar i (S n)
  = (if pbar then [EvPbar (PbarUpdate 1)]
     else if i mod 2000 =? 0 then [EvLog (LogSeenBatch i)] else [])
    ++ progress pbar (i + 1) n.
Proof.
  unfold progress. destruct pbar; [done|].
  rewrite <- cons_seq, <- seq_shift, !map_cons, map_map. simpl.
  rewrite Z.add_0_r.
  assert (E : map (fun x : nat => i + Z.of_nat (S x)) (seq 0 n)
              = map (fun k : nat => i + 1 + Z.of_nat k) (seq 0 n)).
  { apply map_ext. intros k. lia. }
  rewrite E. by destruct (i mod 2000 =? 0).
Qed.

Lemma train_loop_progress pbar batches : ∀ i s,
  wp (train_loop pbar i batches) s
     (fun r s' => r = Ok tt → trace s' = trace s ++ progress pbar i (length batches)).
Proof.
  induction batches as [|next rest IH]; intros i s.
  - unfold wp. simpl. intros _. unfold progress. destruct pbar; simpl; by rewrite app_nil_r.
  - simpl train_loop.
    apply wp_bind. eapply wp_mono; [apply (quietly_wp silent), quietly_lift_result|].
    intros [b|ex] s1 Q1; [|done].
    apply wp_bind. eapply wp_mono; [apply (quietly_wp silent), quietly_call_model|].
    intros [l|ex] s2 Q2; [|done].
    apply wp_bind. eapply wp_mono.
    { apply (quietly_wp silent). unfold optimizer_zero_grad. silently. }
    intros [[]|ex] s3 Q3; [|done].
    apply wp_bind. eapply wp_mono.
    { apply (quietly_wp silent). unfold backward. silently. }
    intros [[]|ex] s4 Q4; [|done].
    apply wp_bind. eapply wp_mono.
    { apply (quietly_wp silent). unfold optimizer_step. silently. }
    intros [[]|ex] s5 Q5; [|done].
    pose proof (quiet_trans _ _ _ _ Q1 (quiet_trans _ _ _ _ Q2
                  (quiet_trans _ _ _ _ Q3 (quiet_trans _ _ _ _ Q4 Q5)))) as Q.
    apply extends_silent in Q.
    change (length (next :: rest)) with (S (length rest)).
    rewrite (progress_step pbar i (length rest)).
    apply wp_bind.
    assert (Hrep : ∃ s6,
      (if pbar then in_world (emit (EvPbar (PbarUpdate 1)))
       else if i mod 2000 =? 0 then logging_info (LogSeenBatch i) else ret tt) s5
      = (Ok tt, s6)
      ∧ trace s6 = trace s5 ++ (if pbar then [EvPbar (PbarUpdate 1)]
                                else if i mod 2000 =? 0 then [EvLog (LogSeenBatch i)] else [])).
    { destruct pbar; [|destruct (i mod 2000 =? 0)]; eexists; (split; [reflexivity|]);
        unfold trace; simpl; try done. by rewrite app_nil_r. }
    destruct Hrep as (s6 & E6 & T6).
    unfold wp at 1. rewrite E6. simpl.
    eapply wp_mono; [apply IH|].
    intros r s' H Hr. rewrite (H Hr), T6, Q. by rewrite <- app_assoc.
Qed.

(** X6.  A [_train_epoch] that completes over [n] batches adds to the
    trace, between the enter and the exit of its batch source, one
    [pbar.update(1)] per batch when a progress bar was passed, and
    otherwise the log line "Seen batch i" for exactly the batch numbers
    [i < n] that are multiples of 2000. *)
Theorem train_epoch_reports_progress ds pbar s s' batches :
  let cfg := m_config (model (st_self s)) in
  let a := train_args cfg (fst (randint (w_rng (st_world s)) 0 100000)) in
  _train_epoch ds pbar s = (Ok tt, s') →
  DataLoader ds a = Ok batches →
  new_events s s'
  = EvLoaderEnter a :: progress pbar 0 (length batches) ++ [EvLoaderExit].
Proof.
  intros cfg a Hrun Hdl. rewrite train_epoch_result in Hrun. cbv zeta in Hrun.
  fold cfg a in Hrun. rewrite Hdl in Hrun.
  match type of Hrun with context [train_loop pbar 0 batches ?st] =>
    pose proof (train_loop_progress pbar batches 0 st) as H; unfold wp in H;
    destruct (train_loop pbar 0 batches st) as [r s1]
  end.
  simpl in *. injection Hrun as -> <-. specialize (H eq_refl).
  unfold new_events, trace in *. simpl in *. rewrite H.
  rewrite <- !app_assoc. rewrite drop_app_length. done.
Qed.

End TrainEpoch.

(** * [fit]: edge cases and the files it touches *)

Section FitEdges.
Context `{C : Collaborators}.

Lemma py_truediv_zero w : py_truediv w (PInt 0) = Raise ZeroDivisionError.
Proof. destruct w as [z|f]; reflexivity. Qed.

(** X7.  With [epochs_per_cycle = 0], [fit] raises [ZeroDivisionError]
    when it computes the warmup fraction: no optimizer is built, no
    directory or file is created, nothing is logged; the call only
    puts the model in training mode. *)
Theorem fit_zero_epochs ds use_pbar s :
  cfg_epochs_per_cycle (m_config (model (st_self s))) = 0 →
  fit ds use_pbar s = (Raise ZeroDivisionError, set_model (with_training true) s).
Proof.
  intros HK. unfold fit.
  unfold bind at 1. simpl. unfold bind at 1. simpl. unfold bind at 1.
  rewrite build_eq. cbv zeta. simpl. rewrite HK, py_truediv_zero. done.
Qed.

Lemma SFeqb_nan x : SFeqb x x = false → x = S754_nan.
Proof.
  unfold SFeqb. destruct x as [s|s| |s m e]; simpl; try destruct s; try done;
    rewrite Z.compare_refl;
    change (PosDef.Pos.compare_cont Eq m m) with (Pos.compare m m);
    by rewrite Pos.compare_refl.
Qed.

Lemma py_lt_nan x y : is_nan y = true → py_lt x y = false.
Proof.
  unfold is_nan, py_lt. rewrite FloatAxioms.eqb_spec, FloatAxioms.ltb_spec.
  intros H%negb_true_iff%SFeqb_nan. rewrite H. unfold SFltb.
  by destruct (Prim2SF x) as [[]|[]| |[]].
Qed.

Lemma saved_list_nan v run : is_nan v = true → saved_list (Some v) run = [].
Proof.
  intros Hv. induction run as [|[[[e t] v'] sd] r IH]; simpl; [done|].
  by rewrite (py_lt_nan v' v Hv).
Qed.

(** X8.  When the val loss of epoch 0 is NaN, a completed [fit] writes
    the "best" checkpoint at epoch 0 and never again, whatever the val
    losses of the later epochs: the artifact is the state dict of
    epoch 0. *)
Theorem fit_nan_first_epoch ds use_pbar s s' v :
  fit ds use_pbar s = (Ok tt, s') →
  let cfg := m_config (model (st_self s)) in
  let bp := os_path_join (cfg_model_dir cfg) "best" in
  let ms := marks (new_events s s') in
  val_losses ms !! 0%nat = Some v → is_nan v = true →
  ∃ sd, saves ms = [(0, sd)] ∧ w_fs (st_world s') !! bp = Some (FStateDict sd).
Proof.
  intros Hfit cfg bp ms.
  destruct (fit_ok_run ds use_pbar s s' Hfit)
    as (warmup & run & Hw & Hep & Hlen & Hms & Hlp & Hbp & Hfo).
  fold cfg bp in Hms, Hbp.
  assert (Hvs : val_losses ms = vals run).
  { unfold ms. rewrite Hms. apply (val_losses_loop bp run). }
  assert (Hsv : saves ms = saved_list None run).
  { unfold ms. rewrite Hms. unfold saves. simpl. apply saves_loop. }
  rewrite Hvs, Hsv. intros Hv Hnan.
  destruct run as [|[[[e t] v0] sd] r]; [done|].
  simpl in Hv. injection Hv as ->. simpl in Hep. injection Hep as -> _.
  change (Z.of_nat 0) with 0 in *.
  simpl. simpl in Hbp. rewrite (saved_list_nan v r Hnan).
  exists sd. split; [done|]. rewrite Hbp, final_artifact_last.
  by rewrite (saved_list_nan v r Hnan).
Qed.

(** X9.  [fit] starts with no best val loss: a completed run of at
    least one epoch writes a checkpoint at epoch 0, after deleting the
    "best" artifact an earlier run may have left, and the artifact at
    the end is the last checkpoint this run wrote. *)
Theorem fit_replaces_earlier_checkpoint ds use_pbar s s' :
  fit ds use_pbar s = (Ok tt, s') →
  let cfg := m_config (model (st_self s)) in
  let bp := os_path_join (cfg_model_dir cfg) "best" in
  let ms := marks (new_events s s') in
  0 < cfg_epochs_per_cycle cfg →
  ∃ sd0 rest e sd,
    saves ms = (0, sd0) :: rest
    ∧ last (saves ms) = Some (e, sd)
    ∧ w_fs (st_world s') !! bp = Some (FStateDict sd)
    ∧ (is_Some (w_fs (st_world s) !! bp) → MUnlink bp ∈ ms).
Proof.
  intros Hfit cfg bp ms HK.
  destruct (fit_ok_run ds use_pbar s s' Hfit)
    as (warmup & run & Hw & Hep & Hlen & Hms & Hlp & Hbp & Hfo).
  fold cfg bp in Hms, Hbp, Hlen.
  assert (Hsv : saves ms = saved_list None run).
  { unfold ms. rewrite Hms. unfold saves. simpl. apply saves_loop. }
  destruct run as [|[[[e0 t] v0] sd0] r]; [simpl in Hlen; lia|].
  simpl in Hep. injection Hep as -> _. change (Z.of_nat 0) with 0 in *.
  rewrite Hsv. simpl.
  rewrite final_artifact_last in Hbp. simpl in Hbp.
  destruct (last ((0, sd0) :: saved_list (Some v0) r)) as [[e sd]|] eqn:Hl.
  2:{ by rewrite last_cons in Hl; destruct (last (saved_list (Some v0) r)). }
  exists sd0, (saved_list (Some v0) r), e, sd.
  split; [done|]. split; [done|]. split; [exact Hbp|].
  intros Hsome. unfold ms. rewrite Hms. simpl.
  rewrite bool_decide_eq_true_2 by done.
  do 5 right. left.
Qed.

Lemma config_ne d x :
  x = "checkpoints"%string ∨ x = "losses"%string ∨ x = "best"%string →
  os_path_join d "config.json" ≠ os_path_join d x
  ∧ os_path_join d "info.json" ≠ os_path_join d x.
Proof.
  intros [->|[->| ->]]; unfold os_path_join; simpl;
    destruct (String.eqb d EmptyString || ends_with_slash d)%bool;
    split; intros H; apply append_inj_l in H; discriminate.
Qed.

(** The paths of the file system that [fit] may change. *)
Lemma fit_footprint ds use_pbar s :
  let md := cfg_model_dir (m_config (model (st_self s))) in
  wp (fit ds use_pbar) s
     (fun _ s' => ∀ p, p ≠ os_path_join md "checkpoints" → p ≠ os_path_join md "losses" →
                       p ≠ os_path_join md "best" →
                       w_fs (st_world s') !! p = w_fs (st_world s) !! p).
Proof.
  destruct s as [[m o] w]. cbv zeta. simpl (cfg_model_dir _).
  set (md := cfg_model_dir (m_config m)).
  set (cp := os_path_join md "checkpoints").
  set (lp := os_path_join md "losses").
  set (bp := os_path_join md "best").
  unfold fit.
  eapply wp_bind_eq; [reflexivity|]. cbv beta iota.
  eapply wp_bind_eq; [reflexivity|]. cbv beta iota.
  destruct (py_truediv (cfg_warmup_epochs (m_config m)) (PInt (cfg_epochs_per_cycle (m_config m))))
    as [warmup|ex] eqn:Hw.
  2:{ eapply wp_bind_eq; [rewrite build_eq; cbv zeta; simpl; rewrite Hw; reflexivity|].
      simpl. done. }
  destruct (adam_init (List.filter (fun p => p_requires_grad p) (m_parameters m))
              (build_settings (m_config m) ds warmup)) as [st|ex] eqn:Hst.
  2:{ eapply wp_bind_eq; [rewrite build_eq; cbv zeta; simpl; rewrite Hw, Hst; reflexivity|].
      simpl. done. }
  eapply wp_bind_eq; [rewrite build_eq; cbv zeta; simpl; rewrite Hw, Hst; reflexivity|].
  cbv beta iota.
  eapply wp_bind_eq; [reflexivity|]. cbv beta iota.
  simpl (m_config _). unfold set_optimizer. simpl (st_self _). simpl (st_world _).
  simpl (model _). fold md. fold cp lp bp.
  set (ps := List.filter (fun p => p_requires_grad p) (m_parameters m)) in *.
  set (a := build_settings (m_config m) ds warmup) in *.
  match goal with |- wp _ {| st_self := ?me; st_world := ?wx |} _ =>
    set (me1 := me);
    assert (W0 : world_step w wx (w_files w) [] [MOptimizer ps a])
      by (repeat split; simpl; eauto; eexists;
          (split; [rewrite <- !app_assoc; reflexivity | reflexivity]));
    generalize dependent wx
  end.
  intros w0 W0.
  destruct (makedirs_cases cp w0) as [Hm|(w1 & Hm & W1)].
  { eapply wp_bind_eq; [apply in_world_eq, Hm|].
    destruct W0 as (b1 & b2 & b3 & _). simpl. intros p _ _ _. apply b3, not_elem_of_nil. }
  eapply wp_bind_eq; [apply in_world_eq, Hm|]. cbv beta iota.
  rewrite (proj1 W0) in W1.
  pose proof (world_step_trans _ _ _ _ _ _ _ _ _ W0 W1) as W. clear W0 W1 Hm w0.
  destruct (pbar_new_step use_pbar (with_training true m)
              {| opt_params := ps; opt_defaults := a; opt_state := st |} w1)
    as (w2 & Hp & _ & W2).
  eapply wp_bind_eq; [exact Hp|]. cbv beta iota.
  rewrite (proj1 W) in W2.
  pose proof (world_step_trans _ _ _ _ _ _ _ _ _ W W2) as W'. clear W W2 Hp w1.
  set (fo := {| fo_path := lp; fo_buffer := []; fo_closed := false |}).
  destruct (open_w_cases lp w2) as [Ho|(w3 & Ho & W3 & Hlp3)].
  { eapply wp_bind_eq; [apply in_world_eq, Ho|].
    destruct W' as (b1 & b2 & b3 & _). simpl. intros p Hcp _ _. apply b3.
    simpl. by intros [?|?%elem_of_nil]%elem_of_cons. }
  rewrite (proj1 W') in Ho, W3.
  eapply wp_bind_eq; [apply in_world_eq, Ho|]. cbv beta iota.
  pose proof (world_step_trans _ _ _ _ _ _ _ _ _ W' W3) as W. clear W' W3 Ho.
  simpl in W.
  eapply wp_bind_eq; [reflexivity|]. cbv beta iota. simpl (st_self _). simpl (st_world _).
  destruct W as (b1 & b2 & b3 & _).
  set (fd := length (w_files w)) in *.
  assert (Hpre : ∀ p, p ≠ cp → p ≠ lp → p ≠ bp → w_fs w3 !! p = w_fs w !! p).
  { intros p Hcp Hlp _. apply b3.
    intros [?|[?|?%elem_of_nil]%elem_of_cons]%elem_of_cons; done. }
  apply wp_bind. eapply wp_mono.
  { apply fit_epochs_spec. simpl. rewrite b1. by apply list_lookup_middle. }
  intros r [me5 w5] (c1 & c2 & c3 & c4 & _).
  simpl in c1, c2, c3, c4. fold lp bp in c4.
  assert (Hfd5 : w_files w5 !! fd = Some fo).
  { rewrite c2, b1. by apply list_lookup_middle. }
  destruct r as [best'|ex].
  - destruct (pbar_step use_pbar PbarClose me5 w5) as (w6 & Hp & Hfs6 & W6).
    eapply wp_bind_eq; [exact Hp|]. cbv beta iota.
    destruct W6 as (d1 & _).
    eapply wp_bind_eq.
    { apply in_world_eq. apply (file_close_open fd w6 fo); [by rewrite d1|done]. }
    cbv beta iota. unfold wp. simpl.
    intros p Hcp Hlp Hbp. rewrite lookup_insert_ne by done.
    rewrite Hfs6, c4 by done. by apply Hpre.
  - simpl. intros p Hcp Hlp Hbp. rewrite c4 by done. by apply Hpre.
Qed.

Lemma fit_keeps_path ds use_pbar s p :
  let md := cfg_model_dir (m_config (model (st_self s))) in
  p ≠ os_path_join md "checkpoints" → p ≠ os_path_join md "losses" →
  p ≠ os_path_join md "best" →
  w_fs (st_world (snd (fit ds use_pbar s))) !! p = w_fs (st_world s) !! p.
Proof. intros md. apply (fit_footprint ds use_pbar s). Qed.


End FitEdges.

(** * [from_pretrained] after [fit], and the mode [fit] leaves *)

Section LoadAfterFit.
Context `{C : Collaborators}.

Lemma read_text_state p w : snd (read_text p w) = w.
Proof. unfold read_text. by destruct (w_fs w !! p) as [[]|]. Qed.

Lemma torch_load_state p w : snd (torch_load p w) = w.
Proof. unfold torch_load. by destruct (w_fs w !! p) as [[]|]. Qed.

(** X18.  However [from_pretrained] ends, the world is as it was: the
    call only reads the file system, and sets up no logging. *)
Theorem from_pretrained_only_reads model_dir w :
  snd (from_pretrained model_dir w) = w.
Proof.
  unfold from_pretrained, read_config, read_info, init, torch_cuda_is_available.
  unfold bind, lift_result, gets, ret.
  pose proof (read_text_state (os_path_join model_dir "config.json") w) as H1.
  destruct (read_text (os_path_join model_dir "config.json") w) as [[ct|ex] w1];
    simpl in H1; subst w1; [|done].
  destruct (parse_config ct) as [config|ex]; [|done].
  pose proof (read_text_state (os_path_join model_dir "info.json") w) as H2.
  destruct (read_text (os_path_join model_dir "info.json") w) as [[it|ex] w2];
    simpl in H2; subst w2; [|done].
  destruct (parse_info it) as [info|ex]; [|done].
  destruct (PredictionModel config info _) as [ps|ex]; [|done].
  pose proof (torch_load_state (os_path_join model_dir "best") w) as H3.
  destruct (torch_load (os_path_join model_dir "best") w) as [[sd|ex] w3];
    simpl in H3; subst w3; [|done].
  simpl. by destruct (load_state_dict ps sd).
Qed.

Lemma from_pretrained_ok model_dir w ct it config info ps sd :
  w_fs w !! os_path_join model_dir "config.json" = Some (FJson ct) →
  parse_config ct = Ok config →
  w_fs w !! os_path_join model_dir "info.json" = Some (FJson it) →
  parse_info it = Ok info →
  PredictionModel config info (if w_cuda w then Cuda0 else Cpu) = Ok ps →
  w_fs w !! os_path_join model_dir "best" = Some (FStateDict sd) →
  fst (from_pretrained model_dir w)
  = rbind (load_state_dict ps sd)
          (fun ps' => Ok (pretrained config info (if w_cuda w then Cuda0 else Cpu) ps')).
Proof.
  intros H1 H2 H3 H4 H5 H6.
  unfold from_pretrained, read_config, read_info, read_text, init, torch_load,
    torch_cuda_is_available, bind, lift_result, gets, ret.
  rewrite H1, H2. simpl. rewrite H3, H4. simpl. rewrite H5. simpl. rewrite H6. simpl.
  by destruct (load_state_dict ps sd).
Qed.

Lemma from_pretrained_no_config model_dir w :
  w_fs w !! os_path_join model_dir "config.json" = None →
  fst (from_pretrained model_dir w) = Raise FileNotFoundError.
Proof.
  intros H. unfold from_pretrained, read_config, read_text, bind. by rewrite H.
Qed.

(** X13.  [fit] does not write "config.json": when the model directory
    had none, [from_pretrained] on it raises [FileNotFoundError] after
    [fit], however [fit] ended. *)
Theorem fit_alone_is_not_loadable ds use_pbar s :
  let md := cfg_model_dir (m_config (model (st_self s))) in
  w_fs (st_world s) !! os_path_join md "config.json" = None →
  fst (from_pretrained md (st_world (snd (fit ds use_pbar s)))) = Raise FileNotFoundError.
Proof.
  intros md H. apply from_pretrained_no_config. fold md.
  rewrite fit_keeps_path; [done|apply config_ne..]; auto.
Qed.

(** X12.  After a completed [fit] of at least one epoch, when the model
    directory had a configuration and a metadata file that parse,
    [from_pretrained] on that directory loads the state dict of the
    last checkpoint the run wrote into the model it builds. *)
Theorem fit_then_from_pretrained ds use_pbar s s' ct it config info ps :
  fit ds use_pbar s = (Ok tt, s') →
  let cfg := m_config (model (st_self s)) in
  let md := cfg_model_dir cfg in
  let device := if w_cuda (st_world s') then Cuda0 else Cpu in
  0 < cfg_epochs_per_cycle cfg →
  w_fs (st_world s) !! os_path_join md "config.json" = Some (FJson ct) →
  parse_config ct = Ok config →
  w_fs (st_world s) !! os_path_join md "info.json" = Some (FJson it) →
  parse_info it = Ok info →
  PredictionModel config info device = Ok ps →
  ∃ e sd,
    last (saves (marks (new_events s s'))) = Some (e, sd)
    ∧ fst (from_pretrained md (st_world s'))
      = rbind (load_state_dict ps sd)
              (fun ps' => Ok (pretrained config info device ps')).
Proof.
  intros Hfit cfg md device HK H1 H2 H3 H4 H5.
  destruct (fit_ok_run ds use_pbar s s' Hfit)
    as (warmup & run & Hw & Hep & Hlen & Hms & Hlp & Hbp & Hfo).
  fold cfg md in Hms, Hbp, Hlen.
  assert (Hsv : saves (marks (new_events s s')) = saved_list None run).
  { rewrite Hms. unfold saves. simpl. apply saves_loop. }
  rewrite final_artifact_last in Hbp. rewrite Hsv.
  destruct run as [|[[[e0 t] v0] sd0] r]; [simpl in Hlen; lia|].
  destruct (last (saved_list None ((e0, t, v0, sd0) :: r))) as [[e sd]|] eqn:Hl.
  2:{ simpl in Hl. rewrite last_cons in Hl.
      by destruct (last (saved_list (Some v0) r)). }
  exists e, sd. split; [done|].
  assert (Hs' : s' = snd (fit ds use_pbar s)) by (by rewrite Hfit).
  apply (from_pretrained_ok md (st_world s') ct it config info ps sd); try done.
  - rewrite Hs'. unfold md, cfg. rewrite fit_keeps_path; [done|apply config_ne..]; auto.
  - rewrite Hs'. unfold md, cfg. rewrite fit_keeps_path; [done|apply config_ne..]; auto.
  - rewrite Hbp. simpl. simpl in Hl. by rewrite Hl.
Qed.

(** *** The mode [fit] leaves the model in *)
Lemma keeps_self_bind {A B} (m : M state A) (k : A → M state B) :
  keeps_self m → (∀ a, keeps_self (k a)) → keeps_self (bind m k).
Proof.
  intros Hm Hk s. unfold bind. specialize (Hm s).
  destruct (m s) as [[a|ex] s1]; simpl in *; [|done].
  by rewrite (Hk a s1).
Qed.

Lemma keeps_self_in_world {A} (m : M world A) : keeps_self (in_world m).
Proof. intros s. unfold in_world. by destruct (m (st_world s)). Qed.

Lemma keeps_self_ret {A} (a : A) : keeps_self (ret a).
Proof. done. Qed.

Lemma keeps_self_gets {A} (f : state → A) : keeps_self (gets f).
Proof. done. Qed.

Lemma keeps_self_if {A} (c : bool) (m1 m2 : M state A) :
  keeps_self m1 → keeps_self m2 → keeps_self (if c then m1 else m2).
Proof. by destruct c. Qed.

Ltac keeping :=
  repeat first
    [ apply keeps_self_bind; [|intros ?]
    | apply keeps_self_ret
    | apply keeps_self_gets
    | apply keeps_self_in_world
    | apply keeps_self_if ].

Ltac wp_any :=
  apply wp_bind;
  match goal with
  | |- wp ?m ?s _ => unfold wp at 1; destruct (m s) as [[?|?] ?]; simpl fst; simpl snd
  end; [|done].

Lemma evaluate_mode ds is_val nb s :
  m_training (model (st_self (snd (evaluate ds is_val nb s)))) = false.
Proof. rewrite evaluate_state. cbv zeta. by destruct (DataLoader ds _). Qed.

Lemma fit_epoch_mode ds pbar fd md best e s :
  wp (fit_epoch ds pbar fd md best e) s
     (fun r s' => match r with
                  | Ok _ => m_training (model (st_self s')) = false
                  | Raise _ => True
                  end).
Proof.
  unfold fit_epoch.
  do 6 wp_any.
  apply wp_bind. unfold wp at 1.
  pose proof (evaluate_mode ds true (Some 2000) s5) as Hm.
  destruct (evaluate ds true (Some 2000) s5) as [[v|ex] s6]; simpl in *; [|done].
  match goal with |- wp ?m s6 _ =>
    assert (K : keeps_self m) by (unfold logging_info, get_parameters; keeping)
  end.
  unfold wp. specialize (K s6).
  match goal with |- context [?m s6] => destruct (m s6) as [[b|ex] s7] end.
  - simpl in *. by rewrite K.
  - done.
Qed.

Lemma fit_epochs_mode ds pbar fd md epochs : ∀ best s,
  wp (fit_epochs ds pbar fd md epochs best) s
     (fun r s' => match r with
                  | Ok _ => epochs ≠ [] ∨ m_training (model (st_self s)) = false →
                            m_training (model (st_self s')) = false
                  | Raise _ => True
                  end).
Proof.
  induction epochs as [|e rest IH]; intros best s; simpl.
  - unfold wp. simpl. by intros [?|?].
  - apply wp_bind. eapply wp_mono; [apply fit_epoch_mode|].
    intros [best1|ex] s1 H1; [|done].
    eapply wp_mono; [apply IH|].
    intros [best2|ex] s2 H2; [|done]. intros _. apply H2. by right.
Qed.

(** X10.  A completed [fit] of at least one epoch leaves the model in
    eval mode: every epoch ends with [evaluate], and nothing after it
    calls [self.model.train()]. *)
Theorem fit_leaves_eval_mode ds use_pbar s s' :
  fit ds use_pbar s = (Ok tt, s') →
  0 < cfg_epochs_per_cycle (m_config (model (st_self s))) →
  m_training (model (st_self s')) = false.
Proof.
  intros Hfit HK.
  assert (H : wp (fit ds use_pbar) s
                (fun r s' => match r with
                             | Ok _ => m_training (model (st_self s')) = false
                             | Raise _ => True
                             end)).
  { unfold fit.
    apply wp_bind. unfold wp at 1, model_train, modify. simpl fst. simpl snd.
    apply wp_bind. unfold wp at 1, get_config, gets. simpl fst. simpl snd.
    simpl (m_config _).
    do 6 wp_any.
    apply wp_bind. eapply wp_mono; [apply fit_epochs_mode|].
    intros [best|ex] s7 H7; [|done].
    assert (Hm : m_training (model (st_self s7)) = false).
    { apply H7. left. simpl. unfold range. intros E. apply (f_equal length) in E.
      rewrite length_map, length_seq in E. simpl in E. lia. }
    match goal with |- wp ?m s7 _ =>
      assert (K : keeps_self m) by (unfold logging_info; keeping)
    end.
    unfold wp. specialize (K s7).
    match goal with |- context [?m s7] => destruct (m s7) as [[b|ex] s8] end;
      simpl in *; [by rewrite K|done]. }
  unfold wp in H. by rewrite Hfit in H.
Qed.

End LoadAfterFit.

(** * [featurize_patients]: shape, state and the labeler *)

Section FeaturizeShape.
Context `{C : Collaborators}.

Lemma featurize_loop_state idx bs : ∀ out s, snd (featurize_loop idx bs out s) = s.
Proof.
  induction bs as [|[b|ex] rest IH]; intros out s; simpl; try done.
  unfold bind, lift_result, get_parameters, gets. simpl.
  destruct (compute_embedding_batch _ _); [|done]. simpl.
  destruct (scatter_batch _ _ _ _); [|done]. apply IH.
Qed.

(** X14.  However [featurize_patients] ends, the featurizer is as it
    was: the call does not switch the model to eval mode, and changes
    neither the parameters nor the optimizer, the file system or the
    open files. *)
Theorem featurize_patients_keeps_self extract_dir pids offs s :
  let s' := snd (featurize_patients extract_dir pids offs s) in
  st_self s' = st_self s
  ∧ w_fs (st_world s') = w_fs (st_world s)
  ∧ w_files (st_world s') = w_files (st_world s).
Proof.
  cbv zeta. rewrite featurize_patients_eq. cbv zeta.
  destruct (PatientTimelineDataset _ _ _ _ _) as [ds|ex]; [|done].
  destruct (np_zeros _ _) as [out|ex]; [|done].
  unfold with_DataLoader. destruct (DataLoader ds _) as [bs|ex]; [|done].
  unfold bind, in_world, emit, modify. simpl.
  match goal with |- context [featurize_loop ?idx bs out ?st] =>
    pose proof (featurize_loop_state idx bs out st) as H;
    destruct (featurize_loop idx bs out st) as [r s1]
  end.
  simpl in *. by subst.
Qed.

Lemma np_set_row_shaped n sz out t v out' :
  np_set_row out t v = Ok out' → shaped n sz out → shaped n sz out'.
Proof.
  unfold np_set_row, shaped. destruct (out !! t) as [old|] eqn:E; [|done].
  intros H [Hn Hr].
  assert (Hold : length old = sz).
  { rewrite Forall_forall in Hr. apply Hr. by eapply list_elem_of_lookup_2. }
  destruct (length v =? length old)%nat eqn:El.
  - injection H as <-. rewrite length_insert. split; [done|].
    apply Forall_insert; [done|]. apply Nat.eqb_eq in El. congruence.
  - destruct v as [|x [|y v]]; try done. injection H as <-.
    rewrite length_insert. split; [done|].
    apply Forall_insert; [done|]. by rewrite repeat_length.
Qed.

Lemma scatter_items_shaped n sz emb i items : ∀ out out',
  scatter_items emb i items out = Ok out' → shaped n sz out → shaped n sz out'.
Proof.
  induction items as [|[index target] rest IH]; intros out out'; simpl.
  - by intros [= <-].
  - destruct (np_index emb (Z.of_nat i)) as [e|ex]; [|done]. simpl.
    destruct (np_index e index) as [v|ex]; [|done]. simpl.
    destruct (np_set_row out target v) as [out1|ex] eqn:E; [|done]. simpl.
    intros H Hs. apply (IH out1 out' H). by eapply np_set_row_shaped.
Qed.

Lemma scatter_batch_shaped n sz idx emb ps : ∀ out out',
  scatter_batch idx emb ps out = Ok out' → shaped n sz out → shaped n sz out'.
Proof.
  induction ps as [|[i pid] rest IH]; intros out out'; simpl.
  - by intros [= <-].
  - destruct (scatter_items emb i _ out) as [out1|ex] eqn:E; [|done]. simpl.
    intros H Hs. apply (IH out1 out' H). by eapply scatter_items_shaped.
Qed.

Lemma featurize_loop_shaped n sz idx bs : ∀ out out' s,
  fst (featurize_loop idx bs out s) = Ok out' → shaped n sz out → shaped n sz out'.
Proof.
  induction bs as [|[b|ex] rest IH]; intros out out' s; simpl; try done.
  - by intros [= <-].
  - unfold bind, lift_result, get_parameters, gets. simpl.
    destruct (compute_embedding_batch _ _) as [emb|ex]; [|done]. simpl.
    destruct (scatter_batch _ _ _ _) as [out1|ex] eqn:E; [|done].
    intros H Hs. apply (IH out1 out' s H). by eapply scatter_batch_shaped.
Qed.

Lemma featurize_patients_shaped extract_dir pids offs s M :
  fst (featurize_patients extract_dir pids offs s) = Ok M →
  shaped (length pids) (Z.to_nat (cfg_size (m_config (model (st_self s))))) M.
Proof.
  rewrite featurize_patients_eq. cbv zeta.
  destruct (PatientTimelineDataset _ _ _ _ _) as [ds|ex]; [|done].
  unfold np_zeros. destruct (cfg_size _ <? 0); [done|].
  unfold with_DataLoader. destruct (DataLoader ds _) as [bs|ex]; [|done].
  unfold bind, in_world, emit, modify. simpl.
  match goal with |- context [featurize_loop ?idx bs ?out ?st] =>
    pose proof (featurize_loop_shaped (length pids)
                  (Z.to_nat (cfg_size (m_config (model (st_self s))))) idx bs out M st) as H;
    destruct (featurize_loop idx bs out st) as [r s1]
  end.
  simpl in *. intros Hr. apply H; [done|].
  split; [by rewrite repeat_length|].
  apply Forall_forall. intros row Hin%list_elem_of_In%repeat_spec. subst.
  by rewrite repeat_length.
Qed.

(** X15.  Whenever [featurize_patients] returns, its result has one
    row per patient id of the query and every row has [config["size"]]
    entries, whatever the shapes of the embeddings the model gave. *)
Theorem featurize_patients_shape extract_dir pids offs s M :
  fst (featurize_patients extract_dir pids offs s) = Ok M →
  length M = length pids
  ∧ Forall (fun row => length row = Z.to_nat (cfg_size (m_config (model (st_self s))))) M.
Proof. apply featurize_patients_shaped. Qed.

(** X17.  [featurize_patients_w_labels] raises what the labeler raises,
    before anything else happens; otherwise it does what
    [featurize_patients] does on the labeler's patient ids and indices,
    and returns its matrix, which has one row per patient id, with the
    labels, ids and indices of the labeler unchanged. *)
Theorem featurize_patients_w_labels_aligned {L} extract_dir
    (get_label_data : result (list L * list Z * list Z)) s :
  match get_label_data with
  | Raise ex =>
      featurize_patients_w_labels extract_dir get_label_data s = (Raise ex, s)
  | Ok (labels, patient_ids, patient_indices) =>
      snd (featurize_patients_w_labels extract_dir get_label_data s)
      = snd (featurize_patients extract_dir patient_ids patient_indices s)
      ∧ match fst (featurize_patients extract_dir patient_ids patient_indices s) with
        | Raise ex =>
            fst (featurize_patients_w_labels extract_dir get_label_data s) = Raise ex
        | Ok M =>
            fst (featurize_patients_w_labels extract_dir get_label_data s)
            = Ok (M, labels, patient_ids, patient_indices)
            ∧ length M = length patient_ids
        end
  end.
Proof.
  destruct get_label_data as [[[labels pids] offs]|ex]; [|done].
  unfold featurize_patients_w_labels, bind, lift_result. simpl.
  pose proof (featurize_patients_shaped extract_dir pids offs s) as H.
  destruct (featurize_patients extract_dir pids offs s) as [[M|ex] s1]; simpl in *; [|done].
  split; [done|]. split; [done|]. by destruct (H M eq_refl).
Qed.

Lemma targets_pids pids offs : targets_ok (build_index pids offs) (length pids).
Proof.
  intros p o t Ht. apply (targets_query pids offs) in Ht.
  rewrite length_combine in Ht. lia.
Qed.

Lemma apply_visit_other idx (out : ndarray2) v r :
  index_wf idx → (∀ p o, index_get idx p o ≠ Some r) → (r < length out)%nat →
  apply_visit idx out v !! r = out !! r.
Proof.
  intros Hwf Hno Hr. destruct v as [p e]. unfold apply_visit. simpl.
  rewrite (write_items_row e _ r 0).
  - destruct (existsb _ _) eqn:Hex; [|done].
    apply existsb_exists in Hex as ([o t] & Hin%list_elem_of_In & Ht%Nat.eqb_eq).
    simpl in Ht. subst t. apply items_index_get in Hin; [|done]. by apply Hno in Hin.
  - intros o t Hin ->. apply items_index_get in Hin; [|done]. by apply Hno in Hin.
  - done.
Qed.

Lemma fold_visits_other idx vs r : ∀ (out : ndarray2),
  index_wf idx → (∀ p o, index_get idx p o ≠ Some r) → (r < length out)%nat →
  fold_left (apply_visit idx) vs out !! r = out !! r.
Proof.
  induction vs as [|v vs IH]; intros out Hwf Hno Hr; simpl; [done|].
  rewrite IH; [by apply apply_visit_other|done|done|by rewrite apply_visit_length].
Qed.

Lemma featurize_patients_result_any extract_dir pids offs s bes :
  let size := cfg_size (m_config (model (st_self s))) in
  0 ≤ size →
  streams s extract_dir pids offs bes →
  fst (featurize_patients extract_dir pids offs s)
  = if all_in_window pids offs (visits bes)
    then Ok (fold_left (apply_visit (build_index pids offs)) (visits bes)
               (repeat (zeros size) (length pids)))
    else Raise IndexError.
Proof.
  intros size Hsize (ds & Hds & Hdl & Hall).
  rewrite featurize_patients_eq. cbv zeta. rewrite Hds.
  fold size. rewrite (np_zeros_ok _ _ Hsize). unfold with_DataLoader. rewrite Hdl.
  unfold bind, in_world, emit, modify. simpl.
  assert (Hz : combine bes.*1 bes.*2 = bes).
  { clear. induction bes as [|[b e] bes IH]; simpl; [done|]. f_equal. exact IH. }
  match goal with |- context [featurize_loop ?idx ?bs ?out ?st] =>
    pose proof (featurize_loop_eq idx (Z.to_nat size) bes.*1 bes.*2 out st) as H
  end.
  rewrite Hz in H. rewrite H; clear H.
  - simpl. rewrite all_in_window_visits. by destruct (all_in_window _ _ _).
  - apply build_index_wf.
  - rewrite repeat_length. apply targets_pids.
  - simpl. clear -Hall. induction bes as [|[b e] bes IH]; simpl; [constructor|].
    apply Forall_cons in Hall as [(h1 & h2 & h3) Hall]. constructor; [|by apply IH].
    done.
  - apply Forall_forall. intros row Hin. apply list_elem_of_In, repeat_spec in Hin.
    subst row. unfold zeros. by rewrite repeat_length.
Qed.

(** X16.  When [day_offsets] is shorter than [patient_ids], the query
    is not rejected: [zip] drops the patient ids that have no offset,
    and their rows of the result are zero. *)
Theorem featurize_patients_unpaired_ids extract_dir pids offs s bes r :
  let size := cfg_size (m_config (model (st_self s))) in
  0 ≤ size →
  streams s extract_dir pids offs bes →
  all_in_window pids offs (visits bes) = true →
  (length offs ≤ r < length pids)%nat →
  ∃ M, fst (featurize_patients extract_dir pids offs s) = Ok M
       ∧ length M = length pids
       ∧ M !! r = Some (zeros size).
Proof.
  intros size Hsize Hst Hwin Hr.
  rewrite (featurize_patients_result_any _ _ _ _ bes Hsize Hst), Hwin.
  eexists. split; [done|]. split.
  - by rewrite fold_visits_length, repeat_length.
  - rewrite fold_visits_other.
    + apply repeat_lookup. lia.
    + apply build_index_wf.
    + intros p o Hget. rewrite build_index_get in Hget.
      apply last_position_spec in Hget as [Hget _].
      apply lookup_lt_Some in Hget. rewrite length_combine in Hget. lia.
    + rewrite repeat_length. lia.
Qed.

End FeaturizeShape.

(** * Runs of the concrete instance *)

Section Examples.
Import Demo.


Lemma demo_streams (pids offs : list Z) :
  let C := collaborators loss_four (Ok dataset0) no_config in
  streams (C := C) (state0 loss_four (Ok dataset0) no_config 1 5) "x" pids offs
    [(batch0, [[[1; 2]; [3; 4]]]%float)].
Proof.
  exists dataset0. split; [reflexivity|]. split; [reflexivity|].
  repeat constructor.
Defined.


(** C2 on the same query: the pair [(7, 1)] at positions 0 and 1. *)
Lemma featurize_patients_duplicate_witness :
  let C := collaborators loss_four (Ok dataset0) no_config in
  let s := state0 loss_four (Ok dataset0) no_config 1 5 in
  index_get (build_index [7; 7; 8] [1; 1; 0]) 7 1 = Some 1%nat
  ∧ ∃ M v, fst (featurize_patients (C := C) "x" [7; 7; 8] [1; 1; 0] s) = Ok M
           ∧ last_embedding (visits (C := C) [(batch0, [[[1; 2]; [3; 4]]]%float)]) 7 1
             = Some v
           ∧ M !! 1%nat = Some v
           ∧ M !! 0%nat = Some (zeros 2).
Proof.
  apply (featurize_patients_duplicate
           (C := collaborators loss_four (Ok dataset0) no_config)
           "x" [7; 7; 8] [1; 1; 0]
           (state0 loss_four (Ok dataset0) no_config 1 5)
           [(batch0, [[[1; 2]; [3; 4]]]%float)] 0 1 7 1);
    try reflexivity; try apply demo_streams; try (simpl; lia).
  - intros [|[|[|k]]] Hk [H1 H2]; simpl in *; try lia; discriminate.
  - exists [[1; 2]; [3; 4]]%float. left.
Defined.

(** C3 on a run of three epochs with the val losses 1, NaN and 0.5:
    the checkpoint is written again at epoch 2, whose val loss is not
    strictly below that of epoch 1. *)
Lemma fit_checkpoint_after_nan :
  let C := collaborators losses_with_nan (Raise ValueError) no_config in
  let s := state0 losses_with_nan (Raise ValueError) no_config 3 5 in
  let ms := marks (new_events s (snd (fit (C := C) dataset0 false s))) in
  fst (fit (C := C) dataset0 false s) = Ok tt
  ∧ val_losses ms = [1; nan; 0.5]%float
  ∧ (saves ms).*1 = [0; 2]
  ∧ py_lt 0.5 nan = false.
Proof. vm_compute. done. Qed.

Lemma fit_ok_pair `{C : Collaborators} ds use_pbar (s : state) :
  fst (fit ds use_pbar s) = Ok tt →
  fit ds use_pbar s = (Ok tt, snd (fit ds use_pbar s)).
Proof. destruct (fit ds use_pbar s) as [r s']. simpl. by intros ->. Defined.

(** C3 on a run of three epochs with the val losses 1, 2 and 0.5. *)
Lemma fit_keeps_best_checkpoint_witness :
  let C := collaborators losses_plain (Raise ValueError) no_config in
  let s := state0 losses_plain (Raise ValueError) no_config 3 5 in
  let ms := marks (new_events s (snd (fit (C := C) dataset0 false s))) in
  fst (fit (C := C) dataset0 false s) = Ok tt
  ∧ val_losses ms = [1; 2; 0.5]%float
  ∧ length (val_losses ms) = 3%nat
  ∧ (∀ e v, val_losses ms !! e = Some v →
       (Z.of_nat e ∈ (saves ms).*1
        ↔ ∀ e' v', (e' < e)%nat → val_losses ms !! e' = Some v' → py_lt v v' = true)).
Proof.
  cbv zeta.
  assert (Hfit : fst (fit (C := collaborators losses_plain (Raise ValueError) no_config)
                        dataset0 false
                        (state0 losses_plain (Raise ValueError) no_config 3 5)) = Ok tt)
    by (vm_compute; reflexivity).
  split; [exact Hfit|]. split; [vm_compute; reflexivity|].
  pose proof (fit_keeps_best_checkpoint
                (C := collaborators losses_plain (Raise ValueError) no_config)
                dataset0 false
                (state0 losses_plain (Raise ValueError) no_config 3 5)
                (snd (fit (C := collaborators losses_plain (Raise ValueError) no_config)
                        dataset0 false
                        (state0 losses_plain (Raise ValueError) no_config 3 5)))
                (fit_ok_pair _ _ _ Hfit)) as H.
  cbv zeta in H.
  destruct H as (H1 & H2 & _); [vm_compute; repeat constructor|].
  split; [exact H1|exact H2].
Defined.

(** C5 on a dataset whose training stream fails at its first batch:
    [fit] raises and the loss log is left open. *)
Lemma fit_error_leaves_loss_log_open_witness :
  let C := collaborators loss_four (Raise ValueError) no_config in
  let s := state0 loss_four (Raise ValueError) no_config 3 5 in
  fst (fit (C := C) dataset_failing false s) = Raise (CollaboratorError 1)
  ∧ w_files (st_world (snd (fit (C := C) dataset_failing false s))) !! 0%nat
    = Some {| fo_path := "m/losses"; fo_buffer := []; fo_closed := false |}.
Proof.
  split; [vm_compute; reflexivity|].
  apply (fit_error_leaves_loss_log_open
           (C := collaborators loss_four (Raise ValueError) no_config)
           dataset_failing false
           (state0 loss_four (Raise ValueError) no_config 3 5)
           (CollaboratorError 1)).
  - vm_compute. reflexivity.
  - vm_compute. right. left.
Defined.

(** C6 on a run of two epochs: two epochs are started and one
    optimizer is built. *)
Lemma fit_two_epochs_one_optimizer :
  let C := collaborators loss_four (Raise ValueError) no_config in
  let s := state0 loss_four (Raise ValueError) no_config 2 5 in
  let ms := marks (new_events s (snd (fit (C := C) dataset0 false s))) in
  fst (fit (C := C) dataset0 false s) = Ok tt
  ∧ started ms = [0; 1]
  ∧ length (optimizers_built ms) = 1%nat.
Proof. vm_compute. done. Qed.

(** C6 on the same run of two epochs. *)
Lemma fit_builds_one_optimizer_witness :
  let C := collaborators loss_four (Raise ValueError) no_config in
  let s := state0 loss_four (Raise ValueError) no_config 2 5 in
  fst (fit (C := C) dataset0 false s) = Ok tt
  ∧ ∃ rest,
      optimizers_built rest = []
      ∧ started rest = range 2
      ∧ ∃ ps a, marks (new_events s (snd (fit (C := C) dataset0 false s)))
                = MOptimizer ps a :: rest.
Proof.
  cbv zeta.
  assert (Hfit : fst (fit (C := collaborators loss_four (Raise ValueError) no_config)
                        dataset0 false
                        (state0 loss_four (Raise ValueError) no_config 2 5)) = Ok tt)
    by (vm_compute; reflexivity).
  split; [exact Hfit|].
  destruct (fit_builds_one_optimizer
              (C := collaborators loss_four (Raise ValueError) no_config)
              dataset0 false
              (state0 loss_four (Raise ValueError) no_config 2 5)
              (snd (fit (C := collaborators loss_four (Raise ValueError) no_config)
                      dataset0 false
                      (state0 loss_four (Raise ValueError) no_config 2 5)))
              (fit_ok_pair _ _ _ Hfit))
    as (warmup & rest & H1 & H2 & H3 & H4).
  exists rest. split; [exact H3|]. split; [exact H4|].
  eexists. eexists. exact H2.
Defined.

(** C7 on two states that differ in the state of the random generator. *)
Lemma evaluate_deterministic_witness :
  let C := collaborators loss_four (Raise ValueError) no_config in
  let s1 := state0 loss_four (Raise ValueError) no_config 3 5 in
  let s2 := state0 loss_four (Raise ValueError) no_config 3 77 in
  w_rng (st_world s1) ≠ w_rng (st_world s2)
  ∧ fst (evaluate (C := C) dataset0 true (Some 2) s1)
    = fst (evaluate (C := C) dataset0 true (Some 2) s2).
Proof.
  split; [discriminate|].
  apply (evaluate_deterministic
           (C := collaborators loss_four (Raise ValueError) no_config)
           dataset0 true (Some 2)
           (state0 loss_four (Raise ValueError) no_config 3 5)
           (state0 loss_four (Raise ValueError) no_config 3 77));
    reflexivity.
Defined.

(** C10 on a stream of one batch with loss 4 and [num_batches = 2]:
    the result is 2, not the mean 4 of the batches consumed. *)
Lemma evaluate_divides_by_num_batches_witness :
  let C := collaborators loss_four (Raise ValueError) no_config in
  let s := state0 loss_four (Raise ValueError) no_config 3 5 in
  sum_losses [4%float] = Ok (PFloat 4)
  ∧ fst (evaluate (C := C) dataset0 true (Some 2) s) = Ok 2%float.
Proof.
  split; [reflexivity|].
  rewrite (evaluate_divides_by_num_batches
             (C := collaborators loss_four (Raise ValueError) no_config)
             dataset0 true 2
             (state0 loss_four (Raise ValueError) no_config 3 5)
             [batch0] [0]).
  - reflexivity.
  - reflexivity.
  - repeat constructor.
Defined.

(** C4 and C8 on the failing run of C5: the batch source of the failed
    training epoch was exited, and the loss log holds no entry. *)
Example fit_failing_run :
  let C := collaborators loss_four (Raise ValueError) no_config in
  let s := state0 loss_four (Raise ValueError) no_config 3 5 in
  let s' := snd (fit (C := C) dataset_failing false s) in
  w_loaders (st_world s') = 0%nat
  ∧ List.filter loader_event (new_events s s')
    = [EvLoaderEnter (train_args (config0 3) 5); EvLoaderExit]
  ∧ w_fs (st_world s') !! "m/losses" = Some (FText []).
Proof. vm_compute. done. Qed.

(** C9 on a model directory holding the three files, without CUDA. *)
Example from_pretrained_demo :
  let parse := fun _ : string => Ok (config0 1) in
  let C := collaborators loss_four (Raise ValueError) parse in
  let w := {| w_fs := {[ "m/config.json" := FJson "{}";
                         "m/info.json" := FJson "{}";
                         "m/best" := FStateDict [("w", 5); ("frozen", 6)] ]};
              w_files := []; w_loaders := 0; w_rng := 0; w_cuda := false;
              w_trace := [] |} in
  fst (from_pretrained (C := C) "m" w)
  = Ok {| model := {| m_config := config0 1; m_info := tt; m_device := Cpu;
                      m_parameters :=
                        [ {| p_name := "w"; p_requires_grad := true; p_data := 5 |};
                          {| p_name := "frozen"; p_requires_grad := false; p_data := 6 |} ];
                      m_training := true |};
          optimizer := None |}.
Proof. vm_compute. done. Qed.

End Examples.

(** * Further runs of the concrete instance *)

Section FurtherRuns.
Import Demo DemoMore.

(** X2 on a validation stream of one batch with loss 4: the count at
    the batch size 4 is 1. *)
Lemma evaluate_default_num_batches_witness :
  let C := collaborators loss_four (Raise ValueError) no_config in
  let s := state0 loss_four (Raise ValueError) no_config 3 5 in
  num_batches (Collaborators := C) dataset0 4 true = 1
  ∧ fst (evaluate (C := C) dataset0 true None s) = Ok 4%float.
Proof.
  cbv zeta. split; [reflexivity|].
  pose proof (evaluate_default_num_batches
                (C := collaborators loss_four (Raise ValueError) no_config)
                dataset0 true
                (state0 loss_four (Raise ValueError) no_config 3 5)
                [batch0] [0]) as H.
  cbv zeta in H.
  destruct H as [H _]; [reflexivity|repeat constructor|].
  rewrite H. reflexivity.
Defined.

(** X3 on a validation stream that fails at its second pull, with
    [num_batches = 1]. *)
Lemma evaluate_raises_what_the_next_pull_raises_witness :
  let C := collaborators loss_four (Raise ValueError) no_config in
  let s := state0 loss_four (Raise ValueError) no_config 3 5 in
  fst (evaluate (C := C) dataset_val_failing true (Some 1) s)
  = Raise (CollaboratorError 1).
Proof.
  cbv zeta.
  apply (evaluate_raises_what_the_next_pull_raises
           (C := collaborators loss_four (Raise ValueError) no_config)
           dataset_val_failing true 1
           (state0 loss_four (Raise ValueError) no_config 3 5)
           [batch0] [0] (CollaboratorError 1) []).
  - reflexivity.
  - simpl. lia.
  - repeat constructor.
Defined.

(** X4 on an empty stream with [num_batches = 2], and on a stream of
    one batch with [num_batches = 0]. *)
Lemma evaluate_without_batches_witness :
  let C := collaborators loss_four (Raise ValueError) no_config in
  let s := state0 loss_four (Raise ValueError) no_config 3 5 in
  fst (evaluate (C := C) dataset_empty true (Some 2) s) = Ok 0%float
  ∧ fst (evaluate (C := C) dataset0 true (Some 0) s) = Raise ZeroDivisionError.
Proof.
  cbv zeta. split.
  - apply (evaluate_without_batches
             (C := collaborators loss_four (Raise ValueError) no_config)
             dataset_empty true 2
             (state0 loss_four (Raise ValueError) no_config 3 5) []).
    + reflexivity.
    + by left.
  - apply (evaluate_without_batches
             (C := collaborators loss_four (Raise ValueError) no_config)
             dataset0 true 0
             (state0 loss_four (Raise ValueError) no_config 3 5) [Ok batch0]).
    + reflexivity.
    + right. split; [lia|]. by exists batch0, [].
Defined.

(** X5 on a featurizer that was never fitted. *)
Lemma train_epoch_needs_fit_witness :
  let C := collaborators loss_four (Raise ValueError) no_config in
  let s := state0 loss_four (Raise ValueError) no_config 3 5 in
  fst (_train_epoch (C := C) dataset0 false s) = Raise AttributeError
  ∧ m_parameters (model (st_self (snd (_train_epoch (C := C) dataset0 false s))))
    = m_parameters (model (st_self s)).
Proof.
  cbv zeta.
  apply (train_epoch_needs_fit
           (C := collaborators loss_four (Raise ValueError) no_config)
           dataset0 false
           (state0 loss_four (Raise ValueError) no_config 3 5) batch0 [] 0);
    reflexivity.
Defined.

Lemma run_pair {S A} (m : M S A) (s : S) (r : result A) :
  fst (m s) = r → m s = (r, snd (m s)).
Proof. destruct (m s) as [r' s']. simpl. by intros ->. Defined.

(** X6 on the featurizer a run of [fit] leaves, without progress bar:
    one batch, reported as batch 0. *)
Lemma train_epoch_reports_progress_witness :
  let C := collaborators loss_four (Raise ValueError) no_config in
  let s := snd (fit (C := C) dataset0 false
                  (state0 loss_four (Raise ValueError) no_config 1 5)) in
  let s' := snd (_train_epoch (C := C) dataset0 false s) in
  progress (C := C) false 0 1 = [EvLog (LogSeenBatch 0)]
  ∧ new_events s s'
    = EvLoaderEnter (train_args (m_config (model (st_self s)))
                       (fst (randint (w_rng (st_world s)) 0 100000)))
      :: progress false 0 1 ++ [EvLoaderExit].
Proof.
  cbv zeta. split; [reflexivity|].
  assert (Hrun : fst (_train_epoch
                        (C := collaborators loss_four (Raise ValueError) no_config)
                        dataset0 false
                        (snd (fit (C := collaborators loss_four (Raise ValueError) no_config)
                                dataset0 false
                                (state0 loss_four (Raise ValueError) no_config 1 5))))
                 = Ok tt) by (vm_compute; reflexivity).
  exact (train_epoch_reports_progress
           (C := collaborators loss_four (Raise ValueError) no_config)
           dataset0 false _ _ [Ok batch0] (run_pair _ _ _ Hrun) eq_refl).
Defined.

(** X7 on a configuration with [epochs_per_cycle = 0]: the state is
    the one before the call, the model being in training mode already. *)
Lemma fit_zero_epochs_witness :
  let C := collaborators loss_four (Raise ValueError) no_config in
  let s := state0 loss_four (Raise ValueError) no_config 0 5 in
  fit (C := C) dataset0 true s = (Raise ZeroDivisionError, s).
Proof.
  cbv zeta.
  exact (fit_zero_epochs
           (C := collaborators loss_four (Raise ValueError) no_config)
           dataset0 true
           (state0 loss_four (Raise ValueError) no_config 0 5) eq_refl).
Defined.

(** X8 on a run of three epochs with the val losses NaN, 0.5, 0.5. *)
Lemma fit_nan_first_epoch_witness :
  let C := collaborators losses_nan_first (Raise ValueError) no_config in
  let s := state0 losses_nan_first (Raise ValueError) no_config 3 5 in
  let s' := snd (fit (C := C) dataset0 false s) in
  val_losses (marks (new_events s s')) = [nan; 0.5; 0.5]%float
  ∧ ∃ sd, saves (marks (new_events s s')) = [(0, sd)]
          ∧ w_fs (st_world s') !! "m/best" = Some (FStateDict sd).
Proof.
  cbv zeta. split; [vm_compute; reflexivity|].
  assert (Hfit : fst (fit (C := collaborators losses_nan_first (Raise ValueError) no_config)
                        dataset0 false
                        (state0 losses_nan_first (Raise ValueError) no_config 3 5)) = Ok tt)
    by (vm_compute; reflexivity).
  apply (fit_nan_first_epoch
           (C := collaborators losses_nan_first (Raise ValueError) no_config)
           dataset0 false
           (state0 losses_nan_first (Raise ValueError) no_config 3 5) _ nan
           (run_pair _ _ _ Hfit)).
  - vm_compute. reflexivity.
  - reflexivity.
Defined.

(** X9 on a model directory that holds the checkpoint of an earlier run. *)
Lemma fit_replaces_earlier_checkpoint_witness :
  let C := collaborators loss_four (Raise ValueError) no_config in
  let s := state_in loss_four (Raise ValueError) no_config (model_dir0 loss_four (Raise ValueError) no_config) 1 5 in
  let s' := snd (fit (C := C) dataset0 false s) in
  w_fs (st_world s) !! "m/best" = Some (FStateDict [("w", 9); ("frozen", 9)])
  ∧ w_fs (st_world s') !! "m/best" = Some (FStateDict [("w", 1); ("frozen", 0)])
  ∧ ∃ sd0 rest e sd,
      saves (marks (new_events s s')) = (0, sd0) :: rest
      ∧ last (saves (marks (new_events s s'))) = Some (e, sd)
      ∧ w_fs (st_world s') !! "m/best" = Some (FStateDict sd)
      ∧ (is_Some (w_fs (st_world s) !! "m/best") →
         MUnlink "m/best" ∈ marks (new_events s s')).
Proof.
  cbv zeta. split; [vm_compute; reflexivity|]. split; [vm_compute; reflexivity|].
  assert (Hfit : fst (fit (C := collaborators loss_four (Raise ValueError) no_config)
                        dataset0 false
                        (state_in loss_four (Raise ValueError) no_config (model_dir0 loss_four (Raise ValueError) no_config) 1 5))
                 = Ok tt)
    by (vm_compute; reflexivity).
  apply (fit_replaces_earlier_checkpoint
           (C := collaborators loss_four (Raise ValueError) no_config)
           dataset0 false
           (state_in loss_four (Raise ValueError) no_config (model_dir0 loss_four (Raise ValueError) no_config) 1 5) _
           (run_pair _ _ _ Hfit)).
  simpl. lia.
Defined.

(** X10 on a run of one epoch. *)
Lemma fit_leaves_eval_mode_witness :
  let C := collaborators loss_four (Raise ValueError) no_config in
  let s := state0 loss_four (Raise ValueError) no_config 1 5 in
  m_training (model (st_self s)) = true
  ∧ m_training (model (st_self (snd (fit (C := C) dataset0 false s)))) = false.
Proof.
  cbv zeta. split; [reflexivity|].
  assert (Hfit : fst (fit (C := collaborators loss_four (Raise ValueError) no_config)
                        dataset0 false
                        (state0 loss_four (Raise ValueError) no_config 1 5)) = Ok tt)
    by (vm_compute; reflexivity).
  apply (fit_leaves_eval_mode
           (C := collaborators loss_four (Raise ValueError) no_config)
           dataset0 false
           (state0 loss_four (Raise ValueError) no_config 1 5) _
           (run_pair _ _ _ Hfit)).
  simpl. lia.
Defined.


(** X12 on a model directory with a configuration and metadata. *)
Lemma fit_then_from_pretrained_witness :
  let C := collaborators loss_four (Raise ValueError) parse_config0 in
  let s := state_in loss_four (Raise ValueError) parse_config0 (model_dir0 loss_four (Raise ValueError) parse_config0) 1 5 in
  let s' := snd (fit (C := C) dataset0 false s) in
  ∃ e sd,
    last (saves (marks (new_events s s'))) = Some (e, sd)
    ∧ fst (from_pretrained (C := C) "m" (st_world s'))
      = rbind (load_state_dict
                 [ {| p_name := "w"; p_requires_grad := true; p_data := 0 |};
                   {| p_name := "frozen"; p_requires_grad := false; p_data := 0 |} ] sd)
              (fun ps' => Ok (pretrained (config0 1) tt Cpu ps')).
Proof.
  cbv zeta.
  assert (Hfit : fst (fit (C := collaborators loss_four (Raise ValueError) parse_config0)
                        dataset0 false
                        (state_in loss_four (Raise ValueError) parse_config0 (model_dir0 loss_four (Raise ValueError) parse_config0) 1 5))
                 = Ok tt)
    by (vm_compute; reflexivity).
  apply (fit_then_from_pretrained
           (C := collaborators loss_four (Raise ValueError) parse_config0)
           dataset0 false
           (state_in loss_four (Raise ValueError) parse_config0 (model_dir0 loss_four (Raise ValueError) parse_config0) 1 5) _
           "{}" "{}" (config0 1) tt _
           (run_pair _ _ _ Hfit)).
  - simpl. lia.
  - vm_compute. reflexivity.
  - reflexivity.
  - vm_compute. reflexivity.
  - reflexivity.
  - reflexivity.
Defined.

(** X13 on an empty file system. *)
Lemma fit_alone_is_not_loadable_witness :
  let C := collaborators loss_four (Raise ValueError) parse_config0 in
  let s := state0 loss_four (Raise ValueError) parse_config0 1 5 in
  fst (fit (C := C) dataset0 false s) = Ok tt
  ∧ fst (from_pretrained (C := C) "m" (st_world (snd (fit (C := C) dataset0 false s))))
    = Raise FileNotFoundError.
Proof.
  cbv zeta. split; [vm_compute; reflexivity|].
  apply (fit_alone_is_not_loadable
           (C := collaborators loss_four (Raise ValueError) parse_config0)
           dataset0 false
           (state0 loss_four (Raise ValueError) parse_config0 1 5)).
  vm_compute. reflexivity.
Defined.

(** X15 on the query [(7, 1); (8, 0)], patient 7 being streamed. *)
Lemma featurize_patients_shape_witness :
  let C := collaborators loss_four (Ok dataset0) no_config in
  let s := state0 loss_four (Ok dataset0) no_config 1 5 in
  let M := [[3; 4]; [0; 0]]%float in
  fst (featurize_patients (C := C) "x" [7; 8] [1; 0] s) = Ok M
  ∧ length M = 2%nat
  ∧ Forall (fun row => length row = 2%nat) M.
Proof.
  cbv zeta. split; [vm_compute; reflexivity|].
  apply (featurize_patients_shape
           (C := collaborators loss_four (Ok dataset0) no_config)
           "x" [7; 8] [1; 0]
           (state0 loss_four (Ok dataset0) no_config 1 5)).
  vm_compute. reflexivity.
Defined.

(** X16 on the patient ids [8; 7] with the single offset [0]. *)
Lemma featurize_patients_unpaired_ids_witness :
  let C := collaborators loss_four (Ok dataset0) no_config in
  let s := state0 loss_four (Ok dataset0) no_config 1 5 in
  ∃ M, fst (featurize_patients (C := C) "x" [8; 7] [0] s) = Ok M
       ∧ length M = 2%nat
       ∧ M !! 1%nat = Some (zeros 2).
Proof.
  cbv zeta.
  apply (featurize_patients_unpaired_ids
           (C := collaborators loss_four (Ok dataset0) no_config)
           "x" [8; 7] [0]
           (state0 loss_four (Ok dataset0) no_config 1 5)
           [(batch0, [[[1; 2]; [3; 4]]]%float)] 1).
  - simpl. lia.
  - apply demo_streams.
  - reflexivity.
  - simpl. lia.
Defined.

End FurtherRuns.
